(** * The in-browser relational store of the quiz application

    A shallow embedding of [src/components/databaseServiceFixed.ts]
    (class [LocalDatabaseService]) and of the tenant-scoping adapter in
    [src/components/dataServiceNew.ts] (class [DataServiceAdapter]), with the
    properties of the data layer stated and proved over it.

    Modelling conventions.
    - A [DatabaseTable<T>] (a plain JS object used as a map) is an association
      list in [Object.values] order.  A JS object has no duplicate keys, which
      is the invariant [table_ok]; no key written is the name of a member of
      [Object.prototype] and no key is an array index, so a new key goes to
      the end of the iteration order.
    - The read [table[id]] finds the row under the own key [id] and, when
      there is none, the member of [Object.prototype] that [id] names
      ('constructor', 'toString', ...), which is truthy.  [getTenant] and
      the three delete methods only test what they find, or hand its
      [settings_json] to [JSON.parse]: they are modelled on every id.  A
      method that goes on to write to what it found, or to build its result
      from it ([updateTenant], [updateQuizSet], [updateUserStatus],
      [getQuizSetById], [getCurrentUser], the user of a test result), would
      work on a built-in object of the runtime, which the world below does
      not hold: these are modelled on own keys, and each statement of what
      such a method returns on an id that is no key says that the id names
      no member of [Object.prototype].
    - Strings are [string]; a character stands for one UTF-16 code unit
      below 256.  Numbers are integers ([Z]): every number the application
      stores is a count, a number of seconds or a [Math.round]ed percentage.
    - [undefined] on an optional field is [None].
    - The store is a singleton mutated in place: every method is a function
      on the [World] (the schema and the number of clock and random readings
      taken so far), in a state-and-exception monad.
    - What the browser supplies ([JSON], [Array.prototype.sort], [Date],
      [Math.random], [TextEncoder]) is the interface [JsRuntime]. *)

From Stdlib Require Import String Ascii List ZArith Bool Lia Permutation Arith.
From Stdlib Require Decimal DecimalN.
Import ListNotations.
Open Scope string_scope.

Set Implicit Arguments.
Set Warnings "-register-all".

(* ===================================================================== *)
(** * JavaScript values the store exchanges with its runtime *)
(* ===================================================================== *)

(** The value of a JSON text. *)
Inductive json : Type :=
| JNull
| JBool (b : bool)
| JNum (z : Z)
| JStr (s : string)
| JArr (l : list json)
| JObj (l : list (string * json)).

(** What a thrown value is: [new Error(message)], or the [SyntaxError] of
    [JSON.parse], or the [TypeError] of a property read on [null]. *)
Inductive Error : Type :=
| JsError (message : string)
| SyntaxError
| TypeError.

(** [if (s)] on a string. *)
Definition truthy (s : string) : bool := negb (s =? "").

(** [if (x)] on an optional string: [undefined] and the empty string are
    falsy. *)
Definition truthy_opt (o : option string) : bool :=
  match o with
  | Some s => truthy s
  | None => false
  end.

(** [a === b] where [a] may be [undefined] and [b] is a string. *)
Definition opt_eqb (a : option string) (b : string) : bool :=
  match a with
  | Some s => s =? b
  | None => false
  end.

(** [if (v)] on a parsed JSON value. *)
Definition json_truthy (v : json) : bool :=
  match v with
  | JNull => false
  | JBool b => b
  | JNum z => negb (z =? 0)%Z
  | JStr s => truthy s
  | JArr _ => true
  | JObj _ => true
  end.

(** The browser's part.  [Date_toISOString n] is what the [n]-th evaluation
    of [new Date().toISOString()] returns and [Math_random_id n] what the
    [n]-th call of [generateId] computes from [Math.random()] and
    [Date.now()]; [Date_getTime s] is [new Date(s).getTime()], [None] for
    [NaN].  A comparator returns [None] for [NaN]. *)
Class JsRuntime : Type := {
  JSON_stringify : json -> string;
  JSON_parse : string -> option json;
  JSON_parse_stringify : forall j, JSON_parse (JSON_stringify j) = Some j;
  TextEncoder_encode : string -> list ascii;
  TextDecoder_decode : list ascii -> string;
  TextDecoder_encode : forall s, TextDecoder_decode (TextEncoder_encode s) = s;
  Array_sort : forall A : Type, (A -> A -> option Z) -> list A -> list A;
  Array_sort_perm : forall (A : Type) cmp (l : list A),
      Permutation (Array_sort cmp l) l;
  Date_getTime : string -> option Z;
  Date_toISOString : nat -> string;
  Math_random_id : nat -> string
}.

(* ===================================================================== *)
(** * Tables *)
(* ===================================================================== *)

Definition DatabaseTable (T : Type) : Type := list (string * T).

Section Tables.
Variable T : Type.

(** [Object.keys(t)] and [Object.values(t)]. *)
Definition Object_keys (t : DatabaseTable T) : list string := map fst t.
Definition Object_values (t : DatabaseTable T) : list T := map snd t.

(** The row under the own key [k]: [t[k]] when [t] has that key. *)
Fixpoint tbl_get (k : string) (t : DatabaseTable T) : option T :=
  match t with
  | [] => None
  | (k', v) :: t' => if k' =? k then Some v else tbl_get k t'
  end.

(** [t[k] = v]: an existing key keeps its place. *)
Fixpoint tbl_set (k : string) (v : T) (t : DatabaseTable T) : DatabaseTable T :=
  match t with
  | [] => [(k, v)]
  | (k', v') :: t' =>
      if k' =? k then (k', v) :: t' else (k', v') :: tbl_set k v t'
  end.

(** [delete t[k]]. *)
Definition tbl_delete (k : string) (t : DatabaseTable T) : DatabaseTable T :=
  filter (fun e => negb (fst e =? k)) t.

(** No key occurs twice. *)
Fixpoint nodupb (l : list string) : bool :=
  match l with
  | [] => true
  | k :: l' => negb (existsb (String.eqb k) l') && nodupb l'
  end.

(** The invariant of a table: it is a JS object (no key twice) and every
    row is stored under its own [id]. *)
Definition table_ok (id : T -> string) (t : DatabaseTable T) : bool :=
  nodupb (Object_keys t) && forallb (fun e => id (snd e) =? fst e) t.

End Tables.

(** The names of the members of [Object.prototype], which every plain
    object inherits.  Eleven are functions; [__proto__] is an accessor that
    answers [Object.prototype] itself.  None has a property [settings_json]. *)
Definition Object_prototype_names : list string :=
  ["constructor"; "__defineGetter__"; "__defineSetter__"; "hasOwnProperty";
   "__lookupGetter__"; "__lookupSetter__"; "isPrototypeOf";
   "propertyIsEnumerable"; "toString"; "valueOf"; "__proto__";
   "toLocaleString"].

Definition Object_prototype_member (k : string) : bool :=
  existsb (String.eqb k) Object_prototype_names.

(** [!!t[k]]: a row is an object, hence truthy, and so is the member of
    [Object.prototype] that the read finds when [t] has no own key [k]. *)
Definition tbl_truthy (T : Type) (k : string) (t : DatabaseTable T) : bool :=
  match tbl_get k t with
  | Some _ => true
  | None => Object_prototype_member k
  end.

(* ===================================================================== *)
(** * The schema ([DatabaseSchema] and its row types) *)
(* ===================================================================== *)

Inductive TenantStatus : Type := TenantPending | TenantApproved | TenantRejected.
Inductive Role : Type := ProductAdmin | Admin | Member.
Inductive UserStatus : Type := Active | Pending | Suspended.
Inductive ChoiceType : Type := Radio | MultipleChoice.

Module TenantRecord.
Record t : Type := mk {
  id : string;
  name : string;
  description : string;
  domain : option string;
  status : TenantStatus;
  is_active : bool;
  created_by : string;
  created_at : string;
  updated_at : string;
  approved_by : option string;
  approved_at : option string;
  rejection_reason : option string;
  settings_json : string
}.
End TenantRecord.

Module UserRecord.
Record t : Type := mk {
  id : string;
  name : string;
  email : string;
  password_hash : string;
  role : Role;
  tenant_id : option string;
  status : UserStatus;
  created_at : string
}.
Definition set_status (s : UserStatus) (r : t) : t :=
  mk (id r) (name r) (email r) (password_hash r) (role r) (tenant_id r) s
     (created_at r).
End UserRecord.

Module QuizSetRecord.
Record t : Type := mk {
  id : string;
  name : string;
  description : string;
  is_published : bool;
  tenant_id : option string;
  created_by : string;
  created_at : string;
  updated_at : string
}.
End QuizSetRecord.

Module QuizQuestionRecord.
Record t : Type := mk {
  id : string;
  quiz_set_id : string;
  image_url : string;
  image_desc : string;
  question : string;
  choice_type : ChoiceType;
  options_json : string;
  correct_answer_json : string;
  order_index : Z
}.
End QuizQuestionRecord.

Module UserAttemptRecord.
Record t : Type := mk {
  id : string;
  user_id : string;
  tenant_id : option string;
  quiz_set_id : string;
  score : Z;
  total_questions : Z;
  percentage : Z;
  time_remaining : Z;
  time_taken : Z;
  completed_at : string;
  quiz_type : string
}.
End UserAttemptRecord.

Module AttemptAnswerRecord.
Record t : Type := mk {
  id : string;
  attempt_id : string;
  question_id : string;
  user_answer_json : string;
  is_correct : bool
}.
End AttemptAnswerRecord.

Module UserSessionRecord.
Record t : Type := mk {
  id : string;
  user_id : string
}.
End UserSessionRecord.

Module MetadataRecord.
Record t : Type := mk {
  version : string;
  last_updated : string
}.
End MetadataRecord.

Record DatabaseSchema : Type := mkSchema {
  tenants : DatabaseTable TenantRecord.t;
  users : DatabaseTable UserRecord.t;
  quiz_sets : DatabaseTable QuizSetRecord.t;
  quiz_questions : DatabaseTable QuizQuestionRecord.t;
  user_attempts : DatabaseTable UserAttemptRecord.t;
  attempt_answers : DatabaseTable AttemptAnswerRecord.t;
  user_sessions : DatabaseTable UserSessionRecord.t;
  metadata : DatabaseTable MetadataRecord.t
}.

Definition with_tenants (x : DatabaseTable TenantRecord.t) (d : DatabaseSchema) :=
  mkSchema x (users d) (quiz_sets d) (quiz_questions d) (user_attempts d)
           (attempt_answers d) (user_sessions d) (metadata d).
Definition with_users (x : DatabaseTable UserRecord.t) (d : DatabaseSchema) :=
  mkSchema (tenants d) x (quiz_sets d) (quiz_questions d) (user_attempts d)
           (attempt_answers d) (user_sessions d) (metadata d).
Definition with_quiz_sets (x : DatabaseTable QuizSetRecord.t) (d : DatabaseSchema) :=
  mkSchema (tenants d) (users d) x (quiz_questions d) (user_attempts d)
           (attempt_answers d) (user_sessions d) (metadata d).
Definition with_quiz_questions (x : DatabaseTable QuizQuestionRecord.t)
    (d : DatabaseSchema) :=
  mkSchema (tenants d) (users d) (quiz_sets d) x (user_attempts d)
           (attempt_answers d) (user_sessions d) (metadata d).
Definition with_user_attempts (x : DatabaseTable UserAttemptRecord.t)
    (d : DatabaseSchema) :=
  mkSchema (tenants d) (users d) (quiz_sets d) (quiz_questions d) x
           (attempt_answers d) (user_sessions d) (metadata d).
Definition with_user_sessions (x : DatabaseTable UserSessionRecord.t)
    (d : DatabaseSchema) :=
  mkSchema (tenants d) (users d) (quiz_sets d) (quiz_questions d)
           (user_attempts d) (attempt_answers d) x (metadata d).
Definition with_metadata (x : DatabaseTable MetadataRecord.t) (d : DatabaseSchema) :=
  mkSchema (tenants d) (users d) (quiz_sets d) (quiz_questions d)
           (user_attempts d) (attempt_answers d) (user_sessions d) x.

(* ===================================================================== *)
(** * The objects of [types.ts] the methods take and return *)
(* ===================================================================== *)

Module Tenant.
Record t : Type := mk {
  id : string;
  name : string;
  description : string;
  domain : option string;
  status : TenantStatus;
  isActive : bool;
  createdBy : string;
  createdAt : string;
  updatedAt : string;
  approvedBy : option string;
  approvedAt : option string;
  rejectionReason : option string;
  settings : json
}.
End Tenant.

(** [Partial<Tenant>], with the fields [updateTenant] reads. *)
Module TenantUpdates.
Record t : Type := mk {
  name : option string;
  description : option string;
  domain : option string;
  isActive : option bool;
  settings : option json;
  updatedAt : option string;
  status : option TenantStatus;
  approvedBy : option string;
  approvedAt : option string;
  rejectionReason : option string
}.
Definition none : t := mk None None None None None None None None None None.
End TenantUpdates.

(** [Partial<QuizSet>], with the fields [updateQuizSet] reads. *)
Module QuizSetUpdates.
Record t : Type := mk {
  name : option string;
  description : option string;
  isPublished : option bool
}.
End QuizSetUpdates.

Module User.
Record t : Type := mk {
  id : string;
  name : string;
  email : string;
  role : Role;
  tenantId : option string;
  status : UserStatus;
  createdAt : string
}.
End User.

Module QuizQuestion.
Record t : Type := mk {
  imageurl : string;
  imagedesc : string;
  question : string;
  choice_type : ChoiceType;
  options : json;
  correct_answer : json
}.
End QuizQuestion.

Module QuizSet.
Record t : Type := mk {
  id : string;
  name : string;
  description : string;
  questions : list QuizQuestion.t;
  isPublished : bool;
  tenantId : option string;
  createdBy : string;
  createdAt : string;
  updatedAt : string
}.
End QuizSet.

Module Answer.
Record t : Type := mk {
  questionIndex : Z;
  question : string;
  selectedAnswers : list string;
  correctAnswers : list string;
  isCorrect : bool
}.
End Answer.

Module TestResult.
Record t : Type := mk {
  id : string;
  userId : string;
  tenantId : option string;
  userName : string;
  userEmail : string;
  score : Z;
  totalQuestions : Z;
  percentage : Z;
  timeRemaining : Z;
  timeTaken : Z;
  completedAt : string;
  quizType : string;
  questionsUsed : list QuizQuestion.t;
  answers : list Answer.t
}.
End TestResult.

(** [Omit<TestResult, 'id'> & { quizSetId?: string }], the argument of
    [saveTestResult]. *)
Module NewTestResult.
Record t : Type := mk {
  userId : string;
  tenantId : option string;
  userName : string;
  userEmail : string;
  score : Z;
  totalQuestions : Z;
  percentage : Z;
  timeRemaining : Z;
  timeTaken : Z;
  completedAt : string;
  quizType : string;
  questionsUsed : list QuizQuestion.t;
  answers : list Answer.t;
  quizSetId : option string
}.
End NewTestResult.

(* ===================================================================== *)
(** * The monad of the store's methods *)
(* ===================================================================== *)

(** The mutable [db] of the singleton, and how many times the clock and
    [generateId] have been read. *)
Record World : Type := mkWorld {
  db : DatabaseSchema;
  clock : nat;
  entropy : nat
}.

Inductive Outcome (A : Type) : Type :=
| Return (a : A)
| Throw (e : Error).
Arguments Throw {A} e.

Definition M (A : Type) : Type := World -> Outcome A * World.

Definition ret {A} (a : A) : M A := fun w => (Return a, w).

Definition throw {A} (e : Error) : M A := fun w => (Throw e, w).

Definition bind {A B} (m : M A) (k : A -> M B) : M B :=
  fun w =>
    match m w with
    | (Return a, w') => k a w'
    | (Throw e, w') => (Throw e, w')
    end.

Declare Scope js_scope.
Delimit Scope js_scope with js.
Notation "x <- m ;; k" := (bind m (fun x => k))
  (at level 61, m at next level, right associativity) : js_scope.
Notation "m ;; k" := (bind m (fun _ => k))
  (at level 61, right associativity) : js_scope.
Open Scope js_scope.

(** [try { m } catch (error) { h }]. *)
Definition try_catch {A} (m : M A) (h : Error -> M A) : M A :=
  fun w =>
    match m w with
    | (Return a, w') => (Return a, w')
    | (Throw e, w') => h e w'
    end.

(** Reading and replacing [this.db]. *)
Definition get_db : M DatabaseSchema := fun w => (Return (db w), w).

Definition set_db (d : DatabaseSchema) : M unit :=
  fun w => (Return tt, mkWorld d (clock w) (entropy w)).

Definition modify_db (f : DatabaseSchema -> DatabaseSchema) : M unit :=
  fun w => (Return tt, mkWorld (f (db w)) (clock w) (entropy w)).

(** A callback that can throw, run by [Array.prototype.forEach]. *)
Fixpoint forEach {A} (array : list A) (callback : A -> M unit) : M unit :=
  match array with
  | [] => ret tt
  | x :: others => callback x ;; forEach others callback
  end.

(** A callback that can throw, run by [Array.prototype.map]. *)
Fixpoint mapM {A B} (callback : A -> M B) (array : list A) : M (list B) :=
  match array with
  | [] => ret []
  | x :: others =>
      y <- callback x ;;
      ys <- mapM callback others ;;
      ret (y :: ys)
  end.

(** A result that was thrown or returned. *)
Definition lift {A} (o : Outcome A) : M A := fun w => (o, w).

(* ===================================================================== *)
(** * The schema as a JSON value *)
(* ===================================================================== *)

(** What [JSON.stringify(this.db)] serialises and how the value that
    [JSON.parse] returns is read back as a schema.  A property whose value
    is [undefined] is left out by [JSON.stringify]; a property that is
    missing reads as [undefined]. *)
Module Blob.

Definition str (k v : string) : list (string * json) := [(k, JStr v)].
Definition num (k : string) (v : Z) : list (string * json) := [(k, JNum v)].
Definition boolean (k : string) (v : bool) : list (string * json) := [(k, JBool v)].
Definition opt_str (k : string) (v : option string) : list (string * json) :=
  match v with
  | Some s => [(k, JStr s)]
  | None => []
  end.

(** [o[k]] on the members of an object. *)
Fixpoint member (k : string) (l : list (string * json)) : option json :=
  match l with
  | [] => None
  | (k', v) :: l' => if k' =? k then Some v else member k l'
  end.

Definition read_str (k : string) (l : list (string * json)) : option string :=
  match member k l with
  | Some (JStr s) => Some s
  | _ => None
  end.

Definition read_num (k : string) (l : list (string * json)) : option Z :=
  match member k l with
  | Some (JNum z) => Some z
  | _ => None
  end.

Definition read_bool (k : string) (l : list (string * json)) : option bool :=
  match member k l with
  | Some (JBool b) => Some b
  | _ => None
  end.

Definition read_opt_str (k : string) (l : list (string * json))
  : option (option string) :=
  match member k l with
  | Some (JStr s) => Some (Some s)
  | None => Some None
  | _ => None
  end.

Definition TenantStatus_string (s : TenantStatus) : string :=
  match s with
  | TenantPending => "pending"
  | TenantApproved => "approved"
  | TenantRejected => "rejected"
  end.

Definition TenantStatus_of_string (s : string) : option TenantStatus :=
  if s =? "pending" then Some TenantPending
  else if s =? "approved" then Some TenantApproved
  else if s =? "rejected" then Some TenantRejected
  else None.

Definition Role_string (r : Role) : string :=
  match r with
  | ProductAdmin => "product-admin"
  | Admin => "admin"
  | Member => "user"
  end.

Definition Role_of_string (s : string) : option Role :=
  if s =? "product-admin" then Some ProductAdmin
  else if s =? "admin" then Some Admin
  else if s =? "user" then Some Member
  else None.

Definition UserStatus_string (s : UserStatus) : string :=
  match s with
  | Active => "active"
  | Pending => "pending"
  | Suspended => "suspended"
  end.

Definition UserStatus_of_string (s : string) : option UserStatus :=
  if s =? "active" then Some Active
  else if s =? "pending" then Some Pending
  else if s =? "suspended" then Some Suspended
  else None.

Definition ChoiceType_string (c : ChoiceType) : string :=
  match c with
  | Radio => "radio"
  | MultipleChoice => "multiplechoice"
  end.

Definition ChoiceType_of_string (s : string) : option ChoiceType :=
  if s =? "radio" then Some Radio
  else if s =? "multiplechoice" then Some MultipleChoice
  else None.

Definition obind {A B} (o : option A) (k : A -> option B) : option B :=
  match o with
  | Some a => k a
  | None => None
  end.

Notation "x <-? o ;; k" := (obind o (fun x => k))
  (at level 61, o at next level, right associativity).

Definition tenant_json (r : TenantRecord.t) : json :=
  JObj (str "id" (TenantRecord.id r)
     ++ str "name" (TenantRecord.name r)
     ++ str "description" (TenantRecord.description r)
     ++ opt_str "domain" (TenantRecord.domain r)
     ++ str "status" (TenantStatus_string (TenantRecord.status r))
     ++ boolean "is_active" (TenantRecord.is_active r)
     ++ str "created_by" (TenantRecord.created_by r)
     ++ str "created_at" (TenantRecord.created_at r)
     ++ str "updated_at" (TenantRecord.updated_at r)
     ++ opt_str "approved_by" (TenantRecord.approved_by r)
     ++ opt_str "approved_at" (TenantRecord.approved_at r)
     ++ opt_str "rejection_reason" (TenantRecord.rejection_reason r)
     ++ str "settings_json" (TenantRecord.settings_json r)).

Definition tenant_of_json (v : json) : option TenantRecord.t :=
  match v with
  | JObj l =>
      id <-? read_str "id" l ;;
      name <-? read_str "name" l ;;
      description <-? read_str "description" l ;;
      domain <-? read_opt_str "domain" l ;;
      status <-? obind (read_str "status" l) TenantStatus_of_string ;;
      is_active <-? read_bool "is_active" l ;;
      created_by <-? read_str "created_by" l ;;
      created_at <-? read_str "created_at" l ;;
      updated_at <-? read_str "updated_at" l ;;
      approved_by <-? read_opt_str "approved_by" l ;;
      approved_at <-? read_opt_str "approved_at" l ;;
      rejection_reason <-? read_opt_str "rejection_reason" l ;;
      settings_json <-? read_str "settings_json" l ;;
      Some (TenantRecord.mk id name description domain status is_active
              created_by created_at updated_at approved_by approved_at
              rejection_reason settings_json)
  | _ => None
  end.

Definition user_json (r : UserRecord.t) : json :=
  JObj (str "id" (UserRecord.id r)
     ++ str "name" (UserRecord.name r)
     ++ str "email" (UserRecord.email r)
     ++ str "password_hash" (UserRecord.password_hash r)
     ++ str "role" (Role_string (UserRecord.role r))
     ++ opt_str "tenant_id" (UserRecord.tenant_id r)
     ++ str "status" (UserStatus_string (UserRecord.status r))
     ++ str "created_at" (UserRecord.created_at r)).

Definition user_of_json (v : json) : option UserRecord.t :=
  match v with
  | JObj l =>
      id <-? read_str "id" l ;;
      name <-? read_str "name" l ;;
      email <-? read_str "email" l ;;
      password_hash <-? read_str "password_hash" l ;;
      role <-? obind (read_str "role" l) Role_of_string ;;
      tenant_id <-? read_opt_str "tenant_id" l ;;
      status <-? obind (read_str "status" l) UserStatus_of_string ;;
      created_at <-? read_str "created_at" l ;;
      Some (UserRecord.mk id name email password_hash role tenant_id status
              created_at)
  | _ => None
  end.

Definition quiz_set_json (r : QuizSetRecord.t) : json :=
  JObj (str "id" (QuizSetRecord.id r)
     ++ str "name" (QuizSetRecord.name r)
     ++ str "description" (QuizSetRecord.description r)
     ++ boolean "is_published" (QuizSetRecord.is_published r)
     ++ opt_str "tenant_id" (QuizSetRecord.tenant_id r)
     ++ str "created_by" (QuizSetRecord.created_by r)
     ++ str "created_at" (QuizSetRecord.created_at r)
     ++ str "updated_at" (QuizSetRecord.updated_at r)).

Definition quiz_set_of_json (v : json) : option QuizSetRecord.t :=
  match v with
  | JObj l =>
      id <-? read_str "id" l ;;
      name <-? read_str "name" l ;;
      description <-? read_str "description" l ;;
      is_published <-? read_bool "is_published" l ;;
      tenant_id <-? read_opt_str "tenant_id" l ;;
      created_by <-? read_str "created_by" l ;;
      created_at <-? read_str "created_at" l ;;
      updated_at <-? read_str "updated_at" l ;;
      Some (QuizSetRecord.mk id name description is_published tenant_id
              created_by created_at updated_at)
  | _ => None
  end.

Definition quiz_question_json (r : QuizQuestionRecord.t) : json :=
  JObj (str "id" (QuizQuestionRecord.id r)
     ++ str "quiz_set_id" (QuizQuestionRecord.quiz_set_id r)
     ++ str "image_url" (QuizQuestionRecord.image_url r)
     ++ str "image_desc" (QuizQuestionRecord.image_desc r)
     ++ str "question" (QuizQuestionRecord.question r)
     ++ str "choice_type" (ChoiceType_string (QuizQuestionRecord.choice_type r))
     ++ str "options_json" (QuizQuestionRecord.options_json r)
     ++ str "correct_answer_json" (QuizQuestionRecord.correct_answer_json r)
     ++ num "order_index" (QuizQuestionRecord.order_index r)).

Definition quiz_question_of_json (v : json) : option QuizQuestionRecord.t :=
  match v with
  | JObj l =>
      id <-? read_str "id" l ;;
      quiz_set_id <-? read_str "quiz_set_id" l ;;
      image_url <-? read_str "image_url" l ;;
      image_desc <-? read_str "image_desc" l ;;
      question <-? read_str "question" l ;;
      choice_type <-? obind (read_str "choice_type" l) ChoiceType_of_string ;;
      options_json <-? read_str "options_json" l ;;
      correct_answer_json <-? read_str "correct_answer_json" l ;;
      order_index <-? read_num "order_index" l ;;
      Some (QuizQuestionRecord.mk id quiz_set_id image_url image_desc question
              choice_type options_json correct_answer_json order_index)
  | _ => None
  end.

Definition user_attempt_json (r : UserAttemptRecord.t) : json :=
  JObj (str "id" (UserAttemptRecord.id r)
     ++ str "user_id" (UserAttemptRecord.user_id r)
     ++ opt_str "tenant_id" (UserAttemptRecord.tenant_id r)
     ++ str "quiz_set_id" (UserAttemptRecord.quiz_set_id r)
     ++ num "score" (UserAttemptRecord.score r)
     ++ num "total_questions" (UserAttemptRecord.total_questions r)
     ++ num "percentage" (UserAttemptRecord.percentage r)
     ++ num "time_remaining" (UserAttemptRecord.time_remaining r)
     ++ num "time_taken" (UserAttemptRecord.time_taken r)
     ++ str "completed_at" (UserAttemptRecord.completed_at r)
     ++ str "quiz_type" (UserAttemptRecord.quiz_type r)).

Definition user_attempt_of_json (v : json) : option UserAttemptRecord.t :=
  match v with
  | JObj l =>
      id <-? read_str "id" l ;;
      user_id <-? read_str "user_id" l ;;
      tenant_id <-? read_opt_str "tenant_id" l ;;
      quiz_set_id <-? read_str "quiz_set_id" l ;;
      score <-? read_num "score" l ;;
      total_questions <-? read_num "total_questions" l ;;
      percentage <-? read_num "percentage" l ;;
      time_remaining <-? read_num "time_remaining" l ;;
      time_taken <-? read_num "time_taken" l ;;
      completed_at <-? read_str "completed_at" l ;;
      quiz_type <-? read_str "quiz_type" l ;;
      Some (UserAttemptRecord.mk id user_id tenant_id quiz_set_id score
              total_questions percentage time_remaining time_taken
              completed_at quiz_type)
  | _ => None
  end.

Definition attempt_answer_json (r : AttemptAnswerRecord.t) : json :=
  JObj (str "id" (AttemptAnswerRecord.id r)
     ++ str "attempt_id" (AttemptAnswerRecord.attempt_id r)
     ++ str "question_id" (AttemptAnswerRecord.question_id r)
     ++ str "user_answer_json" (AttemptAnswerRecord.user_answer_json r)
     ++ boolean "is_correct" (AttemptAnswerRecord.is_correct r)).

Definition attempt_answer_of_json (v : json) : option AttemptAnswerRecord.t :=
  match v with
  | JObj l =>
      id <-? read_str "id" l ;;
      attempt_id <-? read_str "attempt_id" l ;;
      question_id <-? read_str "question_id" l ;;
      user_answer_json <-? read_str "user_answer_json" l ;;
      is_correct <-? read_bool "is_correct" l ;;
      Some (AttemptAnswerRecord.mk id attempt_id question_id user_answer_json
              is_correct)
  | _ => None
  end.

Definition user_session_json (r : UserSessionRecord.t) : json :=
  JObj (str "id" (UserSessionRecord.id r)
     ++ str "user_id" (UserSessionRecord.user_id r)).

Definition user_session_of_json (v : json) : option UserSessionRecord.t :=
  match v with
  | JObj l =>
      id <-? read_str "id" l ;;
      user_id <-? read_str "user_id" l ;;
      Some (UserSessionRecord.mk id user_id)
  | _ => None
  end.

Definition metadata_json (r : MetadataRecord.t) : json :=
  JObj (str "version" (MetadataRecord.version r)
     ++ str "last_updated" (MetadataRecord.last_updated r)).

Definition metadata_of_json (v : json) : option MetadataRecord.t :=
  match v with
  | JObj l =>
      version <-? read_str "version" l ;;
      last_updated <-? read_str "last_updated" l ;;
      Some (MetadataRecord.mk version last_updated)
  | _ => None
  end.

Section Table.
Variable T : Type.
Variable row_json : T -> json.
Variable row_of_json : json -> option T.

Definition table_json (t : DatabaseTable T) : json :=
  JObj (map (fun e => (fst e, row_json (snd e))) t).

Fixpoint rows_of_json (l : list (string * json)) : option (DatabaseTable T) :=
  match l with
  | [] => Some []
  | (k, v) :: l' =>
      r <-? row_of_json v ;;
      t <-? rows_of_json l' ;;
      Some ((k, r) :: t)
  end.

Definition table_of_json (v : json) : option (DatabaseTable T) :=
  match v with
  | JObj l => rows_of_json l
  | _ => None
  end.

End Table.

Definition schema_json (d : DatabaseSchema) : json :=
  JObj [("tenants", table_json tenant_json (tenants d));
        ("users", table_json user_json (users d));
        ("quiz_sets", table_json quiz_set_json (quiz_sets d));
        ("quiz_questions", table_json quiz_question_json (quiz_questions d));
        ("user_attempts", table_json user_attempt_json (user_attempts d));
        ("attempt_answers", table_json attempt_answer_json (attempt_answers d));
        ("user_sessions", table_json user_session_json (user_sessions d));
        ("metadata", table_json metadata_json (metadata d))].

Definition schema_of_json (v : json) : option DatabaseSchema :=
  match v with
  | JObj l =>
      tenants <-? obind (member "tenants" l) (table_of_json tenant_of_json) ;;
      users <-? obind (member "users" l) (table_of_json user_of_json) ;;
      quiz_sets <-? obind (member "quiz_sets" l) (table_of_json quiz_set_of_json) ;;
      quiz_questions <-?
        obind (member "quiz_questions" l) (table_of_json quiz_question_of_json) ;;
      user_attempts <-?
        obind (member "user_attempts" l) (table_of_json user_attempt_of_json) ;;
      attempt_answers <-?
        obind (member "attempt_answers" l) (table_of_json attempt_answer_of_json) ;;
      user_sessions <-?
        obind (member "user_sessions" l) (table_of_json user_session_of_json) ;;
      metadata <-? obind (member "metadata" l) (table_of_json metadata_of_json) ;;
      Some (mkSchema tenants users quiz_sets quiz_questions user_attempts
              attempt_answers user_sessions metadata)
  | _ => None
  end.

(** [v.k] on any parsed value: a [TypeError] on [null], [undefined] on a
    primitive or an array. *)
Definition property (v : json) (k : string) : Outcome (option json) :=
  match v with
  | JNull => Throw TypeError
  | JObj l => Return (member k l)
  | _ => Return None
  end.

(** [!x] on a property that may be [undefined]. *)
Definition falsy (x : option json) : bool :=
  match x with
  | Some v => negb (json_truthy v)
  | None => true
  end.

End Blob.

(* ===================================================================== *)
(** * Numbers that are not integers *)
(* ===================================================================== *)

(** The statistics divide: the average of the percentages is a JS number
    (a double) that need not be an integer.  [number] is the type of these
    values and the operations are the browser's [x / y], [x * y] and
    [Math.round(x)]; [Number_of_Z] reads an integer as a number.  The counts
    beside the average stay integers. *)
Class JsNumber (number : Type) : Type := {
  Number_of_Z : Z -> number;
  Number_div : number -> number -> number;
  Number_mul : number -> number -> number;
  Math_round : number -> number
}.

(** The object [getTestStatistics] returns. *)
Module ScoreDistribution.
Record t : Type := mk {
  excellent : nat;
  good : nat;
  average : nat;
  poor : nat
}.
End ScoreDistribution.

Module TestStatistics.
Record t (number : Type) : Type := mk {
  totalTests : nat;
  uniqueUsers : nat;
  averageScore : number;
  scoreDistribution : ScoreDistribution.t
}.
End TestStatistics.

(* ===================================================================== *)
(** * [LocalDatabaseService] (databaseServiceFixed.ts) *)
(* ===================================================================== *)

Module LocalDatabaseService.
Section Methods.
Context {rt : JsRuntime}.

Definition DB_VERSION : string := "2.2.0".

(** [new Date().toISOString()]: one more reading of the clock. *)
Definition new_Date_toISOString : M string :=
  fun w => (Return (Date_toISOString (clock w)),
            mkWorld (db w) (S (clock w)) (entropy w)).

(** [generateId()]: one more reading of [Math.random] and [Date.now]. *)
Definition generateId : M string :=
  fun w => (Return (Math_random_id (entropy w)),
            mkWorld (db w) (clock w) (S (entropy w))).

(** [JSON.parse(s)], which throws a [SyntaxError] on a malformed text. *)
Definition JSON_parse_or_throw (s : string) : M json :=
  match JSON_parse s with
  | Some j => ret j
  | None => throw SyntaxError
  end.

(** [saveDatabase()]: stamps [metadata['main']]; the write of the blob to
    [localStorage] that follows is not read back by any method below and a
    failure of it is caught and logged. *)
Definition stamped (now : string) (d : DatabaseSchema) : DatabaseSchema :=
  with_metadata (tbl_set "main" (MetadataRecord.mk DB_VERSION now) (metadata d)) d.

Definition saveDatabase : M unit :=
  now <- new_Date_toISOString ;;
  modify_db (stamped now).

(** ** The password digest *)

(** [x | 0]: the signed 32-bit integer of [x]. *)
Definition toInt32 (x : Z) : Z :=
  ((x + 2147483648) mod 4294967296 - 2147483648)%Z.

(** One round of the loop of [hashPassword]:
    [hash = ((hash << 5) - hash) + char; hash = hash & hash]. *)
Definition hash_step (hash : Z) (c : ascii) : Z :=
  let char := Z.of_nat (nat_of_ascii c) in
  toInt32 (toInt32 (Z.shiftl hash 5) - hash + char)%Z.

Fixpoint hash_loop (combined : string) (hash : Z) : Z :=
  match combined with
  | EmptyString => hash
  | String c rest => hash_loop rest (hash_step hash c)
  end.

(** A digit of [Number.prototype.toString(36)]. *)
Definition digit36 (d : Z) : ascii :=
  ascii_of_nat (Z.to_nat (if (d <? 10)%Z then 48 + d else 87 + d)%Z).

(** [n.toString(36)] for [0 <= n < 36^fuel], most significant digit first. *)
Fixpoint toString36 (fuel : nat) (n : Z) (acc : string) : string :=
  match fuel with
  | O => acc
  | S fuel' =>
      let acc' := String (digit36 (n mod 36)) acc in
      if (n <? 36)%Z then acc' else toString36 fuel' (n / 36) acc'
  end.

(** [hashPassword]: [Math.abs(hash)] is at most [2^31], below [36^7]. *)
Definition hashPassword (password : string) : string :=
  let salt := "awsquiz2024" in
  let combined := password ++ salt in
  toString36 7 (Z.abs (hash_loop combined 0)) "".

Definition verifyPassword (password hash : string) : bool :=
  hashPassword password =? hash.

(** ** Tenants *)

Definition tenant_of_record (record : TenantRecord.t) (settings : json) : Tenant.t :=
  Tenant.mk (TenantRecord.id record) (TenantRecord.name record)
    (TenantRecord.description record) (TenantRecord.domain record)
    (TenantRecord.status record) (TenantRecord.is_active record)
    (TenantRecord.created_by record) (TenantRecord.created_at record)
    (TenantRecord.updated_at record) (TenantRecord.approved_by record)
    (TenantRecord.approved_at record) (TenantRecord.rejection_reason record)
    settings.

(** [record] is the row under [id] or, when there is none, the member of
    [Object.prototype] that [id] names: its [settings_json] is [undefined],
    and [JSON.parse(undefined)] is a [SyntaxError]. *)
Definition getTenant (id : string) : M (option Tenant.t) :=
  d <- get_db ;;
  match tbl_get id (tenants d) with
  | None => if Object_prototype_member id then throw SyntaxError else ret None
  | Some record =>
      settings <- JSON_parse_or_throw (TenantRecord.settings_json record) ;;
      ret (Some (tenant_of_record record settings))
  end.

Definition createTenant (tenant : Tenant.t) : M Tenant.t :=
  modify_db (fun d =>
    with_tenants
      (tbl_set (Tenant.id tenant)
         (TenantRecord.mk (Tenant.id tenant) (Tenant.name tenant)
            (Tenant.description tenant) (Tenant.domain tenant)
            (Tenant.status tenant) (Tenant.isActive tenant)
            (Tenant.createdBy tenant) (Tenant.createdAt tenant)
            (Tenant.updatedAt tenant) (Tenant.approvedBy tenant)
            (Tenant.approvedAt tenant) (Tenant.rejectionReason tenant)
            (JSON_stringify (Tenant.settings tenant)))
         (tenants d)) d) ;;
  saveDatabase ;;
  ret tenant.

(** [if (updates.f !== undefined) existing.f = updates.f] on a required
    field and on an optional one. *)
Definition assign {A} (update : option A) (existing : A) : A :=
  match update with
  | Some v => v
  | None => existing
  end.

Definition assign_opt {A} (update : option A) (existing : option A) : option A :=
  match update with
  | Some v => Some v
  | None => existing
  end.

(** The ten conditional assignments of [updateTenant]; they write ten
    different fields. *)
Definition apply_updates (updates : TenantUpdates.t) (existingTenant : TenantRecord.t)
  : TenantRecord.t :=
  TenantRecord.mk
    (TenantRecord.id existingTenant)
    (assign (TenantUpdates.name updates) (TenantRecord.name existingTenant))
    (assign (TenantUpdates.description updates)
            (TenantRecord.description existingTenant))
    (assign_opt (TenantUpdates.domain updates) (TenantRecord.domain existingTenant))
    (assign (TenantUpdates.status updates) (TenantRecord.status existingTenant))
    (assign (TenantUpdates.isActive updates) (TenantRecord.is_active existingTenant))
    (TenantRecord.created_by existingTenant)
    (TenantRecord.created_at existingTenant)
    (assign (TenantUpdates.updatedAt updates)
            (TenantRecord.updated_at existingTenant))
    (assign_opt (TenantUpdates.approvedBy updates)
                (TenantRecord.approved_by existingTenant))
    (assign_opt (TenantUpdates.approvedAt updates)
                (TenantRecord.approved_at existingTenant))
    (assign_opt (TenantUpdates.rejectionReason updates)
                (TenantRecord.rejection_reason existingTenant))
    (assign (option_map JSON_stringify (TenantUpdates.settings updates))
            (TenantRecord.settings_json existingTenant)).

Definition updateTenant (id : string) (updates : TenantUpdates.t)
  : M (option Tenant.t) :=
  d <- get_db ;;
  match tbl_get id (tenants d) with
  | None => ret None
  | Some existingTenant =>
      modify_db (fun d =>
        with_tenants (tbl_set id (apply_updates updates existingTenant) (tenants d)) d) ;;
      saveDatabase ;;
      getTenant id
  end.

Definition deleteTenant (id : string) : M bool :=
  d <- get_db ;;
  if tbl_truthy id (tenants d)
  then
    modify_db (fun d => with_tenants (tbl_delete id (tenants d)) d) ;;
    saveDatabase ;;
    ret true
  else ret false.

(** ** Users *)

Definition user_of_record (record : UserRecord.t) : User.t :=
  User.mk (UserRecord.id record) (UserRecord.name record)
    (UserRecord.email record) (UserRecord.role record)
    (UserRecord.tenant_id record) (UserRecord.status record)
    (UserRecord.created_at record).

(** The comparator [(a, b) => new Date(b.f).getTime() - new Date(a.f).getTime()]. *)
Definition newest_first {A} (f : A -> string) (a b : A) : option Z :=
  match Date_getTime (f b), Date_getTime (f a) with
  | Some tb, Some ta => Some (tb - ta)%Z
  | _, _ => None
  end.

Definition find_by_email (email : string) (d : DatabaseSchema) : option UserRecord.t :=
  find (fun u => UserRecord.email u =? email) (Object_values (users d)).

Definition createUser (name email password : string) (role : Role)
    (tenantId : option string) : M User.t :=
  d <- get_db ;;
  match find_by_email email d with
  | Some _ => throw (JsError "User with this email already exists")
  | None =>
      userId <- generateId ;;
      createdAt <- new_Date_toISOString ;;
      modify_db (fun d =>
        with_users
          (tbl_set userId
             (UserRecord.mk userId name email (hashPassword password) role
                tenantId Active createdAt)
             (users d)) d) ;;
      saveDatabase ;;
      ret (User.mk userId name email role tenantId Active createdAt)
  end.

Definition loginUser (email password : string) : M (option User.t) :=
  d <- get_db ;;
  match find_by_email email d with
  | Some userRecord =>
      if verifyPassword password (UserRecord.password_hash userRecord) then
        let user := user_of_record userRecord in
        modify_db (with_user_sessions []) ;;
        sessionId <- generateId ;;
        modify_db (fun d =>
          with_user_sessions
            (tbl_set sessionId (UserSessionRecord.mk sessionId (User.id user))
               (user_sessions d)) d) ;;
        saveDatabase ;;
        ret (Some user)
      else ret None
  | None => ret None
  end.

Definition resetPassword (email newPassword : string) : M bool :=
  d <- get_db ;;
  match find (fun e => UserRecord.email (snd e) =? email) (users d) with
  | Some (key, userRecord) =>
      modify_db (fun d =>
        with_users
          (tbl_set key
             (UserRecord.mk (UserRecord.id userRecord) (UserRecord.name userRecord)
                (UserRecord.email userRecord) (hashPassword newPassword)
                (UserRecord.role userRecord) (UserRecord.tenant_id userRecord)
                (UserRecord.status userRecord) (UserRecord.created_at userRecord))
             (users d)) d) ;;
      saveDatabase ;;
      ret true
  | None => ret false
  end.

Definition logoutUser : M unit :=
  modify_db (with_user_sessions []) ;;
  saveDatabase.

Definition getCurrentUser : M (option User.t) :=
  d <- get_db ;;
  match Object_values (user_sessions d) with
  | session :: _ =>
      match tbl_get (UserSessionRecord.user_id session) (users d) with
      | Some userRecord => ret (Some (user_of_record userRecord))
      | None => ret None
      end
  | [] => ret None
  end.

Definition getUsers : M (list User.t) :=
  d <- get_db ;;
  ret (map user_of_record
         (Array_sort (newest_first UserRecord.created_at) (Object_values (users d)))).

Definition createUserWithStatus (user : User.t) (password : string) : M User.t :=
  d <- get_db ;;
  match find_by_email (User.email user) d with
  | Some _ => throw (JsError "User with this email already exists")
  | None =>
      modify_db (fun d =>
        with_users
          (tbl_set (User.id user)
             (UserRecord.mk (User.id user) (User.name user) (User.email user)
                (hashPassword password) (User.role user) (User.tenantId user)
                (User.status user) (User.createdAt user))
             (users d)) d) ;;
      saveDatabase ;;
      ret user
  end.

Definition updateUserStatus (userId : string) (status : UserStatus) : M bool :=
  d <- get_db ;;
  match tbl_get userId (users d) with
  | None => ret false
  | Some userRecord =>
      modify_db (fun d =>
        with_users (tbl_set userId (UserRecord.set_status status userRecord) (users d)) d) ;;
      saveDatabase ;;
      ret true
  end.

(** ** Quiz sets *)

Definition question_of_record (record : QuizQuestionRecord.t) : M QuizQuestion.t :=
  options <- JSON_parse_or_throw (QuizQuestionRecord.options_json record) ;;
  correct_answer <- JSON_parse_or_throw (QuizQuestionRecord.correct_answer_json record) ;;
  ret (QuizQuestion.mk (QuizQuestionRecord.image_url record)
         (QuizQuestionRecord.image_desc record)
         (QuizQuestionRecord.question record)
         (QuizQuestionRecord.choice_type record) options correct_answer).

Definition getQuizSetById (id : string) : M (option QuizSet.t) :=
  d <- get_db ;;
  match tbl_get id (quiz_sets d) with
  | None => ret None
  | Some quizRecord =>
      let questionRecords :=
        Array_sort
          (fun a b => Some (QuizQuestionRecord.order_index a
                            - QuizQuestionRecord.order_index b)%Z)
          (filter (fun q => QuizQuestionRecord.quiz_set_id q =? id)
                  (Object_values (quiz_questions d))) in
      questions <- mapM question_of_record questionRecords ;;
      ret (Some (QuizSet.mk (QuizSetRecord.id quizRecord)
                   (QuizSetRecord.name quizRecord)
                   (QuizSetRecord.description quizRecord) questions
                   (QuizSetRecord.is_published quizRecord)
                   (QuizSetRecord.tenant_id quizRecord)
                   (QuizSetRecord.created_by quizRecord)
                   (QuizSetRecord.created_at quizRecord)
                   (QuizSetRecord.updated_at quizRecord)))
  end.

(** The loop of [createQuizSet] from index [i] on: one row per question,
    in the order of the array. *)
Fixpoint insert_questions (quizSetId : string) (i : Z)
    (questions : list QuizQuestion.t) : M unit :=
  match questions with
  | [] => ret tt
  | question :: others =>
      questionId <- generateId ;;
      modify_db (fun d =>
        with_quiz_questions
          (tbl_set questionId
             (QuizQuestionRecord.mk questionId quizSetId
                (QuizQuestion.imageurl question)
                (QuizQuestion.imagedesc question)
                (QuizQuestion.question question)
                (QuizQuestion.choice_type question)
                (JSON_stringify (QuizQuestion.options question))
                (JSON_stringify (QuizQuestion.correct_answer question)) i)
             (quiz_questions d)) d) ;;
      insert_questions quizSetId (i + 1) others
  end.

(** The [!] on the result of [getQuizSetById] is erased at run time. *)
Definition createQuizSet (name description : string)
    (questions : list QuizQuestion.t) (createdBy : string)
    (tenantId : option string) : M (option QuizSet.t) :=
  quizSetId <- generateId ;;
  now <- new_Date_toISOString ;;
  modify_db (fun d =>
    with_quiz_sets
      (tbl_set quizSetId
         (QuizSetRecord.mk quizSetId name description false tenantId createdBy
            now now)
         (quiz_sets d)) d) ;;
  insert_questions quizSetId 0 questions ;;
  saveDatabase ;;
  getQuizSetById quizSetId.

Definition updateQuizSet (id : string) (updates : QuizSetUpdates.t)
  : M (option QuizSet.t) :=
  d <- get_db ;;
  match tbl_get id (quiz_sets d) with
  | None => ret None
  | Some existingQuizSet =>
      updatedAt <- new_Date_toISOString ;;
      modify_db (fun d =>
        with_quiz_sets
          (tbl_set id
             (QuizSetRecord.mk (QuizSetRecord.id existingQuizSet)
                (assign (QuizSetUpdates.name updates)
                        (QuizSetRecord.name existingQuizSet))
                (assign (QuizSetUpdates.description updates)
                        (QuizSetRecord.description existingQuizSet))
                (assign (QuizSetUpdates.isPublished updates)
                        (QuizSetRecord.is_published existingQuizSet))
                (QuizSetRecord.tenant_id existingQuizSet)
                (QuizSetRecord.created_by existingQuizSet)
                (QuizSetRecord.created_at existingQuizSet)
                updatedAt)
             (quiz_sets d)) d) ;;
      saveDatabase ;;
      getQuizSetById id
  end.

(** [x !== null]. *)
Definition not_null {A} (x : option A) : bool :=
  match x with
  | Some _ => true
  | None => false
  end.

Definition publishQuiz (id : string) : M bool :=
  updated <- updateQuizSet id (QuizSetUpdates.mk None None (Some true)) ;;
  ret (not_null updated).

Definition unpublishQuiz (id : string) : M bool :=
  updated <- updateQuizSet id (QuizSetUpdates.mk None None (Some false)) ;;
  ret (not_null updated).

(** [.filter(Boolean)] on an array of objects and [null]s. *)
Fixpoint filter_Boolean {A} (l : list (option A)) : list A :=
  match l with
  | [] => []
  | Some x :: l' => x :: filter_Boolean l'
  | None :: l' => filter_Boolean l'
  end.

Definition getQuizSets : M (list QuizSet.t) :=
  d <- get_db ;;
  found <- mapM (fun record => getQuizSetById (QuizSetRecord.id record))
             (Array_sort (newest_first QuizSetRecord.updated_at)
                (Object_values (quiz_sets d))) ;;
  ret (filter_Boolean found).

Definition getPublishedQuizzes : M (list QuizSet.t) :=
  d <- get_db ;;
  found <- mapM (fun record => getQuizSetById (QuizSetRecord.id record))
             (Array_sort (newest_first QuizSetRecord.updated_at)
                (filter QuizSetRecord.is_published (Object_values (quiz_sets d)))) ;;
  ret (filter_Boolean found).

(** The callback of the [forEach] of [deleteQuizSet]; the read of
    [.quiz_set_id] on a missing row is a [TypeError]. *)
Definition delete_question_of (id questionId : string) : M unit :=
  d <- get_db ;;
  match tbl_get questionId (quiz_questions d) with
  | None => throw TypeError
  | Some q =>
      if QuizQuestionRecord.quiz_set_id q =? id
      then modify_db (fun d =>
             with_quiz_questions (tbl_delete questionId (quiz_questions d)) d)
      else ret tt
  end.

Definition deleteQuizSet (id : string) : M bool :=
  d <- get_db ;;
  if tbl_truthy id (quiz_sets d)
  then
    forEach (Object_keys (quiz_questions d)) (delete_question_of id) ;;
    modify_db (fun d => with_quiz_sets (tbl_delete id (quiz_sets d)) d) ;;
    saveDatabase ;;
    ret true
  else ret false.

(** ** Test results *)

(** [x || 'default'] on a string. *)
Definition or_default (x : string) : string :=
  if truthy x then x else "default".

(** The quiz set an attempt is attributed to: [result.quizSetId] when it is
    truthy, else the first published quiz set for a "default" attempt, else
    the string "default". *)
Definition attributed_quiz_set (d : DatabaseSchema) (result : NewTestResult.t)
  : string :=
  if truthy_opt (NewTestResult.quizSetId result) then
    match NewTestResult.quizSetId result with
    | Some supplied => supplied
    | None => "default"
    end
  else if NewTestResult.quizType result =? "default" then
    match filter QuizSetRecord.is_published (Object_values (quiz_sets d)) with
    | first :: _ => QuizSetRecord.id first
    | [] => "default"
    end
  else "default".

Definition saveTestResult (result : NewTestResult.t) : M TestResult.t :=
  attemptId <- generateId ;;
  d <- get_db ;;
  let quizSetId := attributed_quiz_set d result in
  modify_db (fun d =>
    with_user_attempts
      (tbl_set attemptId
         (UserAttemptRecord.mk attemptId (NewTestResult.userId result)
            (NewTestResult.tenantId result) quizSetId
            (NewTestResult.score result) (NewTestResult.totalQuestions result)
            (NewTestResult.percentage result)
            (NewTestResult.timeRemaining result)
            (NewTestResult.timeTaken result)
            (NewTestResult.completedAt result)
            (or_default (NewTestResult.quizType result)))
         (user_attempts d)) d) ;;
  saveDatabase ;;
  ret (TestResult.mk attemptId (NewTestResult.userId result)
         (NewTestResult.tenantId result) (NewTestResult.userName result)
         (NewTestResult.userEmail result) (NewTestResult.score result)
         (NewTestResult.totalQuestions result)
         (NewTestResult.percentage result)
         (NewTestResult.timeRemaining result)
         (NewTestResult.timeTaken result)
         (NewTestResult.completedAt result)
         (or_default (NewTestResult.quizType result))
         (NewTestResult.questionsUsed result)
         (NewTestResult.answers result)).

Definition result_of_record (d : DatabaseSchema) (record : UserAttemptRecord.t)
  : TestResult.t :=
  let userRecord := tbl_get (UserAttemptRecord.user_id record) (users d) in
  TestResult.mk (UserAttemptRecord.id record)
    (UserAttemptRecord.user_id record)
    (UserAttemptRecord.tenant_id record)
    (match userRecord with
     | Some u => UserRecord.name u
     | None => "Unknown User"
     end)
    (match userRecord with
     | Some u => UserRecord.email u
     | None => "unknown@example.com"
     end)
    (UserAttemptRecord.score record)
    (UserAttemptRecord.total_questions record)
    (UserAttemptRecord.percentage record)
    (UserAttemptRecord.time_remaining record)
    (UserAttemptRecord.time_taken record)
    (UserAttemptRecord.completed_at record)
    (UserAttemptRecord.quiz_type record) [] [].

Definition getTestResults : M (list TestResult.t) :=
  d <- get_db ;;
  ret (map (result_of_record d)
         (Array_sort (newest_first UserAttemptRecord.completed_at)
            (Object_values (user_attempts d)))).

Definition getTestResultsByUser (userId : string) : M (list TestResult.t) :=
  d <- get_db ;;
  ret (map (result_of_record d)
         (Array_sort (newest_first UserAttemptRecord.completed_at)
            (filter (fun record => UserAttemptRecord.user_id record =? userId)
               (Object_values (user_attempts d))))).

Definition deleteTestResult (id : string) : M bool :=
  d <- get_db ;;
  if tbl_truthy id (user_attempts d)
  then
    modify_db (fun d => with_user_attempts (tbl_delete id (user_attempts d)) d) ;;
    saveDatabase ;;
    ret true
  else ret false.

(** [Math.max(x, ...xs)] on integers. *)
Definition Math_max (x : Z) (xs : list Z) : Z := fold_left Z.max xs x.

(** [null] is [None]. *)
Definition getUserBestScoreForQuiz (userId quizSetId : string) : M (option Z) :=
  d <- get_db ;;
  let userAttempts :=
    filter (fun attempt =>
              (UserAttemptRecord.user_id attempt =? userId)
              && (UserAttemptRecord.quiz_set_id attempt =? quizSetId))
           (Object_values (user_attempts d)) in
  match userAttempts with
  | [] => ret None
  | first :: others =>
      ret (Some (Math_max (UserAttemptRecord.percentage first)
                   (map UserAttemptRecord.percentage others)))
  end.

(** ** The list of tenants, counts and statistics *)

Definition getTenants : M (list Tenant.t) :=
  d <- get_db ;;
  mapM (fun record =>
          settings <- JSON_parse_or_throw (TenantRecord.settings_json record) ;;
          ret (tenant_of_record record settings))
       (Array_sort (newest_first TenantRecord.updated_at)
          (Object_values (tenants d))).

Definition getQuizSetAttempts (quizSetId : string) : M nat :=
  d <- get_db ;;
  ret (length
         (filter (fun attempt => UserAttemptRecord.quiz_set_id attempt =? quizSetId)
                 (Object_values (user_attempts d)))).

Definition getUserQuizSetAttempts (userId quizSetId : string) : M nat :=
  d <- get_db ;;
  ret (length
         (filter (fun attempt =>
                    (UserAttemptRecord.user_id attempt =? userId)
                    && (UserAttemptRecord.quiz_set_id attempt =? quizSetId))
                 (Object_values (user_attempts d)))).

(** [[...new Set(l)]]: the members of [l] in the order of their first
    occurrence. *)
Definition Array_from_Set (l : list string) : list string :=
  fold_left (fun members x =>
               if existsb (String.eqb x) members then members
               else (members ++ [x])%list)
            l [].

Section Statistics.
Context {number : Type} {arith : JsNumber number}.

(** [reduce((sum, a) => sum + a.percentage, 0)]: percentages are integers,
    and so is their sum. *)
Definition sum_of_percentages (attempts : list UserAttemptRecord.t) : Z :=
  fold_left (fun sum a => (sum + UserAttemptRecord.percentage a)%Z) attempts 0%Z.

Definition getTestStatistics (tenantId : option string)
  : M (TestStatistics.t number) :=
  d <- get_db ;;
  let attempts :=
    match tenantId with
    | Some t =>
        if truthy t
        then filter (fun attempt => opt_eqb (UserAttemptRecord.tenant_id attempt) t)
                    (Object_values (user_attempts d))
        else Object_values (user_attempts d)
    | None => Object_values (user_attempts d)
    end in
  let totalTests := length attempts in
  let uniqueUserIds := Array_from_Set (map UserAttemptRecord.user_id attempts) in
  let uniqueUsers := length uniqueUserIds in
  let averageScore :=
    if (0 <? totalTests)%nat
    then Number_div (Number_of_Z (sum_of_percentages attempts))
                    (Number_of_Z (Z.of_nat totalTests))
    else Number_of_Z 0 in
  let scoreDistribution :=
    ScoreDistribution.mk
      (length (filter (fun a => (UserAttemptRecord.percentage a >=? 90)%Z) attempts))
      (length (filter (fun a => (UserAttemptRecord.percentage a >=? 70)%Z
                                && (UserAttemptRecord.percentage a <? 90)%Z) attempts))
      (length (filter (fun a => (UserAttemptRecord.percentage a >=? 50)%Z
                                && (UserAttemptRecord.percentage a <? 70)%Z) attempts))
      (length (filter (fun a => (UserAttemptRecord.percentage a <? 50)%Z) attempts)) in
  ret (TestStatistics.mk totalTests uniqueUsers
         (Number_div (Math_round (Number_mul averageScore (Number_of_Z 100)))
                     (Number_of_Z 100))
         scoreDistribution).

End Statistics.

(** ** Backup and restore *)

Definition exportDatabase : M string :=
  d <- get_db ;;
  ret (JSON_stringify (Blob.schema_json d)).

(** The basic validation of [importDatabase]. *)
Definition validate (importedDb : json) : M unit :=
  metadata <- lift (Blob.property importedDb "metadata") ;;
  if Blob.falsy metadata then throw (JsError "Invalid database format")
  else
    users <- lift (Blob.property importedDb "users") ;;
    if Blob.falsy users then throw (JsError "Invalid database format")
    else
      tenants <- lift (Blob.property importedDb "tenants") ;;
      if Blob.falsy tenants then throw (JsError "Invalid database format")
      else ret tt.

(** [importDatabase(data)].  [this.db = importedDb] makes the parsed value
    the schema as it is; a value that passes the validation and is not the
    JSON of a schema leaves the store in a state that [DatabaseSchema] does
    not describe, which is [None] here. *)
Definition importDatabase (data : list ascii) : World -> option (Outcome bool * World) :=
  fun w =>
    let jsonString := TextDecoder_decode data in
    match (importedDb <- JSON_parse_or_throw jsonString ;;
           validate importedDb ;;
           ret importedDb) w with
    | (Return importedDb, w1) =>
        match Blob.schema_of_json importedDb with
        | Some d => Some ((set_db d ;; saveDatabase ;; ret true) w1)
        | None => None
        end
    | (Throw _, w1) => Some (Return false, w1)
    end.

End Methods.
End LocalDatabaseService.

(* ===================================================================== *)
(** * What the adapter adds to the runtime *)
(* ===================================================================== *)

(** The adapter builds its own ids from a template literal:
    [Date_now n] is the text of [Date.now()] at the [n]-th reading of the
    clock and [Math_random_digits n] is
    [Math.random().toString(36).substr(2, 9)] at the [n]-th reading of
    [Math.random]. *)
Class JsIdentifiers : Type := {
  Date_now : nat -> string;
  Math_random_digits : nat -> string
}.

(** What a method with a MySQL branch returns.  [shouldUseMySQL()] reads the
    flag 'use_mysql' of [localStorage] and the state of the connection; it is
    an argument of these methods here.  When it holds the method returns
    what the [async] method of [mysqlService] returns, a promise: the local
    store is not written, and an [async] method never throws to its caller,
    so the [catch] that would fall back to the store is not reached. *)
Inductive Remote (A : Type) : Type :=
| Local (a : A)
| Promise.
Arguments Promise {A}.

(* ===================================================================== *)
(** * [DataServiceAdapter] (dataServiceNew.ts) *)
(* ===================================================================== *)

Module DataServiceAdapter.
Section Methods.
Context {rt : JsRuntime}.

Definition getTenant (id : string) : M (option Tenant.t) :=
  LocalDatabaseService.getTenant id.

(** [{ ...updates, updatedAt: new Date().toISOString() }]. *)
Definition updateTenant (id : string) (updates : TenantUpdates.t)
  : M (option Tenant.t) :=
  now <- LocalDatabaseService.new_Date_toISOString ;;
  LocalDatabaseService.updateTenant id
    (TenantUpdates.mk (TenantUpdates.name updates)
       (TenantUpdates.description updates) (TenantUpdates.domain updates)
       (TenantUpdates.isActive updates) (TenantUpdates.settings updates)
       (Some now) (TenantUpdates.status updates)
       (TenantUpdates.approvedBy updates) (TenantUpdates.approvedAt updates)
       (TenantUpdates.rejectionReason updates)).

Definition getUsers : M (list User.t) := LocalDatabaseService.getUsers.

Definition getUsersByTenant (tenantId : string) : M (list User.t) :=
  all <- LocalDatabaseService.getUsers ;;
  ret (filter (fun user => opt_eqb (User.tenantId user) tenantId) all).

Definition deleteQuizSet (id : string) : M bool :=
  LocalDatabaseService.deleteQuizSet id.

Definition getQuizSets (tenantId : option string) : M (list QuizSet.t) :=
  allQuizSets <- LocalDatabaseService.getQuizSets ;;
  match tenantId with
  | Some t =>
      if truthy t
      then ret (filter (fun quiz => opt_eqb (QuizSet.tenantId quiz) t) allQuizSets)
      else ret allQuizSets
  | None => ret allQuizSets
  end.

Definition getQuizSetsByTenant (tenantId : string) : M (list QuizSet.t) :=
  getQuizSets (Some tenantId).

Definition getTestResults (tenantId : option string) : M (list TestResult.t) :=
  allResults <- LocalDatabaseService.getTestResults ;;
  match tenantId with
  | Some t =>
      if truthy t
      then ret (filter (fun result => opt_eqb (TestResult.tenantId result) t) allResults)
      else ret allResults
  | None => ret allResults
  end.

Definition getTestResultsByTenant (tenantId : string) : M (list TestResult.t) :=
  getTestResults (Some tenantId).

Definition deleteTenant (id : string) : M bool :=
  tenantUsers <- getUsersByTenant id ;;
  match tenantUsers with
  | _ :: _ =>
      throw (JsError
        "Cannot delete tenant with existing users. Please remove all users first.")
  | [] =>
      tenantQuizzes <- getQuizSetsByTenant id ;;
      forEach tenantQuizzes (fun quiz => deleteQuizSet (QuizSet.id quiz) ;; ret tt) ;;
      tenantResults <- getTestResultsByTenant id ;;
      forEach tenantResults
        (fun result =>
           LocalDatabaseService.deleteTestResult (TestResult.id result) ;; ret tt) ;;
      LocalDatabaseService.deleteTenant id
  end.

Definition createUser (name email password : string) (role : Role)
    (tenantId : option string) : M User.t :=
  match role with
  | ProductAdmin =>
      if truthy_opt tenantId
      then throw (JsError "Product admin cannot belong to a tenant")
      else LocalDatabaseService.createUser name email password role tenantId
  | Admin | Member =>
      if negb (truthy_opt tenantId)
      then throw (JsError "Admin and user roles must belong to a tenant")
      else LocalDatabaseService.createUser name email password role tenantId
  end.

(** The callback of the [forEach] of [approveTenant]. *)
Definition activate_if_pending (user : User.t) : M unit :=
  match User.status user with
  | Pending =>
      LocalDatabaseService.updateUserStatus (User.id user) Active ;; ret tt
  | _ => ret tt
  end.

Definition approveTenant (tenantId approvedBy : string) : M bool :=
  tenant <- getTenant tenantId ;;
  match tenant with
  | None => throw (JsError "Tenant not found")
  | Some _ =>
      approvedAt <- LocalDatabaseService.new_Date_toISOString ;;
      updatedTenant <-
        updateTenant tenantId
          (TenantUpdates.mk None None None (Some true) None None
             (Some TenantApproved) (Some approvedBy) (Some approvedAt) None) ;;
      match updatedTenant with
      | Some _ =>
          tenantUsers <- getUsersByTenant tenantId ;;
          forEach tenantUsers activate_if_pending ;;
          ret true
      | None => ret false
      end
  end.

Definition rejectTenant (tenantId rejectedBy reason : string) : M bool :=
  tenant <- getTenant tenantId ;;
  match tenant with
  | None => throw (JsError "Tenant not found")
  | Some _ =>
      approvedAt <- LocalDatabaseService.new_Date_toISOString ;;
      updatedTenant <-
        updateTenant tenantId
          (TenantUpdates.mk None None None (Some false) None None
             (Some TenantRejected) (Some rejectedBy) (Some approvedAt)
             (Some reason)) ;;
      match updatedTenant with
      | Some _ => ret true
      | None => ret false
      end
  end.

Definition loginUser (email password : string) : M (option User.t) :=
  user <- LocalDatabaseService.loginUser email password ;;
  match user with
  | Some u =>
      match User.status u with
      | Pending => ret None
      | _ => ret user
      end
  | None => ret user
  end.

Definition resetPassword (email newPassword : string) : M bool :=
  LocalDatabaseService.resetPassword email newPassword.

Definition logoutUser : M unit := LocalDatabaseService.logoutUser.

Definition getCurrentUser : M (option User.t) :=
  LocalDatabaseService.getCurrentUser.

Definition createQuizSet (name description : string)
    (questions : list QuizQuestion.t) (createdBy : string)
    (tenantId : option string) : M (option QuizSet.t) :=
  LocalDatabaseService.createQuizSet name description questions createdBy tenantId.

Definition publishQuiz (id : string) : M bool :=
  LocalDatabaseService.publishQuiz id.

Definition unpublishQuiz (id : string) : M bool :=
  LocalDatabaseService.unpublishQuiz id.

Definition getPublishedQuizzes (tenantId : option string) : M (list QuizSet.t) :=
  allPublished <- LocalDatabaseService.getPublishedQuizzes ;;
  match tenantId with
  | Some t =>
      if truthy t
      then ret (filter (fun quiz => opt_eqb (QuizSet.tenantId quiz) t) allPublished)
      else ret allPublished
  | None => ret allPublished
  end.

Definition saveTestResult (result : NewTestResult.t) : M TestResult.t :=
  LocalDatabaseService.saveTestResult result.

Definition getUserBestScoreForQuiz (userId quizSetId : string) : M (option Z) :=
  LocalDatabaseService.getUserBestScoreForQuiz userId quizSetId.

(** [new Blob([data])]: the UTF-8 bytes of the exported text. *)
Definition exportDatabase : M (list ascii) :=
  data <- LocalDatabaseService.exportDatabase ;;
  ret (TextEncoder_encode data).

(** [importDatabase(file)] hands the bytes of the file to the store. *)
Definition importDatabase (file : list ascii) : World -> option (Outcome bool * World) :=
  LocalDatabaseService.importDatabase file.

(** ** Registration of a tenant *)

Context {ids : JsIdentifiers}.

(** [`${prefix}${Date.now()}-${Math.random().toString(36).substr(2, 9)}`]. *)
Definition template_id (prefix : string) : M string :=
  fun w => (Return (prefix ++ Date_now (clock w) ++ "-"
                      ++ Math_random_digits (entropy w)),
            mkWorld (db w) (S (clock w)) (S (entropy w))).

(** The [settings] of every tenant the adapter creates. *)
Definition default_settings : json :=
  JObj [("allowUserRegistration", JBool true); ("maxAdmins", JNum 5);
        ("maxUsers", JNum 100); ("maxQuizzes", JNum 50)].

(** [status === 'approved']. *)
Definition is_approved (status : TenantStatus) : bool :=
  match status with
  | TenantApproved => true
  | _ => false
  end.

(** [createTenant(name, description, createdBy, status)]; a caller that
    leaves [status] out passes 'approved'. *)
Definition createTenant (shouldUseMySQL : bool) (name description createdBy : string)
    (status : TenantStatus) : M (Remote Tenant.t) :=
  id <- template_id "tenant-" ;;
  createdAt <- LocalDatabaseService.new_Date_toISOString ;;
  updatedAt <- LocalDatabaseService.new_Date_toISOString ;;
  let tenant :=
    Tenant.mk id name description None status (is_approved status) createdBy
      createdAt updatedAt None None None default_settings in
  if shouldUseMySQL then ret Promise
  else
    created <- LocalDatabaseService.createTenant tenant ;;
    ret (Local created).

(** [tenant.id]: [undefined] on a promise. *)
Definition id_of (tenant : Remote Tenant.t) : option string :=
  match tenant with
  | Local t => Some (Tenant.id t)
  | Promise => None
  end.

Definition createTenantAndAdmin (shouldUseMySQL : bool)
    (adminName adminEmail adminPassword tenantName : string)
  : M (Remote Tenant.t * User.t) :=
  existingUsers <- getUsers ;;
  if existsb (fun u => User.email u =? adminEmail) existingUsers
  then throw (JsError "A user with this email already exists")
  else
    tenant <- createTenant shouldUseMySQL tenantName ("Tenant for " ++ adminName)
                "system" TenantPending ;;
    id <- template_id "user-" ;;
    createdAt <- LocalDatabaseService.new_Date_toISOString ;;
    let user :=
      User.mk id adminName adminEmail Admin (id_of tenant) Pending createdAt in
    createdUser <- LocalDatabaseService.createUserWithStatus user adminPassword ;;
    ret (tenant, createdUser).

Definition getTenants (shouldUseMySQL : bool) : M (Remote (list Tenant.t)) :=
  if shouldUseMySQL then ret Promise
  else
    all <- LocalDatabaseService.getTenants ;;
    ret (Local all).



(** [activateTenant] and [deactivateTenant] go to the store directly. *)
Definition activateTenant (id : string) : M bool :=
  now <- LocalDatabaseService.new_Date_toISOString ;;
  updated <-
    LocalDatabaseService.updateTenant id
      (TenantUpdates.mk None None None (Some true) None (Some now) None None
         None None) ;;
  ret (LocalDatabaseService.not_null updated).

Definition deactivateTenant (id : string) : M bool :=
  now <- LocalDatabaseService.new_Date_toISOString ;;
  updated <-
    LocalDatabaseService.updateTenant id
      (TenantUpdates.mk None None None (Some false) None (Some now) None None
         None None) ;;
  ret (LocalDatabaseService.not_null updated).

(** ** The first product admin *)

(** [u.role === 'product-admin']. *)
Definition is_product_admin (u : User.t) : bool :=
  match User.role u with
  | ProductAdmin => true
  | _ => false
  end.

Definition getProductAdmins : M (list User.t) :=
  all <- LocalDatabaseService.getUsers ;;
  ret (filter is_product_admin all).

(** [initializeDefaultData()]: whatever is thrown inside is caught and
    logged. *)
Definition initializeDefaultData : M unit :=
  try_catch
    (users <- getUsers ;;
     match find is_product_admin users with
     | Some _ => ret tt
     | None =>
         createUser "Product Administrator" "product.admin@aws-quiz.demo"
           "wel123" ProductAdmin None ;;
         ret tt
     end)
    (fun _ => ret tt).

(** ** Readers that go to the store as they are *)

Definition updateQuizSet (id : string) (updates : QuizSetUpdates.t)
  : M (option QuizSet.t) :=
  LocalDatabaseService.updateQuizSet id updates.

Definition getTestResultsByUser (userId : string) : M (list TestResult.t) :=
  LocalDatabaseService.getTestResultsByUser userId.

Definition getQuizSetAttempts (quizSetId : string) : M nat :=
  LocalDatabaseService.getQuizSetAttempts quizSetId.

Definition getUserQuizSetAttempts (userId quizSetId : string) : M nat :=
  LocalDatabaseService.getUserQuizSetAttempts userId quizSetId.

Section Statistics.
Context {number : Type} {arith : JsNumber number}.

Definition getTestStatistics (tenantId : option string)
  : M (TestStatistics.t number) :=
  LocalDatabaseService.getTestStatistics tenantId.

End Statistics.

End Methods.
End DataServiceAdapter.

(* ===================================================================== *)
(** * The two screens that feed the store *)
(* ===================================================================== *)

(** [QuizManager] checks an uploaded file of questions before the questions
    go to [createQuizSet]; [TestInterface] judges the answers whose score
    goes to [saveTestResult].  Both work on values as [JSON.parse] returns
    them.  What a screen shows ([toast], React state) is left to the
    screen: the functions below are the checks and the state updates. *)

(** [a.includes(x)] compares with SameValueZero: two primitives are the same
    when they are equal; an object or an array is the same as itself only,
    and two values met at two places of a parsed text are never one object. *)
Definition same_value_zero (x y : json) : bool :=
  match x, y with
  | JNull, JNull => true
  | JBool a, JBool b => Bool.eqb a b
  | JNum a, JNum b => (a =? b)%Z
  | JStr a, JStr b => a =? b
  | _, _ => false
  end.

Definition includes (a : list json) (x : json) : bool :=
  existsb (fun y => same_value_zero y x) a.

Module QuizManager.

(** [typeof x !== 'string'] on a property that may be [undefined]. *)
Definition not_a_string (x : option json) : bool :=
  match x with
  | Some (JStr _) => false
  | _ => true
  end.

(** [q.k] once [q] is known not to be [null]. *)
Definition field (q : json) (k : string) : option json :=
  match q with
  | JObj l => Blob.member k l
  | _ => None
  end.

(** [!['radio', 'multiplechoice'].includes(x)]. *)
Definition not_a_choice_type (x : option json) : bool :=
  match x with
  | Some v => negb (includes [JStr "radio"; JStr "multiplechoice"] v)
  | None => true
  end.

(** [!Array.isArray(x) || x.length < 2]. *)
Definition fewer_than_two (x : option json) : bool :=
  match x with
  | Some (JArr l) => (length l <? 2)%nat
  | _ => true
  end.

(** [x === 'multiplechoice']. *)
Definition is_multiplechoice (x : option json) : bool :=
  match x with
  | Some (JStr c) => c =? "multiplechoice"
  | _ => false
  end.

(** [q.options.includes(x)], after [q.options] passed [Array.isArray]. *)
Definition among_options (q : json) (x : json) : bool :=
  match field q "options" with
  | Some (JArr options) => includes options x
  | _ => false
  end.

(** The body of the loop of [validateQuestionFormat] for one question:
    [false] where the source reports an error and returns.  The first read,
    [q.imageurl], is a [TypeError] when [q] is [null]. *)
Definition validate_question (q : json) : Outcome bool :=
  match Blob.property q "imageurl" with
  | Throw e => Throw e
  | Return imageurl =>
      if Blob.falsy imageurl || not_a_string imageurl then Return false
      else if Blob.falsy (field q "imagedesc") || not_a_string (field q "imagedesc")
      then Return false
      else if Blob.falsy (field q "question") || not_a_string (field q "question")
      then Return false
      else if Blob.falsy (field q "choice_type")
              || not_a_choice_type (field q "choice_type")
      then Return false
      else if fewer_than_two (field q "options") then Return false
      else if Blob.falsy (field q "correct_answer") then Return false
      else if is_multiplechoice (field q "choice_type") then
        match field q "correct_answer" with
        | Some (JArr answers) => Return (forallb (among_options q) answers)
        | _ => Return false
        end
      else
        match field q "correct_answer" with
        | Some (JStr answer) => Return (among_options q (JStr answer))
        | _ => Return false
        end
  end.

Fixpoint validate_from (questions : list json) : Outcome bool :=
  match questions with
  | [] => Return true
  | q :: others =>
      match validate_question q with
      | Return true => validate_from others
      | stopped => stopped
      end
  end.

Definition validateQuestionFormat (questions : json) : Outcome bool :=
  match questions with
  | JArr l => validate_from l
  | _ => Return false
  end.

Section Upload.
Context {rt : JsRuntime}.

(** [reader.onload] of [handleFileUpload]: the questions handed to
    [onQuestionsUpdate], if any; a text that does not parse and a
    [TypeError] of the validation end in the same [catch]. *)
Definition onload (jsonContent : string) : option json :=
  match JSON_parse jsonContent with
  | Some parsedQuestions =>
      match validateQuestionFormat parsedQuestions with
      | Return true => Some parsedQuestions
      | _ => None
      end
  | None => None
  end.

End Upload.

End QuizManager.

Module TestInterface.

(** [handleSingleAnswerSelect] and [handleMultipleAnswerToggle], as the
    update of [selectedAnswers] each one makes while no result is shown. *)
Definition handleSingleAnswerSelect (answer : string) (prev : list string)
  : list string :=
  [answer].

Definition handleMultipleAnswerToggle (answer : string) (prev : list string)
  : list string :=
  if existsb (String.eqb answer) prev
  then filter (fun a => negb (a =? answer)) prev
  else (prev ++ [answer])%list.

(** [Array.isArray(c) ? c : [c]]. *)
Definition correctAnswers (question : QuizQuestion.t) : list json :=
  match QuizQuestion.correct_answer question with
  | JArr l => l
  | c => [c]
  end.

Definition isAnswerCorrect (question : QuizQuestion.t)
    (selectedAnswers : list string) : bool :=
  match QuizQuestion.choice_type question with
  | Radio =>
      match selectedAnswers with
      | [selected] =>
          match QuizQuestion.correct_answer question with
          | JStr c => selected =? c
          | _ => false
          end
      | _ => false
      end
  | MultipleChoice =>
      (length selectedAnswers =? length (correctAnswers question))%nat
      && forallb (fun answer => includes (correctAnswers question) (JStr answer))
           selectedAnswers
  end.

End TestInterface.

(* ===================================================================== *)
(** * A reference browser *)
(* ===================================================================== *)

(** An implementation of [JsRuntime]: JSON texts of the values of [json]
    (integers for numbers, code units below 256 in strings), a stable sort,
    UTF-8, the dates that [toISOString] writes, a clock and a source of
    ids.  The properties below hold for every [JsRuntime]; this one shows
    that the interface can be met and is the browser of the examples. *)

Unset Implicit Arguments.

Module JsonText.

Definition chars (s : string) : list ascii := list_ascii_of_string s.

Definition is_ws (c : ascii) : bool :=
  (c =? " ")%char || (c =? "009")%char || (c =? "010")%char || (c =? "013")%char.

Fixpoint skip_ws (cs : list ascii) : list ascii :=
  match cs with
  | [] => []
  | c :: r => if is_ws c then skip_ws r else cs
  end.

(** [strip p cs]: [cs] without its prefix [p]. *)
Fixpoint strip (p cs : list ascii) : option (list ascii) :=
  match p with
  | [] => Some cs
  | a :: p' =>
      match cs with
      | c :: r => if (a =? c)%char then strip p' r else None
      | [] => None
      end
  end.

(** ** Numbers *)

Fixpoint print_uint (u : Decimal.uint) : list ascii :=
  match u with
  | Decimal.Nil => []
  | Decimal.D0 u => "0"%char :: print_uint u
  | Decimal.D1 u => "1"%char :: print_uint u
  | Decimal.D2 u => "2"%char :: print_uint u
  | Decimal.D3 u => "3"%char :: print_uint u
  | Decimal.D4 u => "4"%char :: print_uint u
  | Decimal.D5 u => "5"%char :: print_uint u
  | Decimal.D6 u => "6"%char :: print_uint u
  | Decimal.D7 u => "7"%char :: print_uint u
  | Decimal.D8 u => "8"%char :: print_uint u
  | Decimal.D9 u => "9"%char :: print_uint u
  end.

Definition digit_of (c : ascii) : option (Decimal.uint -> Decimal.uint) :=
  if (c =? "0")%char then Some Decimal.D0
  else if (c =? "1")%char then Some Decimal.D1
  else if (c =? "2")%char then Some Decimal.D2
  else if (c =? "3")%char then Some Decimal.D3
  else if (c =? "4")%char then Some Decimal.D4
  else if (c =? "5")%char then Some Decimal.D5
  else if (c =? "6")%char then Some Decimal.D6
  else if (c =? "7")%char then Some Decimal.D7
  else if (c =? "8")%char then Some Decimal.D8
  else if (c =? "9")%char then Some Decimal.D9
  else None.

Fixpoint parse_uint (cs : list ascii) : Decimal.uint * list ascii :=
  match cs with
  | [] => (Decimal.Nil, [])
  | c :: r =>
      match digit_of c with
      | Some d => let (u, r') := parse_uint r in (d u, r')
      | None => (Decimal.Nil, cs)
      end
  end.

Definition print_Z (z : Z) : list ascii :=
  ((if (z <? 0)%Z then ["-"%char] else []) ++ print_uint (N.to_uint (Z.abs_N z)))%list.

(** A numeral of JSON has a digit and no leading zero. *)
Definition numeral (u : Decimal.uint) : bool :=
  if Decimal.uint_eq_dec (Decimal.unorm u) u then true else false.

Definition parse_number (cs : list ascii) : option (json * list ascii) :=
  match cs with
  | [] => None
  | c :: r =>
      if (c =? "-")%char then
        let (u, r') := parse_uint r in
        if numeral u then Some (JNum (- Z.of_N (N.of_uint u)), r') else None
      else
        let (u, r') := parse_uint cs in
        if numeral u then Some (JNum (Z.of_N (N.of_uint u)), r') else None
  end.

Definition number_start (c : ascii) : bool :=
  (c =? "-")%char || match digit_of c with Some _ => true | None => false end.

(** ** Strings *)

Definition hex (n : nat) : ascii :=
  ascii_of_nat (if (n <? 10)%nat then 48 + n else 87 + n).

Definition unhex (c : ascii) : option nat :=
  let n := nat_of_ascii c in
  if ((48 <=? n) && (n <=? 57))%nat then Some (n - 48)
  else if ((97 <=? n) && (n <=? 102))%nat then Some (n - 87)
  else if ((65 <=? n) && (n <=? 70))%nat then Some (n - 55)
  else None.

Definition escape (c : ascii) : list ascii :=
  if (c =? "034")%char then ["\"; "034"]%char
  else if (c =? "\")%char then chars "\\"
  else if (c =? "008")%char then chars "\b"
  else if (c =? "009")%char then chars "\t"
  else if (c =? "010")%char then chars "\n"
  else if (c =? "012")%char then chars "\f"
  else if (c =? "013")%char then chars "\r"
  else if (nat_of_ascii c <? 32)%nat then
    (chars "\u00" ++ [hex (nat_of_ascii c / 16); hex (nat_of_ascii c mod 16)])%list
  else [c].

Fixpoint print_chars (s : string) : list ascii :=
  match s with
  | EmptyString => []
  | String c s' => (escape c ++ print_chars s')%list
  end.

Definition quote (s : string) : list ascii :=
  ("034"%char :: print_chars s ++ ["034"%char])%list.

Definition unescape (e : ascii) : option ascii :=
  if (e =? "034")%char then Some "034"%char
  else if (e =? "\")%char then Some "\"%char
  else if (e =? "/")%char then Some "/"%char
  else if (e =? "b")%char then Some "008"%char
  else if (e =? "t")%char then Some "009"%char
  else if (e =? "n")%char then Some "010"%char
  else if (e =? "f")%char then Some "012"%char
  else if (e =? "r")%char then Some "013"%char
  else None.

Definition consc (c : ascii) (x : option (string * list ascii))
  : option (string * list ascii) :=
  match x with
  | Some (s, r) => Some (String c s, r)
  | None => None
  end.

(** The characters of a string up to its closing quote. *)
Fixpoint parse_chars (cs : list ascii) : option (string * list ascii) :=
  match cs with
  | [] => None
  | c :: r =>
      if (c =? "034")%char then Some (EmptyString, r)
      else if (c =? "\")%char then
        match r with
        | [] => None
        | e :: r1 =>
            if (e =? "u")%char then
              match r1 with
              | h1 :: h2 :: h3 :: h4 :: r2 =>
                  match unhex h1, unhex h2, unhex h3, unhex h4 with
                  | Some 0, Some 0, Some a, Some b =>
                      consc (ascii_of_nat (16 * a + b)) (parse_chars r2)
                  | _, _, _, _ => None
                  end
              | _ => None
              end
            else
              match unescape e with
              | Some c' => consc c' (parse_chars r1)
              | None => None
              end
        end
      else if (nat_of_ascii c <? 32)%nat then None
      else consc c (parse_chars r)
  end.

(** ** Values *)

Fixpoint sep_by (sep : ascii) (ls : list (list ascii)) : list ascii :=
  match ls with
  | [] => []
  | [x] => x
  | x :: ls' => (x ++ sep :: sep_by sep ls')%list
  end.

Fixpoint print (j : json) : list ascii :=
  match j with
  | JNull => chars "null"
  | JBool true => chars "true"
  | JBool false => chars "false"
  | JNum z => print_Z z
  | JStr s => quote s
  | JArr l => ("["%char :: sep_by ","%char (map print l) ++ ["]"%char])%list
  | JObj l =>
      ("{"%char
         :: sep_by ","%char
              (map (fun kv => quote (fst kv) ++ ":"%char :: print (snd kv)) l)
         ++ ["}"%char])%list
  end.

Fixpoint parse_value (fuel : nat) (cs : list ascii) {struct fuel}
  : option (json * list ascii) :=
  match fuel with
  | O => None
  | S fuel' =>
      match skip_ws cs with
      | [] => None
      | c :: r =>
          if number_start c then parse_number (c :: r)
          else if (c =? "n")%char then
            match strip (chars "ull") r with
            | Some r' => Some (JNull, r')
            | None => None
            end
          else if (c =? "t")%char then
            match strip (chars "rue") r with
            | Some r' => Some (JBool true, r')
            | None => None
            end
          else if (c =? "f")%char then
            match strip (chars "alse") r with
            | Some r' => Some (JBool false, r')
            | None => None
            end
          else if (c =? "034")%char then
            match parse_chars r with
            | Some (s, r') => Some (JStr s, r')
            | None => None
            end
          else if (c =? "[")%char then
            match skip_ws r with
            | [] => None
            | c2 :: r2 =>
                if (c2 =? "]")%char then Some (JArr [], r2)
                else
                  match parse_elems fuel' r with
                  | Some (l, r') => Some (JArr l, r')
                  | None => None
                  end
            end
          else if (c =? "{")%char then
            match skip_ws r with
            | [] => None
            | c2 :: r2 =>
                if (c2 =? "}")%char then Some (JObj [], r2)
                else
                  match parse_members fuel' r with
                  | Some (l, r') => Some (JObj l, r')
                  | None => None
                  end
            end
          else None
      end
  end
with parse_elems (fuel : nat) (cs : list ascii) {struct fuel}
  : option (list json * list ascii) :=
  match fuel with
  | O => None
  | S fuel' =>
      match parse_value fuel' cs with
      | None => None
      | Some (v, r) =>
          match skip_ws r with
          | [] => None
          | c :: r' =>
              if (c =? ",")%char then
                match parse_elems fuel' r' with
                | Some (vs, r'') => Some (v :: vs, r'')
                | None => None
                end
              else if (c =? "]")%char then Some ([v], r')
              else None
          end
      end
  end
with parse_members (fuel : nat) (cs : list ascii) {struct fuel}
  : option (list (string * json) * list ascii) :=
  match fuel with
  | O => None
  | S fuel' =>
      match skip_ws cs with
      | [] => None
      | q :: r0 =>
          if (q =? "034")%char then
            match parse_chars r0 with
            | None => None
            | Some (k, r1) =>
                match skip_ws r1 with
                | [] => None
                | colon :: r2 =>
                    if (colon =? ":")%char then
                      match parse_value fuel' r2 with
                      | None => None
                      | Some (v, r) =>
                          match skip_ws r with
                          | [] => None
                          | c :: r' =>
                              if (c =? ",")%char then
                                match parse_members fuel' r' with
                                | Some (kvs, r'') => Some ((k, v) :: kvs, r'')
                                | None => None
                                end
                              else if (c =? "}")%char then Some ([(k, v)], r')
                              else None
                          end
                      end
                    else None
                end
            end
          else None
      end
  end.

Definition stringify (j : json) : string := string_of_list_ascii (print j).

Definition parse (s : string) : option json :=
  match parse_value (S (String.length s)) (chars s) with
  | Some (j, r) =>
      match skip_ws r with
      | [] => Some j
      | _ :: _ => None
      end
  | None => None
  end.

End JsonText.

Module Reference.

(** ** [Array.prototype.sort]: a stable insertion sort; a comparator result
    that is [NaN] counts as [+0]. *)
Fixpoint insert {A} (cmp : A -> A -> option Z) (x : A) (l : list A) : list A :=
  match l with
  | [] => [x]
  | y :: l' =>
      match cmp x y with
      | Some z => if (z <=? 0)%Z then x :: l else y :: insert cmp x l'
      | None => x :: l
      end
  end.

Definition sort {A} (cmp : A -> A -> option Z) (l : list A) : list A :=
  fold_right (insert cmp) [] l.

(** ** [TextEncoder] and [TextDecoder]: UTF-8 of code units below 256 *)

Definition utf8_of (c : ascii) : list ascii :=
  let n := nat_of_ascii c in
  if (n <? 128)%nat then [c]
  else [ascii_of_nat (192 + n / 64); ascii_of_nat (128 + n mod 64)].

Fixpoint encode (s : string) : list ascii :=
  match s with
  | EmptyString => []
  | String c s' => (utf8_of c ++ encode s')%list
  end.

(** A sequence that is not the UTF-8 of a code unit below 256 decodes to a
    question mark (the replacement character is outside the model). *)
Fixpoint decode (bytes : list ascii) : string :=
  match bytes with
  | [] => EmptyString
  | b :: r =>
      let n := nat_of_ascii b in
      if (n <? 128)%nat then String b (decode r)
      else
        match r with
        | [] => String "?" EmptyString
        | b2 :: r' =>
            let m := nat_of_ascii b2 in
            if (((n =? 194) || (n =? 195)) && (128 <=? m) && (m <? 192))%nat
            then String (ascii_of_nat ((n - 192) * 64 + (m - 128))) (decode r')
            else String "?" (decode r)
        end
  end.

(** ** [Date] *)

Definition digit_value (c : ascii) : option Z :=
  let n := nat_of_ascii c in
  if ((48 <=? n) && (n <=? 57))%nat then Some (Z.of_nat (n - 48)) else None.

(** The number a run of decimal digits denotes. *)
Fixpoint number (cs : list ascii) (acc : Z) : option Z :=
  match cs with
  | [] => Some acc
  | c :: r =>
      match digit_value c with
      | Some d => number r (10 * acc + d)
      | None => None
      end
  end.

(** Days from 1970-01-01 to the civil date [y]-[m]-[d]. *)
Definition days_from_civil (y m d : Z) : Z :=
  let y' := (if m <=? 2 then y - 1 else y)%Z in
  let era := (y' / 400)%Z in
  let yoe := (y' - era * 400)%Z in
  let doy := ((153 * (if m >? 2 then m - 3 else m + 9) + 2) / 5 + d - 1)%Z in
  let doe := (yoe * 365 + yoe / 4 - yoe / 100 + doy)%Z in
  (era * 146097 + doe - 719468)%Z.

Definition field (s : string) (from len : nat) : option Z :=
  number (list_ascii_of_string (substring from len s)) 0.

Definition in_range (lo hi x : Z) : bool := ((lo <=? x) && (x <=? hi))%Z.

(** [new Date(s).getTime()] for [s] in the format of [toISOString],
    [YYYY-MM-DDTHH:mm:ss.sssZ]; [NaN] for any other string. *)
Definition getTime (s : string) : option Z :=
  if negb ((String.length s =? 24)%nat
           && (substring 4 1 s =? "-") && (substring 7 1 s =? "-")
           && (substring 10 1 s =? "T") && (substring 13 1 s =? ":")
           && (substring 16 1 s =? ":") && (substring 19 1 s =? ".")
           && (substring 23 1 s =? "Z"))
  then None
  else
    match field s 0 4, field s 5 2, field s 8 2, field s 11 2, field s 14 2,
          field s 17 2, field s 20 3 with
    | Some y, Some m, Some d, Some hh, Some mm, Some ss, Some ms =>
        if in_range 1 12 m && in_range 1 31 d && in_range 0 23 hh
           && in_range 0 59 mm && in_range 0 59 ss
        then Some ((((days_from_civil y m d * 24 + hh) * 60 + mm) * 60 + ss) * 1000
                   + ms)%Z
        else None
    | _, _, _, _, _, _, _ => None
    end.

Definition decimal_digit (n : Z) : ascii :=
  ascii_of_nat (Z.to_nat (48 + n mod 10)).

Definition two_digits (n : Z) : string :=
  String (decimal_digit (n / 10)) (String (decimal_digit n) EmptyString).

Definition three_digits (n : Z) : string :=
  String (decimal_digit (n / 100)) (two_digits n).

(** The clock of the reference browser: reading [n] is [n] milliseconds
    after midnight of the first of January 2025 (the clock wraps after the
    month). *)
Definition toISOString (n : nat) : string :=
  let ms := Z.of_nat n in
  "2025-01-" ++ two_digits (1 + (ms / 86400000) mod 31)
  ++ "T" ++ two_digits ((ms / 3600000) mod 24)
  ++ ":" ++ two_digits ((ms / 60000) mod 60)
  ++ ":" ++ two_digits ((ms / 1000) mod 60)
  ++ "." ++ three_digits (ms mod 1000) ++ "Z".

(** [generateId()] of the reference browser: nine characters for the
    random part, then the clock in base 36. *)
Definition random_id (n : nat) : string :=
  LocalDatabaseService.toString36 9
    (2821109907456 + (Z.of_nat n * 2654435761 + 40503) mod 98738846760960) ""
  ++ LocalDatabaseService.toString36 9 (1735689600000 + Z.of_nat n) "".

End Reference.

Set Implicit Arguments.

(* ===================================================================== *)
(** * Facts about tables *)
(* ===================================================================== *)

Section TableFacts.
Variable T : Type.
Implicit Types (t : DatabaseTable T) (k : string) (v : T).

Lemma existsb_eqb_In (k : string) (l : list string) :
  existsb (String.eqb k) l = true <-> In k l.
Proof.
  rewrite existsb_exists. split.
  - intros [x [Hin Heq]]. apply String.eqb_eq in Heq. now subst.
  - intros Hin. exists k. split; [assumption | apply String.eqb_refl].
Qed.

Lemma nodupb_NoDup (l : list string) : nodupb l = true <-> NoDup l.
Proof.
  induction l as [|k l IH]; simpl.
  - split; [constructor | reflexivity].
  - rewrite andb_true_iff, negb_true_iff, IH. split.
    + intros [Hk Hl]. constructor; [|assumption].
      intro Hin. apply existsb_eqb_In in Hin. congruence.
    + intros Hnd. inversion Hnd as [|? ? Hk Hl]; subst. split; [|assumption].
      destruct (existsb (String.eqb k) l) eqn:E; [|reflexivity].
      apply existsb_eqb_In in E. contradiction.
Qed.

Lemma table_ok_NoDup (id : T -> string) t :
  table_ok id t = true -> NoDup (Object_keys t).
Proof.
  unfold table_ok. rewrite andb_true_iff. intros [H _]. now apply nodupb_NoDup.
Qed.

Lemma table_ok_id (id : T -> string) t k v :
  table_ok id t = true -> In (k, v) t -> id v = k.
Proof.
  unfold table_ok. rewrite andb_true_iff, forallb_forall. intros [_ H] Hin.
  apply (H (k, v)) in Hin. now apply String.eqb_eq in Hin.
Qed.

Lemma tbl_get_In t k v : tbl_get k t = Some v -> In (k, v) t.
Proof.
  induction t as [|[k' v'] t IH]; simpl; [discriminate|].
  destruct (k' =? k) eqn:E.
  - intros [= ->]. apply String.eqb_eq in E. subst. now left.
  - intros H. right. now apply IH.
Qed.

Lemma tbl_get_None t k : tbl_get k t = None <-> ~ In k (Object_keys t).
Proof.
  induction t as [|[k' v'] t IH]; simpl.
  - split; [intros _ [] | reflexivity].
  - destruct (k' =? k) eqn:E.
    + apply String.eqb_eq in E. subst. split; [discriminate|].
      intros H. exfalso. apply H. now left.
    + apply String.eqb_neq in E. rewrite IH. split.
      * intros H [H1|H1]; [congruence | contradiction].
      * intros H H1. apply H. now right.
Qed.

Lemma In_tbl_get t k v :
  NoDup (Object_keys t) -> In (k, v) t -> tbl_get k t = Some v.
Proof.
  induction t as [|[k' v'] t IH]; simpl; [intros _ []|].
  intros Hnd [H|H]; inversion Hnd as [|? ? Hk Hl]; subst.
  - injection H as -> ->. now rewrite String.eqb_refl.
  - destruct (k' =? k) eqn:E.
    + apply String.eqb_eq in E. subst. exfalso. apply Hk.
      change k with (fst (k, v)). now apply in_map.
    + now apply IH.
Qed.

Lemma tbl_get_delete_same t k : tbl_get k (tbl_delete k t) = None.
Proof.
  induction t as [|[k' v'] t IH]; simpl; [reflexivity|].
  destruct (k' =? k) eqn:E; simpl; [assumption|]. now rewrite E.
Qed.

Lemma In_tbl_delete t k e :
  In e (tbl_delete k t) <-> In e t /\ fst e <> k.
Proof.
  unfold tbl_delete. rewrite filter_In, negb_true_iff, String.eqb_neq. tauto.
Qed.

Lemma tbl_delete_absent t k : ~ In k (Object_keys t) -> tbl_delete k t = t.
Proof.
  induction t as [|[k' v'] t IH]; simpl; [reflexivity|].
  intros H. destruct (k' =? k) eqn:E; simpl.
  - apply String.eqb_eq in E. subst. exfalso. apply H. now left.
  - f_equal. apply IH. intro H1. apply H. now right.
Qed.

Lemma tbl_delete_app t1 t2 k :
  tbl_delete k (t1 ++ t2)%list = (tbl_delete k t1 ++ tbl_delete k t2)%list.
Proof. unfold tbl_delete. apply filter_app. Qed.

Lemma tbl_get_app t1 t2 k :
  ~ In k (Object_keys t1) -> tbl_get k (t1 ++ t2)%list = tbl_get k t2.
Proof.
  induction t1 as [|[k' v'] t1 IH]; simpl; [reflexivity|].
  intros H. destruct (k' =? k) eqn:E.
  - apply String.eqb_eq in E. subst. exfalso. apply H. now left.
  - apply IH. intro H1. apply H. now right.
Qed.

Lemma tbl_get_set_same t k v : tbl_get k (tbl_set k v t) = Some v.
Proof.
  induction t as [|[k' v'] t IH]; simpl.
  - now rewrite String.eqb_refl.
  - destruct (k' =? k) eqn:E; simpl; now rewrite E.
Qed.

Lemma tbl_get_set_other t k k' v :
  k' <> k -> tbl_get k' (tbl_set k v t) = tbl_get k' t.
Proof.
  intros Hne. induction t as [|[k0 v0] t IH]; simpl.
  - apply String.eqb_neq in Hne. rewrite String.eqb_sym in Hne. now rewrite Hne.
  - destruct (k0 =? k) eqn:E; simpl.
    + apply String.eqb_eq in E. subst.
      apply String.eqb_neq in Hne. rewrite String.eqb_sym in Hne.
      now rewrite Hne.
    + destruct (k0 =? k'); [reflexivity | assumption].
Qed.

(** Writing a row that exists rewrites it where it stands. *)
Lemma tbl_set_present t k v :
  NoDup (Object_keys t) -> In k (Object_keys t) ->
  tbl_set k v t = map (fun e => if fst e =? k then (fst e, v) else e) t.
Proof.
  induction t as [|[k' v'] t IH]; simpl; [intros _ []|].
  intros Hnd Hin. inversion Hnd as [|? ? Hk Hl]; subst.
  destruct (k' =? k) eqn:E.
  - apply String.eqb_eq in E. subst. f_equal.
    transitivity (map (fun e : string * T => e) t); [symmetry; apply map_id|].
    apply map_ext_in. intros [k0 v0] H0. simpl. destruct (k0 =? k) eqn:E0; [|reflexivity].
    apply String.eqb_eq in E0. subst. exfalso. apply Hk.
    change k with (fst (k, v0)). now apply in_map.
  - f_equal. apply IH; [assumption|]. destruct Hin as [H|H]; [|assumption].
    apply String.eqb_neq in E. congruence.
Qed.


Lemma In_Object_values t v : In v (Object_values t) <-> exists k, In (k, v) t.
Proof.
  unfold Object_values. rewrite in_map_iff. split.
  - intros [[k v'] [Heq Hin]]. simpl in Heq. subst. now exists k.
  - intros [k Hin]. now exists (k, v).
Qed.

Lemma In_Object_keys t k : In k (Object_keys t) <-> exists v, In (k, v) t.
Proof.
  unfold Object_keys. rewrite in_map_iff. split.
  - intros [[k' v] [Heq Hin]]. simpl in Heq. subst. now exists v.
  - intros [v Hin]. now exists (k, v).
Qed.

(** What the truthiness test of a read sees. *)
Lemma tbl_truthy_own t k v : tbl_get k t = Some v -> tbl_truthy k t = true.
Proof. unfold tbl_truthy. now intros ->. Qed.

Lemma tbl_truthy_inherited t k :
  tbl_get k t = None -> Object_prototype_member k = true -> tbl_truthy k t = true.
Proof. unfold tbl_truthy. now intros ->. Qed.

Lemma tbl_truthy_absent t k :
  tbl_get k t = None -> Object_prototype_member k = false -> tbl_truthy k t = false.
Proof. unfold tbl_truthy. now intros ->. Qed.

Lemma tbl_truthy_false t k :
  tbl_truthy k t = false
  <-> tbl_get k t = None /\ Object_prototype_member k = false.
Proof.
  unfold tbl_truthy. destruct (tbl_get k t); split; try discriminate; auto.
  - now intros [H _].
  - now intros [_ H].
Qed.

End TableFacts.

(* ===================================================================== *)
(** * Best score of a user on a quiz set *)
(* ===================================================================== *)

Section BestScore.
Context {rt : JsRuntime}.

(** The attempt [a] is one of user [u] at quiz set [q]. *)
Definition attempt_of (u q : string) (a : UserAttemptRecord.t) : Prop :=
  UserAttemptRecord.user_id a = u /\ UserAttemptRecord.quiz_set_id a = q.

Lemma attempt_of_filter u q a l :
  In a (filter (fun attempt =>
                  (UserAttemptRecord.user_id attempt =? u)
                  && (UserAttemptRecord.quiz_set_id attempt =? q)) l)
  <-> In a l /\ attempt_of u q a.
Proof.
  rewrite filter_In, andb_true_iff, !String.eqb_eq. reflexivity.
Qed.

Lemma Math_max_ge x xs : (x <= LocalDatabaseService.Math_max x xs)%Z.
Proof.
  unfold LocalDatabaseService.Math_max. revert x.
  induction xs as [|y xs IH]; intros x; simpl; [lia|].
  specialize (IH (Z.max x y)). lia.
Qed.

Lemma Math_max_upper x xs y :
  In y xs -> (y <= LocalDatabaseService.Math_max x xs)%Z.
Proof.
  unfold LocalDatabaseService.Math_max. revert x.
  induction xs as [|z xs IH]; intros x; simpl; [intros []|].
  intros [->|Hin].
  - pose proof (Math_max_ge (Z.max x y) xs) as H.
    unfold LocalDatabaseService.Math_max in H. lia.
  - now apply IH.
Qed.

Lemma Math_max_In x xs : In (LocalDatabaseService.Math_max x xs) (x :: xs).
Proof.
  unfold LocalDatabaseService.Math_max. revert x.
  induction xs as [|y xs IH]; intros x; simpl; [now left|].
  destruct (IH (Z.max x y)) as [H|H].
  - rewrite <- H. destruct (Z.max_spec x y) as [[_ ->]|[_ ->]]; auto.
  - right. now right.
Qed.

(** C7.  [getUserBestScoreForQuiz(u, q)] reads the store without changing
    it; it returns [null] exactly when no stored attempt has [user_id = u]
    and [quiz_set_id = q], and otherwise the percentage of one such attempt
    that no other such attempt exceeds. *)
Theorem getUserBestScoreForQuiz_is_maximum (u q : string) (w : World) :
  exists best,
    DataServiceAdapter.getUserBestScoreForQuiz u q w = (Return best, w)
    /\ (best = None <->
        forall a, In a (Object_values (user_attempts (db w))) -> ~ attempt_of u q a)
    /\ (forall m, best = Some m ->
        (exists a, In a (Object_values (user_attempts (db w)))
                   /\ attempt_of u q a /\ UserAttemptRecord.percentage a = m)
        /\ (forall a, In a (Object_values (user_attempts (db w))) ->
                      attempt_of u q a -> (UserAttemptRecord.percentage a <= m)%Z)).
Proof.
  unfold DataServiceAdapter.getUserBestScoreForQuiz,
    LocalDatabaseService.getUserBestScoreForQuiz, bind, get_db.
  set (all := Object_values (user_attempts (db w))).
  pose proof (fun a => attempt_of_filter u q a all) as Hf.
  destruct (filter _ all) as [|first others] eqn:E.
  - exists None. split; [reflexivity|]. split.
    + split; [|reflexivity]. intros _ a Hin Ha.
      apply (proj2 (Hf a)); auto.
    + discriminate.
  - exists (Some (LocalDatabaseService.Math_max
                    (UserAttemptRecord.percentage first)
                    (map UserAttemptRecord.percentage others))).
    split; [reflexivity|]. split.
    + split; [discriminate|]. intros H. exfalso.
      destruct (proj1 (Hf first) (or_introl eq_refl)) as [Hin Ha].
      exact (H first Hin Ha).
    + intros m [= <-]. split.
      * pose proof (Math_max_In (UserAttemptRecord.percentage first)
                      (map UserAttemptRecord.percentage others)) as Hin.
        change (UserAttemptRecord.percentage first
                  :: map UserAttemptRecord.percentage others)
          with (map UserAttemptRecord.percentage (first :: others)) in Hin.
        apply in_map_iff in Hin. destruct Hin as [a [Heq Hin]].
        apply Hf in Hin. destruct Hin as [Hin Ha]. now exists a.
      * intros a Hin Ha.
        destruct (proj2 (Hf a) (conj Hin Ha)) as [<-|Hin'].
        -- apply Math_max_ge.
        -- apply Math_max_upper. now apply in_map.
Qed.

End BestScore.

(* ===================================================================== *)
(** * Attribution of an attempt to a quiz set *)
(* ===================================================================== *)

(** Unfolds the monad on a goal about one run of a method. *)
Ltac run :=
  unfold bind, ret, throw, lift, get_db, set_db, modify_db,
    LocalDatabaseService.saveDatabase,
    LocalDatabaseService.new_Date_toISOString,
    LocalDatabaseService.generateId;
  cbn [fst snd db clock entropy].

(** [tenantId] or [quizSetId] is a non-empty string. *)
Definition supplied (o : option string) : Prop :=
  exists s, o = Some s /\ s <> "".

(** [tenantId] or [quizSetId] is [undefined] or the empty string. *)
Definition not_supplied (o : option string) : Prop :=
  o = None \/ o = Some "".

Lemma truthy_opt_true o : truthy_opt o = true <-> supplied o.
Proof.
  unfold supplied. destruct o as [s|]; simpl.
  - unfold truthy. rewrite negb_true_iff, String.eqb_neq. split.
    + intros H. now exists s.
    + intros [s' [[= <-] H]]. exact H.
  - split; [discriminate | intros [s [H _]]; discriminate].
Qed.

Lemma truthy_opt_false o : truthy_opt o = false <-> not_supplied o.
Proof.
  unfold not_supplied. destruct o as [s|]; simpl.
  - unfold truthy. rewrite negb_false_iff, String.eqb_eq. split.
    + intros ->. now right.
    + intros [H|[= ->]]; [discriminate | reflexivity].
  - split; [now left | reflexivity].
Qed.

Section Attribution.
Context {rt : JsRuntime}.

(** C9 (amended).  [saveTestResult] stores the attempt under the generated
    id with [quiz_set_id] equal to the caller's [quizSetId] when that is a
    non-empty string; otherwise to the id of the first published quiz set in
    iteration order when [quizType] is "default" and one exists; otherwise
    to the string "default". *)
Theorem saveTestResult_quiz_set_id (result : NewTestResult.t) (w : World) :
  let attemptId := Math_random_id (entropy w) in
  let published :=
    filter QuizSetRecord.is_published (Object_values (quiz_sets (db w))) in
  exists saved w' a,
    DataServiceAdapter.saveTestResult result w = (Return saved, w')
    /\ TestResult.id saved = attemptId
    /\ tbl_get attemptId (user_attempts (db w')) = Some a
    /\ (forall s, NewTestResult.quizSetId result = Some s -> s <> "" ->
        UserAttemptRecord.quiz_set_id a = s)
    /\ (not_supplied (NewTestResult.quizSetId result) ->
        NewTestResult.quizType result = "default" ->
        forall first others, published = first :: others ->
        UserAttemptRecord.quiz_set_id a = QuizSetRecord.id first)
    /\ (not_supplied (NewTestResult.quizSetId result) ->
        NewTestResult.quizType result <> "default" \/ published = [] ->
        UserAttemptRecord.quiz_set_id a = "default").
Proof.
  intros attemptId published.
  unfold DataServiceAdapter.saveTestResult, LocalDatabaseService.saveTestResult.
  run. do 3 eexists. split; [reflexivity|]. split; [reflexivity|].
  split; [apply tbl_get_set_same|]. cbn.
  unfold LocalDatabaseService.attributed_quiz_set. fold published.
  split; [|split].
  - intros s Hs Hne.
    assert (Ht : truthy_opt (NewTestResult.quizSetId result) = true)
      by (apply truthy_opt_true; now exists s).
    now rewrite Ht, Hs.
  - intros Hn Hq first others Hp. apply truthy_opt_false in Hn.
    rewrite Hn, Hq, Hp. reflexivity.
  - intros Hn Hd. apply truthy_opt_false in Hn. rewrite Hn.
    destruct Hd as [Hq|Hp].
    + apply String.eqb_neq in Hq. now rewrite Hq.
    + rewrite Hp. now destruct (_ =? _).
Qed.

End Attribution.

(* ===================================================================== *)
(** * Creation of users through the adapter *)
(* ===================================================================== *)

Section CreateUser.
Context {rt : JsRuntime}.

Lemma find_by_email_None email d :
  LocalDatabaseService.find_by_email email d = None <->
  forall u, In u (Object_values (users d)) -> UserRecord.email u <> email.
Proof.
  unfold LocalDatabaseService.find_by_email. split.
  - intros H u Hin. apply (find_none _ _ H) in Hin.
    now apply String.eqb_neq in Hin.
  - intros H. destruct (find _ _) as [u|] eqn:E; [|reflexivity].
    apply find_some in E. destruct E as [Hin Heq].
    apply String.eqb_eq in Heq. now apply H in Hin.
Qed.


(** What [createUser] of the store does when the email is free. *)
Lemma store_createUser_fresh name email password role tenantId w :
  LocalDatabaseService.find_by_email email (db w) = None ->
  let userId := Math_random_id (entropy w) in
  let createdAt := Date_toISOString (clock w) in
  exists w',
    LocalDatabaseService.createUser name email password role tenantId w
    = (Return (User.mk userId name email role tenantId Active createdAt), w')
    /\ tbl_get userId (users (db w'))
       = Some (UserRecord.mk userId name email
                 (LocalDatabaseService.hashPassword password) role tenantId
                 Active createdAt).
Proof.
  intros Hfree userId createdAt.
  unfold LocalDatabaseService.createUser. run. rewrite Hfree. run.
  eexists. split; [reflexivity|]. cbn. apply tbl_get_set_same.
Qed.

Lemma store_createUser_returns name email password role tenantId w user w' :
  LocalDatabaseService.createUser name email password role tenantId w
  = (Return user, w') ->
  User.role user = role /\ User.tenantId user = tenantId.
Proof.
  unfold LocalDatabaseService.createUser. run.
  destruct (LocalDatabaseService.find_by_email email (db w)); [discriminate|].
  run. intros [= <- _]. split; reflexivity.
Qed.

(** C5 (amended).  [createUser] of the adapter throws, leaving the store as
    it was, when the role is product-admin and a non-empty [tenantId] is
    given, and when the role is admin or user and [tenantId] is missing or
    empty.  So a user it returns has, as a product-admin, no tenant or the
    empty one, and as an admin or user a non-empty [tenantId]; and it does
    return a user whenever the rule is met and the email is free. *)
Theorem createUser_tenant_rule
    (name email password : string) (role : Role) (tenantId : option string)
    (w : World) :
  (role = ProductAdmin -> supplied tenantId ->
   DataServiceAdapter.createUser name email password role tenantId w
   = (Throw (JsError "Product admin cannot belong to a tenant"), w))
  /\ (role = Admin \/ role = Member -> not_supplied tenantId ->
      DataServiceAdapter.createUser name email password role tenantId w
      = (Throw (JsError "Admin and user roles must belong to a tenant"), w))
  /\ (forall user w',
      DataServiceAdapter.createUser name email password role tenantId w
      = (Return user, w') ->
      (User.role user = ProductAdmin -> not_supplied (User.tenantId user))
      /\ (User.role user = Admin \/ User.role user = Member ->
          supplied (User.tenantId user)))
  /\ ((role = ProductAdmin /\ not_supplied tenantId
       \/ (role = Admin \/ role = Member) /\ supplied tenantId) ->
      (forall u, In u (Object_values (users (db w))) -> UserRecord.email u <> email) ->
      exists user w',
        DataServiceAdapter.createUser name email password role tenantId w
        = (Return user, w')
        /\ User.role user = role /\ User.tenantId user = tenantId).
Proof.
  unfold DataServiceAdapter.createUser. repeat split.
  - intros -> Hs. apply truthy_opt_true in Hs. now rewrite Hs.
  - intros Hr Hn. apply truthy_opt_false in Hn. rewrite Hn.
    destruct Hr as [-> | ->]; reflexivity.
  - intros Hrole. destruct (truthy_opt tenantId) eqn:Et.
    + destruct role; try discriminate H.
      all: apply store_createUser_returns in H; destruct H as [Hr Ht];
        rewrite Hr in Hrole; discriminate.
    + apply truthy_opt_false in Et.
      destruct role; try discriminate H.
      apply store_createUser_returns in H. destruct H as [_ Ht]. now rewrite Ht.
  - intros Hrole. destruct (truthy_opt tenantId) eqn:Et.
    + apply truthy_opt_true in Et.
      destruct role; try discriminate H.
      all: apply store_createUser_returns in H; destruct H as [_ Ht];
        now rewrite Ht.
    + destruct role; try discriminate H.
      apply store_createUser_returns in H. destruct H as [Hr _].
      rewrite Hr in Hrole. destruct Hrole; discriminate.
  - intros Hrule Hfree. apply find_by_email_None in Hfree.
    destruct (store_createUser_fresh name email password role tenantId w Hfree)
      as [w' [Hrun _]].
    do 2 eexists.
    destruct Hrule as [[-> Hn] | [Hr Hs]].
    + apply truthy_opt_false in Hn. rewrite Hn. split; [exact Hrun|].
      split; reflexivity.
    + apply truthy_opt_true in Hs. rewrite Hs. cbn.
      destruct Hr as [-> | ->]; (split; [exact Hrun | split; reflexivity]).
Qed.

End CreateUser.

(* ===================================================================== *)
(** * Login *)
(* ===================================================================== *)

Section Login.
Context {rt : JsRuntime}.

(** The session table after a login of the user row [u] from world [w]. *)
Definition session_of (w : World) (u : UserRecord.t)
  : DatabaseTable UserSessionRecord.t :=
  [(Math_random_id (entropy w),
    UserSessionRecord.mk (Math_random_id (entropy w)) (UserRecord.id u))].

(** [loginUser] of the store: a row with that email whose digest matches
    replaces the session and is returned; anything else returns [null] and
    leaves the store as it was. *)
Lemma store_loginUser_spec email password w :
  match LocalDatabaseService.find_by_email email (db w) with
  | Some u =>
      if LocalDatabaseService.verifyPassword password (UserRecord.password_hash u)
      then exists w',
          LocalDatabaseService.loginUser email password w
          = (Return (Some (LocalDatabaseService.user_of_record u)), w')
          /\ user_sessions (db w') = session_of w u
          /\ users (db w') = users (db w)
      else LocalDatabaseService.loginUser email password w = (Return None, w)
  | None => LocalDatabaseService.loginUser email password w = (Return None, w)
  end.
Proof.
  unfold LocalDatabaseService.loginUser. run.
  destruct (LocalDatabaseService.find_by_email email (db w)) as [u|];
    [|reflexivity].
  destruct (LocalDatabaseService.verifyPassword _ _); [|reflexivity].
  run. eexists. split; [reflexivity|]. split; reflexivity.
Qed.



End Login.

(* ===================================================================== *)
(** * Deleting a quiz set *)
(* ===================================================================== *)

Section DeleteQuizSet.
Context {rt : JsRuntime}.

(** The rows of [quiz_questions] that [deleteQuizSet id] keeps. *)
Definition other_quiz_set (id : string) (e : string * QuizQuestionRecord.t) : bool :=
  negb (QuizQuestionRecord.quiz_set_id (snd e) =? id).

Lemma NoDup_keys_filter (T : Type) (f : string * T -> bool) (t : DatabaseTable T) :
  NoDup (Object_keys t) -> NoDup (Object_keys (filter f t)).
Proof.
  induction t as [|e t IH]; simpl; [constructor|].
  intros H. inversion H as [|? ? Hk Hl]; subst.
  destruct (f e); simpl; [|now apply IH].
  constructor; [|now apply IH].
  intro Hin. apply Hk. unfold Object_keys in *. apply in_map_iff in Hin.
  destruct Hin as [x [Hx Hin]]. apply filter_In in Hin.
  apply in_map_iff. exists x. tauto.
Qed.

Lemma tbl_get_delete_other (T : Type) (t : DatabaseTable T) k k' :
  k' <> k -> tbl_get k' (tbl_delete k t) = tbl_get k' t.
Proof.
  intros Hne. induction t as [|[k0 v0] t IH]; simpl; [reflexivity|].
  destruct (k0 =? k) eqn:E; simpl.
  - apply String.eqb_eq in E. subst.
    apply String.eqb_neq in Hne. rewrite String.eqb_sym in Hne. now rewrite Hne.
  - now rewrite IH.
Qed.

(** The [forEach] over [Object.keys(this.db.quiz_questions)]: with the rows
    [done] already visited and kept, visiting the keys of [rest] leaves
    [done] and the rows of [rest] of other quiz sets. *)
Lemma delete_questions_loop id rest : forall done d c e,
  NoDup (Object_keys (done ++ rest)%list) ->
  forEach (Object_keys rest) (LocalDatabaseService.delete_question_of id)
    (mkWorld (with_quiz_questions (done ++ rest)%list d) c e)
  = (Return tt,
     mkWorld (with_quiz_questions (done ++ filter (other_quiz_set id) rest)%list d)
       c e).
Proof.
  induction rest as [|[k q] rest IH]; intros done d c e Hnd; [reflexivity|].
  assert (Hk1 : ~ In k (Object_keys done) /\ ~ In k (Object_keys rest)).
  { unfold Object_keys in *. rewrite map_app in Hnd. simpl in Hnd.
    apply NoDup_remove_2 in Hnd. rewrite in_app_iff in Hnd. tauto. }
  destruct Hk1 as [Hk1 Hk2].
  cbn [Object_keys map forEach fst]. unfold bind at 1.
  unfold LocalDatabaseService.delete_question_of. run.
  cbn [quiz_questions with_quiz_questions]. rewrite tbl_get_app by assumption.
  cbn [tbl_get]. rewrite String.eqb_refl.
  unfold other_quiz_set at 1. cbn [filter snd].
  destruct (QuizQuestionRecord.quiz_set_id q =? id) eqn:E; cbn [negb].
  - run. cbn [quiz_questions with_quiz_questions tenants users quiz_sets
              user_attempts attempt_answers user_sessions metadata].
    rewrite tbl_delete_app. cbn [tbl_delete filter fst].
    rewrite String.eqb_refl. cbn [negb].
    fold (tbl_delete k done) (tbl_delete k rest).
    rewrite !tbl_delete_absent by assumption.
    specialize (IH done d c e). cbn [with_quiz_questions] in IH.
    apply IH. unfold Object_keys in *. rewrite map_app in *. simpl in Hnd.
    now apply NoDup_remove_1 in Hnd.
  - run. specialize (IH (done ++ [(k, q)])%list d c e).
    rewrite <- !app_assoc in IH. apply IH. exact Hnd.
Qed.

(** What a run of [deleteQuizSet] does once the test of
    [this.db.quiz_sets[id]] has passed, on a row or on an inherited member. *)
Lemma deleteQuizSet_found id w :
  tbl_truthy id (quiz_sets (db w)) = true ->
  NoDup (Object_keys (quiz_questions (db w))) ->
  LocalDatabaseService.deleteQuizSet id w
  = (Return true,
     mkWorld
       (LocalDatabaseService.stamped (Date_toISOString (clock w))
          (with_quiz_sets (tbl_delete id (quiz_sets (db w)))
             (with_quiz_questions
                (filter (other_quiz_set id) (quiz_questions (db w))) (db w))))
       (S (clock w)) (entropy w)).
Proof.
  intros Hget Hnd. unfold LocalDatabaseService.deleteQuizSet.
  unfold bind at 1, get_db at 1. rewrite Hget. unfold bind at 1.
  destruct w as [d c e]. cbn [db clock entropy] in *.
  pose proof (delete_questions_loop id (quiz_questions d) [] d c e Hnd) as Hloop.
  cbn [app] in Hloop.
  replace (with_quiz_questions (quiz_questions d) d) with d in Hloop
    by (destruct d; reflexivity).
  rewrite Hloop. run. reflexivity.
Qed.

(** What a run of [deleteQuizSet] on an existing quiz set does. *)
Lemma deleteQuizSet_present id w r :
  tbl_get id (quiz_sets (db w)) = Some r ->
  NoDup (Object_keys (quiz_questions (db w))) ->
  LocalDatabaseService.deleteQuizSet id w
  = (Return true,
     mkWorld
       (LocalDatabaseService.stamped (Date_toISOString (clock w))
          (with_quiz_sets (tbl_delete id (quiz_sets (db w)))
             (with_quiz_questions
                (filter (other_quiz_set id) (quiz_questions (db w))) (db w))))
       (S (clock w)) (entropy w)).
Proof.
  intros Hget. apply deleteQuizSet_found. exact (tbl_truthy_own _ _ Hget).
Qed.



End DeleteQuizSet.

(* ===================================================================== *)
(** * Approval and rejection of tenants *)
(* ===================================================================== *)

Section Approval.
Context {rt : JsRuntime}.

Lemma getTenant_absent id w :
  tbl_get id (tenants (db w)) = None ->
  Object_prototype_member id = false ->
  LocalDatabaseService.getTenant id w = (Return None, w).
Proof.
  intros H Hname. unfold LocalDatabaseService.getTenant. run.
  now rewrite H, Hname.
Qed.

(** The read finds a member of [Object.prototype]. *)
Lemma getTenant_inherited id w :
  tbl_get id (tenants (db w)) = None ->
  Object_prototype_member id = true ->
  LocalDatabaseService.getTenant id w = (Throw SyntaxError, w).
Proof.
  intros H Hname. unfold LocalDatabaseService.getTenant. run.
  now rewrite H, Hname.
Qed.

Lemma getTenant_present id w t j :
  tbl_get id (tenants (db w)) = Some t ->
  JSON_parse (TenantRecord.settings_json t) = Some j ->
  LocalDatabaseService.getTenant id w
  = (Return (Some (LocalDatabaseService.tenant_of_record t j)), w).
Proof.
  intros H Hj. unfold LocalDatabaseService.getTenant. run. rewrite H.
  unfold LocalDatabaseService.JSON_parse_or_throw. rewrite Hj. reflexivity.
Qed.

(** The updates [approveTenant] and [rejectTenant] hand to the store, with
    the [updatedAt] the adapter adds. *)
Definition approval (approvedBy approvedAt updatedAt : string) : TenantUpdates.t :=
  TenantUpdates.mk None None None (Some true) None (Some updatedAt)
    (Some TenantApproved) (Some approvedBy) (Some approvedAt) None.

Definition rejection (rejectedBy approvedAt updatedAt reason : string)
  : TenantUpdates.t :=
  TenantUpdates.mk None None None (Some false) None (Some updatedAt)
    (Some TenantRejected) (Some rejectedBy) (Some approvedAt) (Some reason).

(** A run of the store's [updateTenant] that leaves the settings alone. *)
Lemma updateTenant_present id updates w t j :
  tbl_get id (tenants (db w)) = Some t ->
  JSON_parse (TenantRecord.settings_json t) = Some j ->
  TenantUpdates.settings updates = None ->
  LocalDatabaseService.updateTenant id updates w
  = (Return (Some (LocalDatabaseService.tenant_of_record
                     (LocalDatabaseService.apply_updates updates t) j)),
     mkWorld
       (LocalDatabaseService.stamped (Date_toISOString (clock w))
          (with_tenants
             (tbl_set id (LocalDatabaseService.apply_updates updates t)
                (tenants (db w))) (db w)))
       (S (clock w)) (entropy w)).
Proof.
  intros H Hj Hs. unfold LocalDatabaseService.updateTenant. run. rewrite H.
  run. erewrite getTenant_present; [reflexivity| |].
  - cbn. apply tbl_get_set_same.
  - unfold LocalDatabaseService.apply_updates. cbn. rewrite Hs. exact Hj.
Qed.

(** The user rows [approveTenant] activates: the pending ones whose key is
    in [ids]. *)
Definition activate (ids : list string) (e : string * UserRecord.t)
  : string * UserRecord.t :=
  if existsb (String.eqb (fst e)) ids
  then (fst e, UserRecord.set_status Active (snd e))
  else e.

Lemma Object_keys_activate ids t :
  Object_keys (map (activate ids) t) = Object_keys t.
Proof.
  unfold Object_keys. rewrite map_map. apply map_ext.
  intros e. unfold activate. now destruct (existsb _ _).
Qed.

Lemma activate_cons k ids e :
  activate ids (activate [k] e) = activate (k :: ids) e.
Proof.
  destruct e as [k0 u]. unfold activate. cbn [existsb fst snd].
  rewrite orb_false_r.
  destruct (k0 =? k); cbn [fst snd orb]; destruct (existsb _ ids);
    destruct u; reflexivity.
Qed.

Lemma updateUserStatus_Active userId w :
  NoDup (Object_keys (users (db w))) ->
  exists b : bool,
    LocalDatabaseService.updateUserStatus userId Active w
    = (Return b,
       if b
       then mkWorld
              (LocalDatabaseService.stamped (Date_toISOString (clock w))
                 (with_users (map (activate [userId]) (users (db w))) (db w)))
              (S (clock w)) (entropy w)
       else w)
    /\ map (activate [userId]) (users (db w))
       = (if b then map (activate [userId]) (users (db w)) else users (db w)).
Proof.
  intros Hnd. unfold LocalDatabaseService.updateUserStatus. run.
  destruct (tbl_get userId (users (db w))) as [r|] eqn:E.
  - exists true. run. split; [|reflexivity]. do 4 f_equal.
    rewrite tbl_set_present; [|assumption|].
    + apply map_ext_in. intros [k u] Hin. unfold activate. cbn.
      rewrite orb_false_r. destruct (k =? userId) eqn:Ek; [|reflexivity].
      apply String.eqb_eq in Ek. subst k.
      rewrite (In_tbl_get _ _ _ Hnd Hin) in E. now injection E as ->.
    + apply tbl_get_In in E. apply In_Object_keys. now exists r.
  - exists false. split; [reflexivity|].
    transitivity (map (fun e : string * UserRecord.t => e) (users (db w)));
      [|apply map_id].
    apply map_ext_in. intros [k u] Hin. unfold activate. cbn.
    rewrite orb_false_r. destruct (k =? userId) eqn:Ek; [|reflexivity].
    apply String.eqb_eq in Ek. subst k.
    apply tbl_get_None in E. exfalso. apply E. apply In_Object_keys. now exists u.
Qed.

Definition is_pending (user : User.t) : bool :=
  match User.status user with
  | Pending => true
  | _ => false
  end.

Lemma activate_loop l : forall w,
  NoDup (Object_keys (users (db w))) ->
  exists w',
    forEach l DataServiceAdapter.activate_if_pending w = (Return tt, w')
    /\ users (db w')
       = map (activate (map User.id (filter is_pending l))) (users (db w))
    /\ tenants (db w') = tenants (db w)
    /\ quiz_sets (db w') = quiz_sets (db w)
    /\ quiz_questions (db w') = quiz_questions (db w)
    /\ user_attempts (db w') = user_attempts (db w).
Proof.
  induction l as [|x l IH]; intros w Hnd.
  - exists w. split; [reflexivity|]. split; [|tauto].
    cbn. symmetry.
    transitivity (map (fun e : string * UserRecord.t => e) (users (db w)));
      [|apply map_id].
    apply map_ext. intros e. reflexivity.
  - cbn [forEach]. unfold bind at 1.
    unfold DataServiceAdapter.activate_if_pending at 1.
    cbn [filter]. unfold is_pending at 1.
    destruct (User.status x).
    + cbn. apply IH. exact Hnd.
    + destruct (updateUserStatus_Active (User.id x) w Hnd) as [b [Hrun Hb]].
      unfold bind at 1. rewrite Hrun. cbn [ret].
      set (w1 := if b then _ else w).
      assert (Hu : users (db w1) = map (activate [User.id x]) (users (db w)))
        by (subst w1; destruct b; [reflexivity | now rewrite Hb]).
      assert (Hrest : tenants (db w1) = tenants (db w)
                      /\ quiz_sets (db w1) = quiz_sets (db w)
                      /\ quiz_questions (db w1) = quiz_questions (db w)
                      /\ user_attempts (db w1) = user_attempts (db w))
        by (subst w1; destruct b; cbn; tauto).
      destruct (IH w1) as [w' [Hloop [Hu' Hrest']]].
      { rewrite Hu, Object_keys_activate. exact Hnd. }
      exists w'. split; [exact Hloop|]. split.
      * rewrite Hu', Hu, map_map. cbn [map]. apply map_ext.
        intros e. apply activate_cons.
      * destruct Hrest as [H1 [H2 [H3 H4]]].
        rewrite H1, H2, H3, H4 in Hrest'. exact Hrest'.
    + cbn. apply IH. exact Hnd.
Qed.

(** The user rows after [approveTenant(tenantId)]: the pending rows of the
    tenant are active, every other row is as it was. *)
Definition activated (tenantId : string) (e : string * UserRecord.t)
  : string * UserRecord.t :=
  match UserRecord.status (snd e) with
  | Pending =>
      if opt_eqb (UserRecord.tenant_id (snd e)) tenantId
      then (fst e, UserRecord.set_status Active (snd e))
      else e
  | _ => e
  end.

Lemma NoDup_keys_ids t :
  table_ok UserRecord.id t = true -> NoDup (map UserRecord.id (Object_values t)).
Proof.
  intros Hok. pose proof (table_ok_NoDup _ _ Hok) as Hnd.
  replace (map UserRecord.id (Object_values t)) with (Object_keys t);
    [assumption|].
  unfold Object_keys, Object_values. rewrite map_map.
  apply map_ext_in. intros [k u] Hin. symmetry.
  exact (table_ok_id _ _ _ _ Hok Hin).
Qed.

(** Under the invariant of the user table, the ids [approveTenant] visits
    and finds pending are the keys of the pending rows of the tenant. *)
Lemma activate_pending_of_tenant tenantId t sorted :
  table_ok UserRecord.id t = true ->
  Permutation sorted (Object_values t) ->
  map (activate
         (map User.id
            (filter is_pending
               (filter (fun user => opt_eqb (User.tenantId user) tenantId)
                  (map LocalDatabaseService.user_of_record sorted)))))
      t
  = map (activated tenantId) t.
Proof.
  intros Hok Hperm. apply map_ext_in. intros [k u] Hin.
  unfold activate, activated. cbn [fst snd].
  set (ids := map User.id _).
  assert (Hiff : In k ids <->
                 UserRecord.status u = Pending
                 /\ opt_eqb (UserRecord.tenant_id u) tenantId = true).
  { subst ids. rewrite in_map_iff. split.
    - intros [x [Hid Hx]]. rewrite !filter_In, in_map_iff in Hx.
      destruct Hx as [[[u' [<- Hu']] Ht] Hp].
      apply (Permutation_in _ Hperm) in Hu'.
      apply In_Object_values in Hu'. destruct Hu' as [k' Hu'].
      pose proof (table_ok_id _ _ _ _ Hok Hu') as Hk'. cbn in Hid.
      assert (k' = k) by congruence. subst k'.
      pose proof (table_ok_NoDup _ _ Hok) as Hnd.
      pose proof (In_tbl_get _ _ _ Hnd Hu') as G1.
      pose proof (In_tbl_get _ _ _ Hnd Hin) as G2.
      assert (u' = u) by congruence. subst u'.
      unfold is_pending in Hp. cbn in Hp, Ht.
      split; [|exact Ht]. destruct (UserRecord.status u); congruence.
    - intros [Hp Ht]. exists (LocalDatabaseService.user_of_record u).
      split; [exact (table_ok_id _ _ _ _ Hok Hin)|].
      rewrite !filter_In, in_map_iff. repeat split.
      + exists u. split; [reflexivity|].
        apply (Permutation_in _ (Permutation_sym Hperm)).
        apply In_Object_values. now exists k.
      + exact Ht.
      + unfold is_pending. cbn. now rewrite Hp. }
  destruct (existsb (String.eqb k) ids) eqn:E.
  - apply existsb_eqb_In in E. apply Hiff in E. destruct E as [-> ->].
    reflexivity.
  - destruct (UserRecord.status u) eqn:Es; try reflexivity.
    destruct (opt_eqb (UserRecord.tenant_id u) tenantId) eqn:Et;
      [|reflexivity].
    assert (Hk : In k ids) by (apply Hiff; auto).
    apply existsb_eqb_In in Hk. congruence.
Qed.

(** A run of [approveTenant] on a tenant that exists. *)
Lemma approveTenant_present tenantId approvedBy w t j :
  table_ok UserRecord.id (users (db w)) = true ->
  tbl_get tenantId (tenants (db w)) = Some t ->
  JSON_parse (TenantRecord.settings_json t) = Some j ->
  exists w',
    DataServiceAdapter.approveTenant tenantId approvedBy w = (Return true, w')
    /\ tenants (db w')
       = tbl_set tenantId
           (LocalDatabaseService.apply_updates
              (approval approvedBy (Date_toISOString (clock w))
                 (Date_toISOString (S (clock w)))) t)
           (tenants (db w))
    /\ users (db w') = map (activated tenantId) (users (db w))
    /\ quiz_sets (db w') = quiz_sets (db w)
    /\ quiz_questions (db w') = quiz_questions (db w)
    /\ user_attempts (db w') = user_attempts (db w).
Proof.
  intros Hok Ht Hj. unfold DataServiceAdapter.approveTenant.
  unfold bind at 1. unfold DataServiceAdapter.getTenant.
  rewrite (getTenant_present _ _ Ht Hj).
  unfold bind at 1, LocalDatabaseService.new_Date_toISOString at 1.
  unfold bind at 1, DataServiceAdapter.updateTenant.
  unfold bind at 1, LocalDatabaseService.new_Date_toISOString at 1.
  cbn [db clock entropy TenantUpdates.name TenantUpdates.description
       TenantUpdates.domain TenantUpdates.isActive TenantUpdates.settings
       TenantUpdates.status TenantUpdates.approvedBy TenantUpdates.approvedAt
       TenantUpdates.rejectionReason].
  fold (approval approvedBy (Date_toISOString (clock w))
          (Date_toISOString (S (clock w)))).
  erewrite updateTenant_present; [|exact Ht|exact Hj|reflexivity].
  cbn [db clock entropy].
  unfold bind at 1, DataServiceAdapter.getUsersByTenant.
  unfold bind at 1, LocalDatabaseService.getUsers. run.
  match goal with
  | |- context [forEach ?l _ ?w1] =>
      destruct (activate_loop l w1) as [w' [Hloop [Hu Hrest]]]
  end.
  { cbn. exact (table_ok_NoDup _ _ Hok). }
  exists w'. unfold bind. rewrite Hloop. split; [reflexivity|].
  cbn in Hu, Hrest. destruct Hrest as [H1 [H2 [H3 H4]]].
  repeat split; try assumption.
  rewrite Hu. apply activate_pending_of_tenant; [exact Hok|].
  apply Array_sort_perm.
Qed.

(** A run of [rejectTenant] on a tenant that exists. *)
Lemma rejectTenant_present tenantId rejectedBy reason w t j :
  tbl_get tenantId (tenants (db w)) = Some t ->
  JSON_parse (TenantRecord.settings_json t) = Some j ->
  exists w',
    DataServiceAdapter.rejectTenant tenantId rejectedBy reason w
    = (Return true, w')
    /\ tenants (db w')
       = tbl_set tenantId
           (LocalDatabaseService.apply_updates
              (rejection rejectedBy (Date_toISOString (clock w))
                 (Date_toISOString (S (clock w))) reason) t)
           (tenants (db w))
    /\ users (db w') = users (db w).
Proof.
  intros Ht Hj. unfold DataServiceAdapter.rejectTenant.
  unfold bind at 1. unfold DataServiceAdapter.getTenant.
  rewrite (getTenant_present _ _ Ht Hj).
  unfold bind at 1, LocalDatabaseService.new_Date_toISOString at 1.
  unfold bind at 1, DataServiceAdapter.updateTenant.
  unfold bind at 1, LocalDatabaseService.new_Date_toISOString at 1.
  cbn [db clock entropy TenantUpdates.name TenantUpdates.description
       TenantUpdates.domain TenantUpdates.isActive TenantUpdates.settings
       TenantUpdates.status TenantUpdates.approvedBy TenantUpdates.approvedAt
       TenantUpdates.rejectionReason].
  fold (rejection rejectedBy (Date_toISOString (clock w))
          (Date_toISOString (S (clock w))) reason).
  erewrite updateTenant_present; [|exact Ht|exact Hj|reflexivity].
  eexists. split; [reflexivity|]. split; reflexivity.
Qed.


Lemma rejectTenant_unknown tenantId rejectedBy reason w :
  tbl_get tenantId (tenants (db w)) = None ->
  Object_prototype_member tenantId = false ->
  DataServiceAdapter.rejectTenant tenantId rejectedBy reason w
  = (Throw (JsError "Tenant not found"), w).
Proof.
  intros Ht Hname. unfold DataServiceAdapter.rejectTenant, bind.
  unfold DataServiceAdapter.getTenant.
  now rewrite (getTenant_absent _ _ Ht Hname).
Qed.


Lemma rejectTenant_inherited tenantId rejectedBy reason w :
  tbl_get tenantId (tenants (db w)) = None ->
  Object_prototype_member tenantId = true ->
  DataServiceAdapter.rejectTenant tenantId rejectedBy reason w
  = (Throw SyntaxError, w).
Proof.
  intros Ht Hname. unfold DataServiceAdapter.rejectTenant, bind.
  unfold DataServiceAdapter.getTenant.
  now rewrite (getTenant_inherited _ _ Ht Hname).
Qed.

End Approval.

Section ApprovalWorkflow.
Context {rt : JsRuntime}.


(** C2 (amended).  [approveTenant] and [rejectTenant] do not look at the
    current status: on any tenant that exists, pending or approved or
    rejected, [approveTenant] leaves it approved and [rejectTenant] leaves
    it rejected, so neither state is terminal in the adapter. *)
Theorem approve_reject_whatever_status
    (tenantId actor reason : string) (w : World) (t : TenantRecord.t) (j : json) :
  table_ok UserRecord.id (users (db w)) = true ->
  tbl_get tenantId (tenants (db w)) = Some t ->
  JSON_parse (TenantRecord.settings_json t) = Some j ->
  (exists w' t',
      DataServiceAdapter.approveTenant tenantId actor w = (Return true, w')
      /\ tbl_get tenantId (tenants (db w')) = Some t'
      /\ TenantRecord.status t' = TenantApproved)
  /\ (exists w' t',
      DataServiceAdapter.rejectTenant tenantId actor reason w = (Return true, w')
      /\ tbl_get tenantId (tenants (db w')) = Some t'
      /\ TenantRecord.status t' = TenantRejected).
Proof.
  intros Hok Ht Hj. split.
  - destruct (approveTenant_present tenantId actor w Hok Ht Hj)
      as [w' [Hrun [Hten _]]].
    exists w'. eexists. split; [exact Hrun|].
    split; [rewrite Hten; apply tbl_get_set_same | reflexivity].
  - destruct (rejectTenant_present tenantId actor reason w Ht Hj)
      as [w' [Hrun [Hten _]]].
    exists w'. eexists. split; [exact Hrun|].
    split; [rewrite Hten; apply tbl_get_set_same | reflexivity].
Qed.

(** Activation does not touch emails, so [find] meets the same row. *)
Lemma find_by_email_activated tenantId email (t : DatabaseTable UserRecord.t) :
  find (fun u => UserRecord.email u =? email) (Object_values (map (activated tenantId) t))
  = option_map (fun u => snd (activated tenantId (EmptyString, u)))
      (find (fun u => UserRecord.email u =? email) (Object_values t)).
Proof.
  unfold Object_values.
  induction t as [|[k u] t IH]; cbn [map find snd]; [reflexivity|].
  assert (He : UserRecord.email (snd (activated tenantId (k, u)))
               = UserRecord.email u
               /\ snd (activated tenantId (k, u))
                  = snd (activated tenantId (EmptyString, u))).
  { unfold activated. cbn [fst snd].
    destruct (UserRecord.status u); auto; destruct (opt_eqb _ _); auto;
      now destruct u. }
  destruct He as [He1 He2]. rewrite He1.
  destruct (UserRecord.email u =? email); [cbn; now rewrite He2 | exact IH].
Qed.

(** The scenario of the approval workflow: a pending user of a tenant
    cannot log in; once the tenant is approved, the same email and
    password log the user in, now active. *)
Theorem login_before_and_after_approval
    (tenantId approvedBy email password : string) (w : World)
    (t : TenantRecord.t) (j : json) (u : UserRecord.t) :
  table_ok UserRecord.id (users (db w)) = true ->
  tbl_get tenantId (tenants (db w)) = Some t ->
  JSON_parse (TenantRecord.settings_json t) = Some j ->
  LocalDatabaseService.find_by_email email (db w) = Some u ->
  LocalDatabaseService.verifyPassword password (UserRecord.password_hash u) = true ->
  UserRecord.tenant_id u = Some tenantId ->
  UserRecord.status u = Pending ->
  fst (DataServiceAdapter.loginUser email password w) = Return None
  /\ exists w1,
      DataServiceAdapter.approveTenant tenantId approvedBy w = (Return true, w1)
      /\ fst (DataServiceAdapter.loginUser email password w1)
         = Return (Some (LocalDatabaseService.user_of_record
                           (UserRecord.set_status Active u))).
Proof.
  intros Hok Ht Hj Hf Hv Hten Hp. split.
  - unfold DataServiceAdapter.loginUser, bind.
    pose proof (store_loginUser_spec email password w) as Hs.
    rewrite Hf, Hv in Hs. destruct Hs as [w' [Hs _]]. rewrite Hs. cbn.
    now rewrite Hp.
  - destruct (approveTenant_present tenantId approvedBy w Hok Ht Hj)
      as [w1 [Hrun [_ [Hus _]]]].
    exists w1. split; [exact Hrun|].
    assert (Hf1 : LocalDatabaseService.find_by_email email (db w1)
                  = Some (UserRecord.set_status Active u)).
    { unfold LocalDatabaseService.find_by_email in *.
      rewrite Hus, find_by_email_activated, Hf. cbn [option_map].
      unfold activated. cbn [fst snd].
      rewrite Hp, Hten. cbn [opt_eqb]. now rewrite String.eqb_refl. }
    unfold DataServiceAdapter.loginUser, bind.
    pose proof (store_loginUser_spec email password w1) as Hs.
    rewrite Hf1 in Hs.
    replace (UserRecord.password_hash (UserRecord.set_status Active u))
      with (UserRecord.password_hash u) in Hs by (now destruct u).
    rewrite Hv in Hs. destruct Hs as [w2 [Hs _]]. rewrite Hs. reflexivity.
Qed.

End ApprovalWorkflow.

(* ===================================================================== *)
(** * Deleting a tenant *)
(* ===================================================================== *)

Section DeleteTenant.
Context {rt : JsRuntime}.

(** Every question row holds two JSON texts that parse, as the rows
    [createQuizSet] writes with [JSON.stringify] do. *)
Definition parses (s : string) : bool :=
  match JSON_parse s with
  | Some _ => true
  | None => false
  end.

Definition questions_parse (d : DatabaseSchema) : bool :=
  forallb (fun q => parses (QuizQuestionRecord.options_json q)
                    && parses (QuizQuestionRecord.correct_answer_json q))
          (Object_values (quiz_questions d)).

(** The invariant [deleteTenant] relies on. *)
Definition store_ok (d : DatabaseSchema) : bool :=
  table_ok QuizSetRecord.id (quiz_sets d)
  && table_ok QuizQuestionRecord.id (quiz_questions d)
  && table_ok UserAttemptRecord.id (user_attempts d)
  && questions_parse d.

Lemma mapM_reads (A B : Type) (f : A -> M B) (l : list A) (w : World) :
  (forall x, In x l -> exists y, f x w = (Return y, w)) ->
  exists ys, mapM f l w = (Return ys, w)
             /\ Forall2 (fun x y => f x w = (Return y, w)) l ys.
Proof.
  induction l as [|x l IH]; intros H.
  - exists []. split; [reflexivity | constructor].
  - destruct (H x (or_introl eq_refl)) as [y Hy].
    destruct IH as [ys [Hys Hall]]; [intros x' Hx'; apply H; now right|].
    exists (y :: ys). split; [|now constructor].
    cbn [mapM]. unfold bind. rewrite Hy, Hys. reflexivity.
Qed.

Lemma question_of_record_reads q w :
  parses (QuizQuestionRecord.options_json q) = true ->
  parses (QuizQuestionRecord.correct_answer_json q) = true ->
  exists y, LocalDatabaseService.question_of_record q w = (Return y, w).
Proof.
  unfold parses, LocalDatabaseService.question_of_record,
    LocalDatabaseService.JSON_parse_or_throw.
  destruct (JSON_parse (QuizQuestionRecord.options_json q)); [|discriminate].
  destruct (JSON_parse (QuizQuestionRecord.correct_answer_json q));
    [|discriminate].
  intros _ _. eexists. reflexivity.
Qed.

Lemma getQuizSetById_present id w r :
  questions_parse (db w) = true ->
  tbl_get id (quiz_sets (db w)) = Some r ->
  exists quiz,
    LocalDatabaseService.getQuizSetById id w = (Return (Some quiz), w)
    /\ QuizSet.id quiz = QuizSetRecord.id r
    /\ QuizSet.tenantId quiz = QuizSetRecord.tenant_id r.
Proof.
  intros Hp Hget. unfold LocalDatabaseService.getQuizSetById.
  unfold bind at 1, get_db at 1. rewrite Hget.
  match goal with
  | |- context [mapM ?f ?l] => destruct (@mapM_reads _ _ f l w) as [ys [Hys _]]
  end.
  - intros q Hin. apply (Permutation_in _ (Array_sort_perm _ _)) in Hin.
    apply filter_In in Hin. destruct Hin as [Hin _].
    unfold questions_parse in Hp. rewrite forallb_forall in Hp.
    apply Hp in Hin. apply andb_true_iff in Hin.
    now apply question_of_record_reads.
  - unfold bind. rewrite Hys. eexists. split; [reflexivity|].
    split; reflexivity.
Qed.

(** [getQuizSets()] on a store that keeps its invariant: one [QuizSet] per
    row, in the sorted order of the rows. *)
Lemma getQuizSets_reads w :
  table_ok QuizSetRecord.id (quiz_sets (db w)) = true ->
  questions_parse (db w) = true ->
  exists all,
    LocalDatabaseService.getQuizSets w = (Return all, w)
    /\ Forall2 (fun r quiz => QuizSet.id quiz = QuizSetRecord.id r
                              /\ QuizSet.tenantId quiz = QuizSetRecord.tenant_id r)
         (Array_sort (LocalDatabaseService.newest_first QuizSetRecord.updated_at)
            (Object_values (quiz_sets (db w))))
         all.
Proof.
  intros Hok Hp. unfold LocalDatabaseService.getQuizSets.
  unfold bind at 1, get_db at 1.
  set (sorted := Array_sort _ _).
  assert (Hsorted : forall r, In r sorted ->
                    tbl_get (QuizSetRecord.id r) (quiz_sets (db w)) = Some r).
  { intros r Hin. subst sorted.
    apply (Permutation_in _ (Array_sort_perm _ _)) in Hin.
    apply In_Object_values in Hin. destruct Hin as [k Hin].
    rewrite (table_ok_id _ _ _ _ Hok Hin).
    apply In_tbl_get; [exact (table_ok_NoDup _ _ Hok) | exact Hin]. }
  clearbody sorted. induction sorted as [|r sorted IH].
  - exists []. split; [reflexivity | constructor].
  - destruct IH as [all [Hall HF]]; [intros r' Hr'; apply Hsorted; now right|].
    destruct (getQuizSetById_present (QuizSetRecord.id r) w Hp
                (Hsorted r (or_introl eq_refl))) as [quiz [Hq Hids]].
    exists (quiz :: all). split; [|now constructor].
    unfold bind in *. cbn [mapM]. unfold bind. rewrite Hq.
    destruct (mapM _ sorted w) as [[found|err] w1]; [|discriminate].
    injection Hall as <- <-. reflexivity.
Qed.

Lemma filter_twice (A : Type) (f g : A -> bool) (l : list A) :
  filter f (filter g l) = filter (fun x => g x && f x) l.
Proof.
  induction l as [|x l IH]; cbn [filter]; [reflexivity|].
  destruct (g x); cbn [filter andb]; [|exact IH].
  destruct (f x); now rewrite IH.
Qed.

(** A row is kept when its key (or the quiz set of a question) is none of
    [ids]. *)
Definition none_of (ids : list string) (k : string) : bool :=
  negb (existsb (String.eqb k) ids).

Lemma none_of_cons k ids x :
  negb (x =? k) && none_of ids x = none_of (k :: ids) x.
Proof. unfold none_of. cbn [existsb]. now rewrite negb_orb. Qed.

(** The first [forEach] of [deleteTenant]. *)
Lemma delete_quiz_sets_loop (l : list QuizSet.t) : forall w,
  NoDup (map QuizSet.id l) ->
  (forall quiz, In quiz l -> In (QuizSet.id quiz) (Object_keys (quiz_sets (db w)))) ->
  NoDup (Object_keys (quiz_questions (db w))) ->
  exists w',
    forEach l (fun quiz => DataServiceAdapter.deleteQuizSet (QuizSet.id quiz) ;; ret tt) w
    = (Return tt, w')
    /\ quiz_sets (db w')
       = filter (fun e => none_of (map QuizSet.id l) (fst e)) (quiz_sets (db w))
    /\ quiz_questions (db w')
       = filter (fun e => none_of (map QuizSet.id l)
                            (QuizQuestionRecord.quiz_set_id (snd e)))
           (quiz_questions (db w))
    /\ tenants (db w') = tenants (db w)
    /\ users (db w') = users (db w)
    /\ user_attempts (db w') = user_attempts (db w).
Proof.
  induction l as [|quiz l IH]; intros w Hnd Hkeys Hq.
  - exists w. split; [reflexivity|]. cbn [map].
    repeat split; try reflexivity.
    + symmetry. apply forallb_filter_id. now apply forallb_forall.
    + symmetry. apply forallb_filter_id. now apply forallb_forall.
  - cbn [map] in Hnd. inversion Hnd as [|? ? Hhd Htl]; subst.
    destruct (tbl_get (QuizSet.id quiz) (quiz_sets (db w))) as [r|] eqn:Eget.
    2:{ apply tbl_get_None in Eget. exfalso. apply Eget, Hkeys. now left. }
    cbn [forEach]. unfold bind at 1. unfold bind at 1.
    unfold DataServiceAdapter.deleteQuizSet.
    rewrite (deleteQuizSet_present _ _ Eget Hq). cbn [ret].
    match goal with
    | |- context [forEach l _ ?w1] => destruct (IH w1) as [w' [Hloop Hrest]]
    end.
    + exact Htl.
    + intros quiz' Hin. cbn. apply In_Object_keys.
      destruct (proj1 (In_Object_keys _ _) (Hkeys quiz' (or_intror Hin)))
        as [r' Hr'].
      exists r'. apply In_tbl_delete. split; [exact Hr'|]. cbn.
      intros Heq. apply Hhd. rewrite <- Heq. now apply in_map.
    + cbn. now apply NoDup_keys_filter.
    + exists w'. split; [exact Hloop|]. cbn in Hrest.
      destruct Hrest as [H1 [H2 [H3 [H4 H5]]]].
      repeat split; try assumption.
      * rewrite H1. unfold tbl_delete. rewrite filter_twice.
        apply filter_ext. intros e. apply none_of_cons.
      * rewrite H2. rewrite filter_twice. apply filter_ext.
        intros e. unfold other_quiz_set. apply none_of_cons.
Qed.

Lemma deleteTestResult_run id w :
  exists b w',
    LocalDatabaseService.deleteTestResult id w = (Return b, w')
    /\ user_attempts (db w') = tbl_delete id (user_attempts (db w))
    /\ tenants (db w') = tenants (db w)
    /\ users (db w') = users (db w)
    /\ quiz_sets (db w') = quiz_sets (db w)
    /\ quiz_questions (db w') = quiz_questions (db w).
Proof.
  unfold LocalDatabaseService.deleteTestResult. run.
  destruct (tbl_truthy id (user_attempts (db w))) eqn:E.
  - run. do 2 eexists. split; [reflexivity|]. cbn. tauto.
  - do 2 eexists. split; [reflexivity|].
    apply tbl_truthy_false in E. destruct E as [E _].
    apply tbl_get_None in E. rewrite (tbl_delete_absent _ _ E). tauto.
Qed.

(** The second [forEach] of [deleteTenant]. *)
Lemma delete_results_loop (l : list TestResult.t) : forall w,
  exists w',
    forEach l
      (fun result =>
         LocalDatabaseService.deleteTestResult (TestResult.id result) ;; ret tt) w
    = (Return tt, w')
    /\ user_attempts (db w')
       = filter (fun e => none_of (map TestResult.id l) (fst e))
           (user_attempts (db w))
    /\ tenants (db w') = tenants (db w)
    /\ users (db w') = users (db w)
    /\ quiz_sets (db w') = quiz_sets (db w)
    /\ quiz_questions (db w') = quiz_questions (db w).
Proof.
  induction l as [|x l IH]; intros w.
  - exists w. split; [reflexivity|]. cbn [map].
    repeat split; try reflexivity.
    symmetry. apply forallb_filter_id. now apply forallb_forall.
  - destruct (deleteTestResult_run (TestResult.id x) w)
      as [b [w1 [Hrun [A1 [A2 [A3 [A4 A5]]]]]]].
    destruct (IH w1) as [w' [Hloop [B1 [B2 [B3 [B4 B5]]]]]].
    exists w'. cbn [forEach]. unfold bind at 1. unfold bind at 1.
    rewrite Hrun. cbn [ret]. split; [exact Hloop|].
    repeat split; try congruence.
    rewrite B1, A1. unfold tbl_delete. rewrite filter_twice.
    apply filter_ext. intros e. apply none_of_cons.
Qed.

Lemma filter_nil_when (A : Type) (keep : A -> bool) :
  forall rows : list A,
    (forall x, In x rows -> keep x = false) -> filter keep rows = [].
Proof.
  intros rows. induction rows as [|x rows IH]; intros H; cbn [filter];
    [reflexivity|].
  rewrite (H x (or_introl eq_refl)). apply IH. intros y Hy. apply H. now right.
Qed.

Lemma NoDup_map_filter (A B : Type) (key : A -> B) (keep : A -> bool) :
  forall rows : list A,
    NoDup (map key rows) -> NoDup (map key (filter keep rows)).
Proof.
  intros rows. induction rows as [|x rows IH]; cbn [map filter]; [constructor|].
  intros H. inversion H as [|? ? Hhd Htl]; subst.
  destruct (keep x); cbn [map]; [|now apply IH].
  constructor; [|now apply IH].
  intros Hin. apply Hhd. apply in_map_iff in Hin.
  destruct Hin as [y [Hy Hin]]. apply filter_In in Hin.
  apply in_map_iff. exists y. tauto.
Qed.

Lemma Forall2_right (A B : Type) (R : A -> B -> Prop) l1 l2 y :
  Forall2 R l1 l2 -> In y l2 -> exists x, In x l1 /\ R x y.
Proof.
  induction 1 as [|x y' l1 l2 Hxy _ IH]; intros Hin; [destruct Hin|].
  destruct Hin as [<-|Hin].
  - exists x. split; [now left | assumption].
  - destruct (IH Hin) as [x' [Hx' HR]]. exists x'. split; [now right | assumption].
Qed.

Lemma Forall2_left (A B : Type) (R : A -> B -> Prop) l1 l2 x :
  Forall2 R l1 l2 -> In x l1 -> exists y, In y l2 /\ R x y.
Proof.
  induction 1 as [|x' y l1 l2 Hxy _ IH]; intros Hin; [destruct Hin|].
  destruct Hin as [<-|Hin].
  - exists y. split; [now left | assumption].
  - destruct (IH Hin) as [y' [Hy' HR]]. exists y'. split; [now right | assumption].
Qed.

Lemma Forall2_map_eq (A B C : Type) (f : A -> C) (g : B -> C) l1 l2 :
  Forall2 (fun x y => g y = f x) l1 l2 -> map g l2 = map f l1.
Proof.
  induction 1 as [|x y l1 l2 Hxy _ IH]; cbn [map]; [reflexivity|].
  now rewrite Hxy, IH.
Qed.

Lemma keys_are_ids (T : Type) (id : T -> string) (t : DatabaseTable T) :
  table_ok id t = true -> map id (Object_values t) = Object_keys t.
Proof.
  intros Hok. unfold Object_keys, Object_values. rewrite map_map.
  apply map_ext_in. intros [k v] Hin. exact (table_ok_id _ _ _ _ Hok Hin).
Qed.

(** The user check of [deleteTenant]. *)
Lemma getUsersByTenant_reads tenantId w :
  DataServiceAdapter.getUsersByTenant tenantId w
  = (Return
       (filter (fun user => opt_eqb (User.tenantId user) tenantId)
          (map LocalDatabaseService.user_of_record
             (Array_sort (LocalDatabaseService.newest_first UserRecord.created_at)
                (Object_values (users (db w)))))),
     w).
Proof. reflexivity. Qed.

Lemma opt_eqb_true o s : opt_eqb o s = true <-> o = Some s.
Proof.
  destruct o as [x|]; cbn.
  - rewrite String.eqb_eq. split; congruence.
  - split; discriminate.
Qed.

Lemma tenant_has_users tenantId w :
  (exists u, In u (Object_values (users (db w)))
             /\ UserRecord.tenant_id u = Some tenantId) ->
  exists user rest,
    DataServiceAdapter.getUsersByTenant tenantId w = (Return (user :: rest), w).
Proof.
  intros [u [Hin Ht]]. rewrite getUsersByTenant_reads.
  destruct (filter _ _) as [|user rest] eqn:E.
  - exfalso.
    assert (Hf : In (LocalDatabaseService.user_of_record u)
                   (filter (fun user => opt_eqb (User.tenantId user) tenantId)
                      (map LocalDatabaseService.user_of_record
                         (Array_sort
                            (LocalDatabaseService.newest_first UserRecord.created_at)
                            (Object_values (users (db w))))))).
    { apply filter_In. split.
      - apply in_map.
        apply (Permutation_in _ (Permutation_sym (Array_sort_perm _ _))).
        exact Hin.
      - cbn. now apply opt_eqb_true. }
    rewrite E in Hf. destruct Hf.
  - now exists user, rest.
Qed.

Lemma tenant_has_no_users tenantId w :
  (forall u, In u (Object_values (users (db w))) ->
             UserRecord.tenant_id u <> Some tenantId) ->
  DataServiceAdapter.getUsersByTenant tenantId w = (Return [], w).
Proof.
  intros H. rewrite getUsersByTenant_reads. f_equal. f_equal.
  apply filter_nil_when. intros x Hx. apply in_map_iff in Hx.
  destruct Hx as [u [<- Hu]].
  apply (Permutation_in _ (Array_sort_perm _ _)) in Hu.
  destruct (opt_eqb _ _) eqn:E; [|reflexivity].
  apply opt_eqb_true in E. cbn in E. now apply H in Hu.
Qed.

(** The quiz sets [deleteTenant] goes through. *)
Lemma getQuizSetsByTenant_reads tenantId w :
  table_ok QuizSetRecord.id (quiz_sets (db w)) = true ->
  questions_parse (db w) = true ->
  exists l,
    DataServiceAdapter.getQuizSetsByTenant tenantId w = (Return l, w)
    /\ NoDup (map QuizSet.id l)
    /\ (forall quiz, In quiz l ->
         In (QuizSet.id quiz) (Object_keys (quiz_sets (db w))))
    /\ (forall r, In r (Object_values (quiz_sets (db w))) ->
         QuizSetRecord.tenant_id r = Some tenantId ->
         In (QuizSetRecord.id r) (map QuizSet.id l)).
Proof.
  intros Hok Hp. destruct (getQuizSets_reads w Hok Hp) as [all [Hall HF]].
  set (sorted := Array_sort _ _) in HF.
  assert (Hperm : Permutation sorted (Object_values (quiz_sets (db w))))
    by apply Array_sort_perm.
  assert (Hids : map QuizSet.id all = map QuizSetRecord.id sorted).
  { apply Forall2_map_eq. eapply Forall2_impl; [|exact HF]. cbn. tauto. }
  assert (Hnd : NoDup (map QuizSet.id all)).
  { rewrite Hids. apply (Permutation_NoDup (l := Object_keys (quiz_sets (db w)))).
    - rewrite <- (keys_are_ids _ _ Hok). apply Permutation_map.
      now apply Permutation_sym.
    - exact (table_ok_NoDup _ _ Hok). }
  assert (Hkeys : forall quiz, In quiz all ->
                  In (QuizSet.id quiz) (Object_keys (quiz_sets (db w)))).
  { intros quiz Hin. destruct (Forall2_right _ HF Hin) as [r [Hr [Hid _]]].
    rewrite Hid, <- (keys_are_ids _ _ Hok). apply in_map.
    exact (Permutation_in _ Hperm Hr). }
  assert (Hfound : forall r, In r (Object_values (quiz_sets (db w))) ->
                   exists quiz, In quiz all
                                /\ QuizSet.id quiz = QuizSetRecord.id r
                                /\ QuizSet.tenantId quiz = QuizSetRecord.tenant_id r).
  { intros r Hr. apply (Permutation_in _ (Permutation_sym Hperm)) in Hr.
    destruct (Forall2_left _ HF Hr) as [quiz [Hq HR]]. now exists quiz. }
  unfold DataServiceAdapter.getQuizSetsByTenant, DataServiceAdapter.getQuizSets.
  unfold bind. rewrite Hall. destruct (truthy tenantId).
  - eexists. split; [reflexivity|]. split; [|split].
    + now apply NoDup_map_filter.
    + intros quiz Hin. apply filter_In in Hin. now apply Hkeys.
    + intros r Hr Ht. destruct (Hfound r Hr) as [quiz [Hq [Hid Hten]]].
      rewrite <- Hid. apply in_map. apply filter_In. split; [exact Hq|].
      apply opt_eqb_true. congruence.
  - exists all. split; [reflexivity|]. split; [exact Hnd|]. split; [exact Hkeys|].
    intros r Hr _. destruct (Hfound r Hr) as [quiz [Hq [Hid _]]].
    rewrite <- Hid. now apply in_map.
Qed.

(** The test results [deleteTenant] goes through. *)
Lemma getTestResultsByTenant_reads tenantId w :
  exists l,
    DataServiceAdapter.getTestResultsByTenant tenantId w = (Return l, w)
    /\ (forall a, In a (Object_values (user_attempts (db w))) ->
         UserAttemptRecord.tenant_id a = Some tenantId ->
         In (UserAttemptRecord.id a) (map TestResult.id l)).
Proof.
  unfold DataServiceAdapter.getTestResultsByTenant,
    DataServiceAdapter.getTestResults, LocalDatabaseService.getTestResults.
  run.
  set (all := map (LocalDatabaseService.result_of_record (db w)) _).
  assert (Hfound : forall a, In a (Object_values (user_attempts (db w))) ->
                   In (LocalDatabaseService.result_of_record (db w) a) all).
  { intros a Ha. subst all. apply in_map.
    exact (Permutation_in _ (Permutation_sym (Array_sort_perm _ _)) Ha). }
  destruct (truthy tenantId).
  - eexists. split; [reflexivity|]. intros a Ha Ht.
    change (UserAttemptRecord.id a)
      with (TestResult.id (LocalDatabaseService.result_of_record (db w) a)).
    apply in_map. apply filter_In. split; [now apply Hfound|].
    apply opt_eqb_true. exact Ht.
  - exists all. split; [reflexivity|]. intros a Ha _.
    change (UserAttemptRecord.id a)
      with (TestResult.id (LocalDatabaseService.result_of_record (db w) a)).
    apply in_map. now apply Hfound.
Qed.

Lemma none_of_In ids k : none_of ids k = true <-> ~ In k ids.
Proof.
  unfold none_of. rewrite negb_true_iff. split.
  - intros H Hin. apply existsb_eqb_In in Hin. congruence.
  - intros H. destruct (existsb _ _) eqn:E; [|reflexivity].
    apply existsb_eqb_In in E. contradiction.
Qed.

Lemma store_deleteTenant_present id w t :
  tbl_get id (tenants (db w)) = Some t ->
  exists w',
    LocalDatabaseService.deleteTenant id w = (Return true, w')
    /\ tenants (db w') = tbl_delete id (tenants (db w))
    /\ users (db w') = users (db w)
    /\ quiz_sets (db w') = quiz_sets (db w)
    /\ quiz_questions (db w') = quiz_questions (db w)
    /\ user_attempts (db w') = user_attempts (db w).
Proof.
  intros H. unfold LocalDatabaseService.deleteTenant. run.
  rewrite (tbl_truthy_own _ _ H). run.
  eexists. split; [reflexivity|]. cbn. tauto.
Qed.

(** The message of the error that [deleteTenant] throws. *)
Definition TenantHasUsers : Error :=
  JsError "Cannot delete tenant with existing users. Please remove all users first.".

(** C1.  While some user row has [tenant_id] equal to [id],
    [deleteTenant(id)] of the adapter throws the tenant-has-users error and
    the store is as it was.  When no user row has, on a store that keeps its
    invariant and holds a tenant under [id], it returns [true], and
    afterwards no quiz set of the tenant is left, nor any question of such a
    quiz set, nor any attempt of the tenant, and the tenant row is gone; the
    users and the other tenants are as they were. *)
Theorem deleteTenant_blocked_or_cascades (id : string) (w : World) :
  ((exists u, In u (Object_values (users (db w)))
              /\ UserRecord.tenant_id u = Some id) ->
   DataServiceAdapter.deleteTenant id w = (Throw TenantHasUsers, w))
  /\ ((forall u, In u (Object_values (users (db w))) ->
                  UserRecord.tenant_id u <> Some id) ->
      store_ok (db w) = true ->
      tbl_get id (tenants (db w)) <> None ->
      exists w',
        DataServiceAdapter.deleteTenant id w = (Return true, w')
        /\ (forall r, In r (Object_values (quiz_sets (db w'))) ->
             QuizSetRecord.tenant_id r <> Some id)
        /\ (forall r q, In r (Object_values (quiz_sets (db w))) ->
             QuizSetRecord.tenant_id r = Some id ->
             In q (Object_values (quiz_questions (db w'))) ->
             QuizQuestionRecord.quiz_set_id q <> QuizSetRecord.id r)
        /\ (forall a, In a (Object_values (user_attempts (db w'))) ->
             UserAttemptRecord.tenant_id a <> Some id)
        /\ tbl_get id (tenants (db w')) = None
        /\ tenants (db w') = tbl_delete id (tenants (db w))
        /\ users (db w') = users (db w)).
Proof.
  split.
  - intros Hu. destruct (@tenant_has_users id w Hu) as [user [rest Hrun]].
    unfold DataServiceAdapter.deleteTenant, bind. rewrite Hrun. reflexivity.
  - intros Hnone Hok Hten.
    unfold store_ok in Hok. rewrite !andb_true_iff in Hok.
    destruct Hok as [[[Hqs Hqq] Hat] Hparse].
    destruct (tbl_get id (tenants (db w))) as [t|] eqn:Et; [|congruence].
    unfold DataServiceAdapter.deleteTenant. unfold bind at 1.
    rewrite (@tenant_has_no_users id w Hnone).
    destruct (@getQuizSetsByTenant_reads id w Hqs Hparse)
      as [quizzes [Hq [Hnd [Hkeys Hall]]]].
    unfold bind at 1. rewrite Hq.
    destruct (@delete_quiz_sets_loop quizzes w Hnd Hkeys (@table_ok_NoDup _ _ _ Hqq))
      as [w1 [Hloop1 [A1 [A2 [A3 [A4 A5]]]]]].
    unfold bind at 1. rewrite Hloop1.
    destruct (@getTestResultsByTenant_reads id w1) as [results [Hr Hres]].
    unfold bind at 1. rewrite Hr.
    destruct (@delete_results_loop results w1)
      as [w2 [Hloop2 [B1 [B2 [B3 [B4 B5]]]]]].
    unfold bind at 1. rewrite Hloop2.
    destruct (@store_deleteTenant_present id w2 t)
      as [w' [Hdel [C1 [C2 [C3 [C4 C5]]]]]]; [congruence|].
    exists w'. split; [exact Hdel|]. repeat split.
    + intros r Hin Hr'. rewrite C3, B4, A1 in Hin.
      apply In_Object_values in Hin. destruct Hin as [k Hin].
      apply filter_In in Hin. destruct Hin as [Hin Hk]. cbn in Hk.
      apply none_of_In in Hk. apply Hk.
      rewrite <- (table_ok_id _ _ _ _ Hqs Hin).
      apply Hall; [|exact Hr']. apply In_Object_values. now exists k.
    + intros r q Hr' Ht Hin Heq. rewrite C4, B5, A2 in Hin.
      apply In_Object_values in Hin. destruct Hin as [k Hin].
      apply filter_In in Hin. destruct Hin as [_ Hk]. cbn in Hk.
      apply none_of_In in Hk. apply Hk. rewrite Heq. now apply Hall.
    + intros a Hin Ha. rewrite C5, B1 in Hin.
      apply In_Object_values in Hin. destruct Hin as [k Hin].
      apply filter_In in Hin. destruct Hin as [Hin Hk]. cbn in Hk.
      apply none_of_In in Hk. apply Hk. rewrite A5 in Hin.
      rewrite <- (table_ok_id _ _ _ _ Hat Hin).
      apply Hres; [|exact Ha]. rewrite A5. apply In_Object_values. now exists k.
    + rewrite C1. apply tbl_get_delete_same.
    + congruence.
    + congruence.
Qed.

End DeleteTenant.

(* ===================================================================== *)
(** * Backup and restore *)
(* ===================================================================== *)

Section Roundtrip.

Lemma tenant_of_json_tenant_json r :
  Blob.tenant_of_json (Blob.tenant_json r) = Some r.
Proof.
  destruct r as [? ? ? [?|] [] ? ? ? ? [?|] [?|] [?|] ?]; reflexivity.
Qed.

Lemma user_of_json_user_json r : Blob.user_of_json (Blob.user_json r) = Some r.
Proof. destruct r as [? ? ? ? [] [?|] [] ?]; reflexivity. Qed.

Lemma quiz_set_of_json_quiz_set_json r :
  Blob.quiz_set_of_json (Blob.quiz_set_json r) = Some r.
Proof. destruct r as [? ? ? ? [?|] ? ? ?]; reflexivity. Qed.

Lemma quiz_question_of_json_quiz_question_json r :
  Blob.quiz_question_of_json (Blob.quiz_question_json r) = Some r.
Proof. destruct r as [? ? ? ? ? [] ? ? ?]; reflexivity. Qed.

Lemma user_attempt_of_json_user_attempt_json r :
  Blob.user_attempt_of_json (Blob.user_attempt_json r) = Some r.
Proof. destruct r as [? ? [?|] ? ? ? ? ? ? ? ?]; reflexivity. Qed.

Lemma attempt_answer_of_json_attempt_answer_json r :
  Blob.attempt_answer_of_json (Blob.attempt_answer_json r) = Some r.
Proof. destruct r; reflexivity. Qed.

Lemma user_session_of_json_user_session_json r :
  Blob.user_session_of_json (Blob.user_session_json r) = Some r.
Proof. destruct r; reflexivity. Qed.

Lemma metadata_of_json_metadata_json r :
  Blob.metadata_of_json (Blob.metadata_json r) = Some r.
Proof. destruct r; reflexivity. Qed.

Lemma table_of_json_table_json (T : Type) (row_json : T -> json)
    (row_of_json : json -> option T) (t : DatabaseTable T) :
  (forall r, row_of_json (row_json r) = Some r) ->
  Blob.table_of_json row_of_json (Blob.table_json row_json t) = Some t.
Proof.
  intros Hrow. unfold Blob.table_of_json, Blob.table_json.
  induction t as [|[k r] t IH]; cbn [map Blob.rows_of_json fst snd];
    [reflexivity|].
  rewrite Hrow. cbn [Blob.obind]. rewrite IH. reflexivity.
Qed.

(** Reading the JSON value of a schema gives the schema back. *)
Lemma schema_of_json_schema_json d :
  Blob.schema_of_json (Blob.schema_json d) = Some d.
Proof.
  unfold Blob.schema_of_json, Blob.schema_json.
  cbn [Blob.member String.eqb Ascii.eqb Bool.eqb Blob.obind].
  rewrite !table_of_json_table_json.
  - cbn [Blob.obind]. now destruct d.
  - apply metadata_of_json_metadata_json.
  - apply user_session_of_json_user_session_json.
  - apply attempt_answer_of_json_attempt_answer_json.
  - apply user_attempt_of_json_user_attempt_json.
  - apply quiz_question_of_json_quiz_question_json.
  - apply quiz_set_of_json_quiz_set_json.
  - apply user_of_json_user_json.
  - apply tenant_of_json_tenant_json.
Qed.

Context {rt : JsRuntime}.

(** The basic validation accepts the JSON value of every schema: the three
    tables it looks at are objects, which are truthy even when empty. *)
Lemma validate_schema_json d w :
  LocalDatabaseService.validate (Blob.schema_json d) w = (Return tt, w).
Proof. reflexivity. Qed.

(** C6.  Importing what [exportDatabase] returned, into the same store or
    into any other, succeeds with [true] and leaves every entity table
    equal to the exported one; only [metadata['main']] is stamped anew. *)
Theorem import_of_export_restores_tables (w w0 : World) :
  exists blob w',
    DataServiceAdapter.exportDatabase w = (Return blob, w)
    /\ DataServiceAdapter.importDatabase blob w0 = Some (Return true, w')
    /\ tenants (db w') = tenants (db w)
    /\ users (db w') = users (db w)
    /\ quiz_sets (db w') = quiz_sets (db w)
    /\ quiz_questions (db w') = quiz_questions (db w)
    /\ user_attempts (db w') = user_attempts (db w)
    /\ attempt_answers (db w') = attempt_answers (db w)
    /\ user_sessions (db w') = user_sessions (db w)
    /\ metadata (db w')
       = tbl_set "main"
           (MetadataRecord.mk LocalDatabaseService.DB_VERSION
              (Date_toISOString (clock w0)))
           (metadata (db w)).
Proof.
  do 2 eexists. split; [reflexivity|].
  unfold DataServiceAdapter.importDatabase, LocalDatabaseService.importDatabase.
  rewrite TextDecoder_encode.
  unfold bind at 1. unfold LocalDatabaseService.JSON_parse_or_throw.
  rewrite JSON_parse_stringify. cbn [ret].
  unfold bind at 1. rewrite validate_schema_json. cbn [ret].
  rewrite schema_of_json_schema_json.
  split; [reflexivity|]. cbn. repeat split; reflexivity.
Qed.

End Roundtrip.

(* ===================================================================== *)
(** * The password digest *)
(* ===================================================================== *)

Section Digest.

(** The value of a digit of base 36 and of a numeral read from the left. *)
Definition value_of_digit36 (c : ascii) : Z :=
  let n := Z.of_nat (nat_of_ascii c) in
  if (n <? 58)%Z then (n - 48)%Z else (n - 87)%Z.

Fixpoint value36 (s : string) (v : Z) : Z :=
  match s with
  | EmptyString => v
  | String c s' => value36 s' (36 * v + value_of_digit36 c)
  end.

Lemma value_of_digit36_digit36 d :
  (0 <= d < 36)%Z ->
  value_of_digit36 (LocalDatabaseService.digit36 d) = d.
Proof.
  intros Hd.
  assert (Hall : forallb (fun n => (value_of_digit36
                                      (LocalDatabaseService.digit36 (Z.of_nat n))
                                    =? Z.of_nat n)%Z) (seq 0 36) = true)
    by (vm_compute; reflexivity).
  rewrite forallb_forall in Hall.
  specialize (Hall (Z.to_nat d)). rewrite Z2Nat.id in Hall by lia.
  apply Z.eqb_eq, Hall. apply in_seq. lia.
Qed.

(** The loop of [toString(36)] writes the numeral of [n] in front of
    [acc] when [fuel] digits are enough. *)
Lemma value36_toString36 fuel : forall n acc,
  (0 <= n < 36 ^ Z.of_nat fuel)%Z ->
  value36 (LocalDatabaseService.toString36 fuel n acc) 0 = value36 acc n.
Proof.
  induction fuel as [|fuel IH]; intros n acc Hn.
  - cbn in Hn. assert (n = 0%Z) by lia. subst. reflexivity.
  - cbn [LocalDatabaseService.toString36].
    assert (Hmod : (0 <= n mod 36 < 36)%Z) by (apply Z.mod_pos_bound; lia).
    destruct (n <? 36)%Z eqn:E.
    + apply Z.ltb_lt in E. cbn [value36].
      rewrite value_of_digit36_digit36 by exact Hmod.
      rewrite Z.mod_small by lia. f_equal.
    + apply Z.ltb_ge in E. rewrite IH.
      * cbn [value36]. rewrite value_of_digit36_digit36 by exact Hmod.
        f_equal. symmetry. apply Z.div_mod. lia.
      * rewrite Nat2Z.inj_succ, Z.pow_succ_r in Hn by lia.
        split; [apply Z.div_pos; lia|].
        apply Z.div_lt_upper_bound; lia.
Qed.

Lemma toInt32_range x :
  (- 2147483648 <= LocalDatabaseService.toInt32 x < 2147483648)%Z.
Proof.
  unfold LocalDatabaseService.toInt32.
  pose proof (Z.mod_pos_bound (x + 2147483648) 4294967296). lia.
Qed.

Lemma hash_loop_range combined : forall hash,
  (- 2147483648 <= hash < 2147483648)%Z ->
  (- 2147483648 <= LocalDatabaseService.hash_loop combined hash < 2147483648)%Z.
Proof.
  induction combined as [|c rest IH]; intros hash Hh; [exact Hh|].
  cbn [LocalDatabaseService.hash_loop]. apply IH.
  unfold LocalDatabaseService.hash_step. apply toInt32_range.
Qed.

(** [hashPassword] returns the numeral in base 36 of the absolute value of
    the 32-bit hash: seven digits of fuel never cut it short. *)
Lemma hashPassword_value password :
  value36 (LocalDatabaseService.hashPassword password) 0
  = Z.abs (LocalDatabaseService.hash_loop (password ++ "awsquiz2024") 0).
Proof.
  unfold LocalDatabaseService.hashPassword.
  rewrite value36_toString36; [reflexivity|].
  assert (H0 : (- 2147483648 <= 0 < 2147483648)%Z) by lia.
  pose proof (@hash_loop_range (password ++ "awsquiz2024") 0%Z H0) as H.
  change (36 ^ Z.of_nat 7)%Z with 78364164096%Z. lia.
Qed.

(** Two passwords have one digest exactly when their hashes agree up to
    sign. *)
Lemma hashPassword_eq p1 p2 :
  LocalDatabaseService.hashPassword p1 = LocalDatabaseService.hashPassword p2 ->
  Z.abs (LocalDatabaseService.hash_loop (p1 ++ "awsquiz2024") 0)
  = Z.abs (LocalDatabaseService.hash_loop (p2 ++ "awsquiz2024") 0).
Proof.
  intros H. rewrite <- !hashPassword_value. now rewrite H.
Qed.

End Digest.

(* ===================================================================== *)
(** * The invariant of the store *)
(* ===================================================================== *)

Section Invariant.
Context {rt : JsRuntime}.

(** What the properties above ask of the store: every entity table is a JS
    object whose rows sit under their own id, and every JSON text a row
    holds parses. *)
Definition well_formed (d : DatabaseSchema) : Prop :=
  table_ok TenantRecord.id (tenants d) = true
  /\ table_ok UserRecord.id (users d) = true
  /\ table_ok UserSessionRecord.id (user_sessions d) = true
  /\ store_ok d = true
  /\ forallb (fun t => parses (TenantRecord.settings_json t))
       (Object_values (tenants d)) = true.

(** A method keeps the invariant, however it ends. *)
Definition keeps {A} (m : M A) : Prop :=
  forall w, well_formed (db w) -> well_formed (db (snd (m w))).

Lemma In_keys_set (T : Type) (t : DatabaseTable T) k v x :
  In x (Object_keys (tbl_set k v t)) <-> x = k \/ In x (Object_keys t).
Proof.
  induction t as [|[k' v'] t IH]; cbn [tbl_set Object_keys map fst].
  - cbn. split; (intros [->|[]]; now left).
  - destruct (k' =? k) eqn:E; cbn [map fst].
    + apply String.eqb_eq in E. subst k'.
      split; [intros H; now right | intros [->|H]; [now left | exact H]].
    + fold (Object_keys (tbl_set k v t)). fold (Object_keys t).
      cbn [In]. rewrite IH. tauto.
Qed.

Lemma table_ok_intro (T : Type) (id : T -> string) (t : DatabaseTable T) :
  NoDup (Object_keys t) -> (forall k v, In (k, v) t -> id v = k) ->
  table_ok id t = true.
Proof.
  intros Hnd Hid. unfold table_ok. apply andb_true_iff. split.
  - now apply nodupb_NoDup.
  - apply forallb_forall. intros [k v] Hin. apply String.eqb_eq.
    now apply Hid.
Qed.

Lemma table_ok_set (T : Type) (id : T -> string) (t : DatabaseTable T) k v :
  table_ok id t = true -> id v = k -> table_ok id (tbl_set k v t) = true.
Proof.
  intros Hok Hv. pose proof (table_ok_NoDup _ _ Hok) as Hnd.
  pose proof (fun k v => @table_ok_id _ id t k v Hok) as Hid. clear Hok.
  apply table_ok_intro.
  - induction t as [|[k' v'] t IH]; cbn [tbl_set].
    + repeat constructor. intros [].
    + inversion_clear Hnd as [|? ? Hhd Htl].
      destruct (k' =? k) eqn:E; cbn [Object_keys map fst].
      * now constructor.
      * constructor.
        -- fold (Object_keys (tbl_set k v t)).
           rewrite In_keys_set. apply String.eqb_neq in E.
           intros [H|H]; [congruence | contradiction].
        -- apply IH; [exact Htl|]. intros k0 v0 H0. apply Hid. now right.
  - induction t as [|[k' v'] t IH]; cbn [tbl_set]; intros k0 v0 Hin.
    + destruct Hin as [H|[]]. injection H as <- <-. exact Hv.
    + inversion_clear Hnd as [|? ? Hhd Htl]. destruct (k' =? k) eqn:E.
      * apply String.eqb_eq in E.
        destruct Hin as [H|Hin].
        -- injection H as <- <-. congruence.
        -- apply Hid. now right.
      * destruct Hin as [H|Hin].
        -- injection H as <- <-. apply Hid. now left.
        -- apply IH; [exact Htl| |exact Hin].
           intros k1 v1 H1. apply Hid. now right.
Qed.

Lemma table_ok_filter (T : Type) (id : T -> string) (t : DatabaseTable T) f :
  table_ok id t = true -> table_ok id (filter f t) = true.
Proof.
  intros Hok. apply table_ok_intro.
  - apply NoDup_keys_filter. exact (table_ok_NoDup _ _ Hok).
  - intros k v Hin. apply filter_In in Hin.
    exact (table_ok_id _ _ _ _ Hok (proj1 Hin)).
Qed.

Lemma table_ok_map (T : Type) (id : T -> string) (t : DatabaseTable T) g :
  (forall e, fst (g e) = fst e /\ id (snd (g e)) = id (snd e)) ->
  table_ok id t = true -> table_ok id (map g t) = true.
Proof.
  intros Hg Hok. apply table_ok_intro.
  - replace (Object_keys (map g t)) with (Object_keys t);
      [exact (table_ok_NoDup _ _ Hok)|].
    unfold Object_keys. rewrite map_map. apply map_ext.
    intros e. symmetry. apply Hg.
  - intros k v Hin. apply in_map_iff in Hin. destruct Hin as [[k0 v0] [He Hin]].
    destruct (Hg (k0, v0)) as [H1 H2]. rewrite He in H1, H2. cbn in H1, H2.
    rewrite H1, H2. exact (table_ok_id _ _ _ _ Hok Hin).
Qed.

Lemma forallb_values_set (T : Type) (p : T -> bool) (t : DatabaseTable T) k v :
  forallb p (Object_values t) = true -> p v = true ->
  forallb p (Object_values (tbl_set k v t)) = true.
Proof.
  unfold Object_values. intros Hall Hv.
  induction t as [|[k' v'] t IH]; cbn [tbl_set map snd forallb] in *.
  - now rewrite Hv.
  - apply andb_true_iff in Hall. destruct Hall as [H1 H2].
    destruct (k' =? k); cbn [map snd forallb].
    + now rewrite Hv, H2.
    + now rewrite H1, IH.
Qed.

Lemma forallb_values_filter (T : Type) (p : T -> bool) (t : DatabaseTable T) f :
  forallb p (Object_values t) = true ->
  forallb p (Object_values (filter f t)) = true.
Proof.
  rewrite !forallb_forall. intros Hall v Hin.
  apply In_Object_values in Hin. destruct Hin as [k Hin].
  apply filter_In in Hin. apply Hall. apply In_Object_values. exists k. tauto.
Qed.

(** ** How the writes of the methods act on the invariant *)

Lemma well_formed_stamped now d :
  well_formed d -> well_formed (LocalDatabaseService.stamped now d).
Proof. intros H. exact H. Qed.

Lemma well_formed_sessions t d :
  table_ok UserSessionRecord.id t = true ->
  well_formed d -> well_formed (with_user_sessions t d).
Proof. intros Ht (H1 & H2 & H3 & H4 & H5). repeat split; assumption. Qed.

Lemma well_formed_users t d :
  table_ok UserRecord.id t = true ->
  well_formed d -> well_formed (with_users t d).
Proof. intros Ht (H1 & H2 & H3 & H4 & H5). repeat split; assumption. Qed.

Lemma well_formed_tenants t d :
  table_ok TenantRecord.id t = true ->
  forallb (fun r => parses (TenantRecord.settings_json r)) (Object_values t) = true ->
  well_formed d -> well_formed (with_tenants t d).
Proof. intros Ht Hp (H1 & H2 & H3 & H4 & H5). repeat split; assumption. Qed.

Lemma well_formed_quiz_sets t d :
  table_ok QuizSetRecord.id t = true ->
  well_formed d -> well_formed (with_quiz_sets t d).
Proof.
  intros Ht (H1 & H2 & H3 & H4 & H5). repeat split; try assumption.
  unfold store_ok in *. rewrite !andb_true_iff in *. cbn. tauto.
Qed.

Lemma well_formed_quiz_questions t d :
  table_ok QuizQuestionRecord.id t = true ->
  forallb (fun q => parses (QuizQuestionRecord.options_json q)
                    && parses (QuizQuestionRecord.correct_answer_json q))
          (Object_values t) = true ->
  well_formed d -> well_formed (with_quiz_questions t d).
Proof.
  intros Ht Hp (H1 & H2 & H3 & H4 & H5). repeat split; try assumption.
  unfold store_ok, questions_parse in *. rewrite !andb_true_iff in *. cbn. tauto.
Qed.

Lemma well_formed_user_attempts t d :
  table_ok UserAttemptRecord.id t = true ->
  well_formed d -> well_formed (with_user_attempts t d).
Proof.
  intros Ht (H1 & H2 & H3 & H4 & H5). repeat split; try assumption.
  unfold store_ok in *. rewrite !andb_true_iff in *. cbn. tauto.
Qed.

Lemma well_formed_parts d :
  well_formed d ->
  table_ok QuizSetRecord.id (quiz_sets d) = true
  /\ table_ok QuizQuestionRecord.id (quiz_questions d) = true
  /\ table_ok UserAttemptRecord.id (user_attempts d) = true
  /\ questions_parse d = true.
Proof.
  intros (_ & _ & _ & H4 & _). unfold store_ok in H4.
  rewrite !andb_true_iff in H4. tauto.
Qed.

(** The store that [createEmptyDatabase] makes is well formed. *)
Lemma well_formed_empty m : well_formed (mkSchema [] [] [] [] [] [] [] m).
Proof. repeat split. Qed.

End Invariant.

(* ===================================================================== *)
(** * Every method keeps the invariant *)
(* ===================================================================== *)

(** [importDatabase] and the migration of an old [localStorage] state
    install rows that come from outside and are the only ways to a store
    that is not well formed. *)

Section Preservation.
Context {rt : JsRuntime}.

Lemma keeps_ret (A : Type) (a : A) : keeps (ret a).
Proof. intros w Hw. exact Hw. Qed.

Lemma keeps_throw (A : Type) (e : Error) : keeps (@throw A e).
Proof. intros w Hw. exact Hw. Qed.

Lemma keeps_bind (A B : Type) (m : M A) (k : A -> M B) :
  keeps m -> (forall a, keeps (k a)) -> keeps (bind m k).
Proof.
  intros Hm Hk w Hw. unfold bind. specialize (Hm w Hw).
  destruct (m w) as [[a|e] w1]; cbn [snd] in *; [now apply Hk | exact Hm].
Qed.

(** A method that starts by reading [this.db] may use what it read. *)
Lemma keeps_get (A : Type) (k : DatabaseSchema -> M A) :
  (forall w, well_formed (db w) -> well_formed (db (snd (k (db w) w)))) ->
  keeps (bind get_db k).
Proof. intros H w Hw. exact (H w Hw). Qed.

Lemma keeps_modify (f : DatabaseSchema -> DatabaseSchema) :
  (forall d, well_formed d -> well_formed (f d)) -> keeps (modify_db f).
Proof. intros H w Hw. exact (H (db w) Hw). Qed.

Lemma keeps_saveDatabase : keeps LocalDatabaseService.saveDatabase.
Proof. intros w Hw. exact Hw. Qed.

Lemma keeps_generateId : keeps LocalDatabaseService.generateId.
Proof. intros w Hw. exact Hw. Qed.

Lemma keeps_new_Date : keeps LocalDatabaseService.new_Date_toISOString.
Proof. intros w Hw. exact Hw. Qed.

Lemma keeps_parse s : keeps (LocalDatabaseService.JSON_parse_or_throw s).
Proof.
  unfold LocalDatabaseService.JSON_parse_or_throw.
  destruct (JSON_parse s); [apply keeps_ret | apply keeps_throw].
Qed.

Lemma keeps_forEach (A : Type) (l : list A) (f : A -> M unit) :
  (forall x, keeps (f x)) -> keeps (forEach l f).
Proof.
  intros Hf. induction l as [|x l IH]; cbn [forEach]; [apply keeps_ret|].
  apply keeps_bind; [apply Hf | intros _; exact IH].
Qed.

Lemma keeps_mapM (A B : Type) (f : A -> M B) (l : list A) :
  (forall x, keeps (f x)) -> keeps (mapM f l).
Proof.
  intros Hf. induction l as [|x l IH]; cbn [mapM]; [apply keeps_ret|].
  apply keeps_bind; [apply Hf|]. intros y.
  apply keeps_bind; [exact IH|]. intros ys. apply keeps_ret.
Qed.

(** Splits a method into its steps. *)
Ltac steps :=
  repeat lazymatch goal with
    | |- keeps (ret _) => apply keeps_ret
    | |- keeps (throw _) => apply keeps_throw
    | |- keeps LocalDatabaseService.saveDatabase => apply keeps_saveDatabase
    | |- keeps LocalDatabaseService.generateId => apply keeps_generateId
    | |- keeps LocalDatabaseService.new_Date_toISOString => apply keeps_new_Date
    | |- keeps (LocalDatabaseService.JSON_parse_or_throw _) => apply keeps_parse
    | |- keeps get_db => intros ? ?; assumption
    | |- keeps (bind _ _) => apply keeps_bind; [|intro; cbv beta zeta]
    end.

Lemma parses_stringify j : parses (JSON_stringify j) = true.
Proof. unfold parses. now rewrite JSON_parse_stringify. Qed.

(** After a read of [this.db]: back to the steps that follow. *)
Ltac rest_keeps w Hw :=
  lazymatch goal with
  | |- well_formed (db (snd (?m w))) =>
      let K := fresh "K" in
      assert (K : keeps m); [ | exact (K w Hw)]
  end.

(** ** Tenants *)

Lemma keeps_getTenant id : keeps (LocalDatabaseService.getTenant id).
Proof.
  unfold LocalDatabaseService.getTenant. apply keeps_get. intros w Hw.
  destruct (tbl_get id (tenants (db w)));
    [|destruct (Object_prototype_member id); exact Hw].
  rest_keeps w Hw. steps.
Qed.

Lemma keeps_createTenant tenant : keeps (LocalDatabaseService.createTenant tenant).
Proof.
  unfold LocalDatabaseService.createTenant. steps.
  apply keeps_modify. intros d Hd. pose proof Hd as (H1 & _ & _ & _ & H5).
  apply well_formed_tenants; [| |exact Hd].
  - now apply table_ok_set.
  - apply forallb_values_set; [exact H5|]. cbn. apply parses_stringify.
Qed.

Lemma keeps_updateTenant id updates :
  keeps (LocalDatabaseService.updateTenant id updates).
Proof.
  unfold LocalDatabaseService.updateTenant. apply keeps_get. intros w Hw.
  destruct (tbl_get id (tenants (db w))) as [existing|] eqn:E; [|exact Hw].
  pose proof Hw as (H1 & _ & _ & _ & H5).
  apply tbl_get_In in E. pose proof (table_ok_id _ _ _ _ H1 E) as Hid.
  assert (Hp : parses (TenantRecord.settings_json existing) = true).
  { rewrite forallb_forall in H5. apply H5. apply In_Object_values. now exists id. }
  clear H1 H5 E. rest_keeps w Hw.
  steps; [|apply keeps_getTenant].
  apply keeps_modify. intros d Hd. pose proof Hd as (G1 & _ & _ & _ & G5).
  apply well_formed_tenants; [| |exact Hd].
  - apply table_ok_set; [exact G1 | exact Hid].
  - apply forallb_values_set; [exact G5|]. cbn.
    destruct (TenantUpdates.settings updates); cbn;
      [apply parses_stringify | exact Hp].
Qed.

Lemma keeps_deleteTenant id : keeps (LocalDatabaseService.deleteTenant id).
Proof.
  unfold LocalDatabaseService.deleteTenant. apply keeps_get. intros w Hw.
  destruct (tbl_truthy id (tenants (db w))); [|exact Hw].
  rest_keeps w Hw.
  steps. apply keeps_modify. intros d Hd. pose proof Hd as (G1 & _ & _ & _ & G5).
  apply well_formed_tenants; [| |exact Hd].
  - now apply table_ok_filter.
  - now apply forallb_values_filter.
Qed.

(** ** Users *)

Lemma keeps_set_user k row :
  UserRecord.id row = k ->
  keeps (modify_db (fun d => with_users (tbl_set k row (users d)) d)).
Proof.
  intros Hid. apply keeps_modify. intros d Hd. pose proof Hd as (_ & H2 & _).
  apply well_formed_users; [|exact Hd]. now apply table_ok_set.
Qed.

Lemma keeps_createUser name email password role tenantId :
  keeps (LocalDatabaseService.createUser name email password role tenantId).
Proof.
  unfold LocalDatabaseService.createUser. apply keeps_get. intros w Hw.
  destruct (LocalDatabaseService.find_by_email email (db w)); [exact Hw|].
  rest_keeps w Hw. steps. now apply keeps_set_user.
Qed.

Lemma keeps_createUserWithStatus user password :
  keeps (LocalDatabaseService.createUserWithStatus user password).
Proof.
  unfold LocalDatabaseService.createUserWithStatus. apply keeps_get. intros w Hw.
  destruct (LocalDatabaseService.find_by_email (User.email user) (db w));
    [exact Hw|].
  rest_keeps w Hw. steps. now apply keeps_set_user.
Qed.

Lemma keeps_updateUserStatus userId status :
  keeps (LocalDatabaseService.updateUserStatus userId status).
Proof.
  unfold LocalDatabaseService.updateUserStatus. apply keeps_get. intros w Hw.
  destruct (tbl_get userId (users (db w))) as [userRecord|] eqn:E; [|exact Hw].
  pose proof Hw as (_ & H2 & _). apply tbl_get_In in E.
  pose proof (table_ok_id _ _ _ _ H2 E) as Hid. clear H2 E.
  rest_keeps w Hw. steps. apply keeps_set_user. exact Hid.
Qed.

Lemma keeps_resetPassword email newPassword :
  keeps (LocalDatabaseService.resetPassword email newPassword).
Proof.
  unfold LocalDatabaseService.resetPassword. apply keeps_get. intros w Hw.
  destruct (find _ (users (db w))) as [[key userRecord]|] eqn:E; [|exact Hw].
  pose proof Hw as (_ & H2 & _). apply find_some in E. destruct E as [E _].
  pose proof (table_ok_id _ _ _ _ H2 E) as Hid. clear H2 E.
  rest_keeps w Hw. steps. apply keeps_set_user. exact Hid.
Qed.

Lemma keeps_clear_sessions : keeps (modify_db (with_user_sessions [])).
Proof.
  apply keeps_modify. intros d Hd. now apply well_formed_sessions.
Qed.

Lemma keeps_loginUser email password :
  keeps (LocalDatabaseService.loginUser email password).
Proof.
  unfold LocalDatabaseService.loginUser. apply keeps_get. intros w Hw.
  destruct (LocalDatabaseService.find_by_email email (db w)); [|exact Hw].
  destruct (LocalDatabaseService.verifyPassword _ _); [|exact Hw].
  rest_keeps w Hw. steps; [apply keeps_clear_sessions|].
  apply keeps_modify. intros d Hd. pose proof Hd as (_ & _ & H3 & _).
  apply well_formed_sessions; [|exact Hd]. now apply table_ok_set.
Qed.

Lemma keeps_logoutUser : keeps LocalDatabaseService.logoutUser.
Proof. unfold LocalDatabaseService.logoutUser. steps. apply keeps_clear_sessions. Qed.

Lemma keeps_getUsers : keeps LocalDatabaseService.getUsers.
Proof. intros w Hw. exact Hw. Qed.

Lemma keeps_getCurrentUser : keeps LocalDatabaseService.getCurrentUser.
Proof.
  unfold LocalDatabaseService.getCurrentUser. apply keeps_get. intros w Hw.
  destruct (Object_values (user_sessions (db w))) as [|session ?]; [exact Hw|].
  destruct (tbl_get _ (users (db w))); exact Hw.
Qed.

(** ** Quiz sets *)

Lemma keeps_getQuizSetById id : keeps (LocalDatabaseService.getQuizSetById id).
Proof.
  unfold LocalDatabaseService.getQuizSetById. apply keeps_get. intros w Hw.
  destruct (tbl_get id (quiz_sets (db w))); [|exact Hw].
  rest_keeps w Hw. steps. apply keeps_mapM. intros q.
  unfold LocalDatabaseService.question_of_record. steps.
Qed.

Lemma keeps_getQuizSets : keeps LocalDatabaseService.getQuizSets.
Proof.
  unfold LocalDatabaseService.getQuizSets. apply keeps_get. intros w Hw.
  rest_keeps w Hw. steps. apply keeps_mapM. intros r. apply keeps_getQuizSetById.
Qed.

Lemma keeps_getPublishedQuizzes : keeps LocalDatabaseService.getPublishedQuizzes.
Proof.
  unfold LocalDatabaseService.getPublishedQuizzes. apply keeps_get. intros w Hw.
  rest_keeps w Hw. steps. apply keeps_mapM. intros r. apply keeps_getQuizSetById.
Qed.

Lemma keeps_set_quiz_set k row :
  QuizSetRecord.id row = k ->
  keeps (modify_db (fun d => with_quiz_sets (tbl_set k row (quiz_sets d)) d)).
Proof.
  intros Hid. apply keeps_modify. intros d Hd.
  destruct (well_formed_parts Hd) as (G1 & _).
  apply well_formed_quiz_sets; [|exact Hd]. now apply table_ok_set.
Qed.

Lemma keeps_insert_questions quizSetId questions : forall i,
  keeps (LocalDatabaseService.insert_questions quizSetId i questions).
Proof.
  induction questions as [|question others IH]; intros i;
    cbn [LocalDatabaseService.insert_questions]; steps; [|apply IH].
  apply keeps_modify. intros d Hd.
  destruct (well_formed_parts Hd) as (_ & G2 & _ & G4).
  apply well_formed_quiz_questions; [| |exact Hd].
  - now apply table_ok_set.
  - apply forallb_values_set; [exact G4|]. cbn.
    now rewrite !parses_stringify.
Qed.

Lemma keeps_createQuizSet name description questions createdBy tenantId :
  keeps (LocalDatabaseService.createQuizSet name description questions createdBy
           tenantId).
Proof.
  unfold LocalDatabaseService.createQuizSet. steps.
  - now apply keeps_set_quiz_set.
  - apply keeps_insert_questions.
  - apply keeps_getQuizSetById.
Qed.

Lemma keeps_updateQuizSet id updates :
  keeps (LocalDatabaseService.updateQuizSet id updates).
Proof.
  unfold LocalDatabaseService.updateQuizSet. apply keeps_get. intros w Hw.
  destruct (tbl_get id (quiz_sets (db w))) as [existing|] eqn:E; [|exact Hw].
  destruct (well_formed_parts Hw) as (G1 & _). apply tbl_get_In in E.
  pose proof (table_ok_id _ _ _ _ G1 E) as Hid. clear G1 E.
  rest_keeps w Hw. steps; [|apply keeps_getQuizSetById].
  apply keeps_set_quiz_set. exact Hid.
Qed.

Lemma keeps_publishQuiz id : keeps (LocalDatabaseService.publishQuiz id).
Proof. unfold LocalDatabaseService.publishQuiz. steps. apply keeps_updateQuizSet. Qed.

Lemma keeps_unpublishQuiz id : keeps (LocalDatabaseService.unpublishQuiz id).
Proof.
  unfold LocalDatabaseService.unpublishQuiz. steps. apply keeps_updateQuizSet.
Qed.

Lemma keeps_delete_question_of id questionId :
  keeps (LocalDatabaseService.delete_question_of id questionId).
Proof.
  unfold LocalDatabaseService.delete_question_of. apply keeps_get. intros w Hw.
  destruct (tbl_get questionId (quiz_questions (db w))) as [q|]; [|exact Hw].
  destruct (_ =? _); [|exact Hw].
  rest_keeps w Hw. apply keeps_modify. intros d Hd.
  destruct (well_formed_parts Hd) as (_ & G2 & _ & G4).
  apply well_formed_quiz_questions; [| |exact Hd].
  - now apply table_ok_filter.
  - now apply forallb_values_filter.
Qed.

Lemma keeps_deleteQuizSet id : keeps (LocalDatabaseService.deleteQuizSet id).
Proof.
  unfold LocalDatabaseService.deleteQuizSet. apply keeps_get. intros w Hw.
  destruct (tbl_truthy id (quiz_sets (db w))); [|exact Hw].
  rest_keeps w Hw. steps.
  - apply keeps_forEach. intros k. apply keeps_delete_question_of.
  - apply keeps_modify. intros d Hd. destruct (well_formed_parts Hd) as (G1 & _).
    apply well_formed_quiz_sets; [|exact Hd]. now apply table_ok_filter.
Qed.

(** ** Test results *)

Lemma keeps_saveTestResult result :
  keeps (LocalDatabaseService.saveTestResult result).
Proof.
  unfold LocalDatabaseService.saveTestResult. steps.
  apply keeps_modify. intros d Hd.
  destruct (well_formed_parts Hd) as (_ & _ & G3 & _).
  apply well_formed_user_attempts; [|exact Hd]. now apply table_ok_set.
Qed.

Lemma keeps_deleteTestResult id : keeps (LocalDatabaseService.deleteTestResult id).
Proof.
  unfold LocalDatabaseService.deleteTestResult. apply keeps_get. intros w Hw.
  destruct (tbl_truthy id (user_attempts (db w))); [|exact Hw].
  rest_keeps w Hw. steps. apply keeps_modify. intros d Hd.
  destruct (well_formed_parts Hd) as (_ & _ & G3 & _).
  apply well_formed_user_attempts; [|exact Hd]. now apply table_ok_filter.
Qed.

Lemma keeps_getTestResults : keeps LocalDatabaseService.getTestResults.
Proof. intros w Hw. exact Hw. Qed.

(** ** The adapter *)

Create HintDb keeps discriminated.

#[local] Hint Resolve keeps_getTenant keeps_updateTenant keeps_deleteTenant
  keeps_updateUserStatus keeps_createUser keeps_loginUser keeps_getUsers
  keeps_getQuizSets keeps_deleteQuizSet keeps_getTestResults
  keeps_deleteTestResult keeps_saveTestResult : keeps.

(** Steps, and the cases of what a step returned. *)
Ltac walk :=
  steps;
  repeat (lazymatch goal with
          | |- keeps (match ?x with _ => _ end) => destruct x
          | |- keeps (forEach _ _) => apply keeps_forEach; intro
          end;
          steps);
  auto with keeps.

Lemma keeps_adapter_updateTenant id updates :
  keeps (DataServiceAdapter.updateTenant id updates).
Proof. unfold DataServiceAdapter.updateTenant. walk. Qed.

Lemma keeps_getUsersByTenant tenantId :
  keeps (DataServiceAdapter.getUsersByTenant tenantId).
Proof. intros w Hw. exact Hw. Qed.

#[local] Hint Resolve keeps_adapter_updateTenant keeps_getUsersByTenant : keeps.

Lemma keeps_approveTenant tenantId approvedBy :
  keeps (DataServiceAdapter.approveTenant tenantId approvedBy).
Proof.
  unfold DataServiceAdapter.approveTenant, DataServiceAdapter.getTenant,
    DataServiceAdapter.activate_if_pending.
  walk.
Qed.

Lemma keeps_rejectTenant tenantId rejectedBy reason :
  keeps (DataServiceAdapter.rejectTenant tenantId rejectedBy reason).
Proof.
  unfold DataServiceAdapter.rejectTenant, DataServiceAdapter.getTenant. walk.
Qed.

Lemma keeps_adapter_deleteTenant id : keeps (DataServiceAdapter.deleteTenant id).
Proof.
  unfold DataServiceAdapter.deleteTenant, DataServiceAdapter.getQuizSetsByTenant,
    DataServiceAdapter.getQuizSets, DataServiceAdapter.getTestResultsByTenant,
    DataServiceAdapter.getTestResults, DataServiceAdapter.deleteQuizSet.
  walk.
Qed.

Lemma keeps_adapter_createUser name email password role tenantId :
  keeps (DataServiceAdapter.createUser name email password role tenantId).
Proof. unfold DataServiceAdapter.createUser. walk. Qed.

Lemma keeps_adapter_loginUser email password :
  keeps (DataServiceAdapter.loginUser email password).
Proof. unfold DataServiceAdapter.loginUser. walk. Qed.

Lemma keeps_adapter_saveTestResult result :
  keeps (DataServiceAdapter.saveTestResult result).
Proof. unfold DataServiceAdapter.saveTestResult. walk. Qed.

End Preservation.

(* ===================================================================== *)
(** * The reference browser meets the interface *)
(* ===================================================================== *)

Unset Implicit Arguments.

Module JsonTextFacts.
Import JsonText.

(** ** The text of a value parses to the value *)

Definition no_digit (rest : list ascii) : Prop :=
  match rest with
  | [] => True
  | c :: _ => digit_of c = None
  end.

Lemma parse_uint_print_uint u rest :
  no_digit rest -> parse_uint (print_uint u ++ rest) = (u, rest).
Proof.
  intros Hrest. induction u; cbn [print_uint app parse_uint];
    try (cbn [digit_of Ascii.eqb Bool.eqb]; cbn; now rewrite IHu).
  destruct rest as [|c r]; [reflexivity|]. cbn in *. now rewrite Hrest.
Qed.

Lemma numeral_to_uint n : numeral (N.to_uint n) = true.
Proof.
  unfold numeral. destruct (Decimal.uint_eq_dec _ _) as [|Hne]; [reflexivity|].
  exfalso. apply Hne. rewrite <- (DecimalN.Unsigned.of_to n) at 2.
  symmetry. apply DecimalN.Unsigned.to_of.
Qed.

Lemma numeral_head u :
  numeral u = true ->
  exists c tl, print_uint u = c :: tl
               /\ (c =? "-")%char = false
               /\ (exists d, digit_of c = Some d).
Proof.
  unfold numeral. destruct (Decimal.uint_eq_dec _ _) as [He|]; [|discriminate].
  intros _. destruct u; cbn [print_uint];
    try (do 2 eexists; split; [reflexivity|]; split; [reflexivity|];
         eexists; reflexivity).
  discriminate He.
Qed.

Lemma parse_number_print_Z z rest :
  no_digit rest -> parse_number (print_Z z ++ rest) = Some (JNum z, rest).
Proof.
  intros Hrest. unfold print_Z. destruct (z <? 0)%Z eqn:Ez.
  - cbn [app]. unfold parse_number. cbn [Ascii.eqb Bool.eqb andb].
    rewrite parse_uint_print_uint by assumption.
    rewrite numeral_to_uint, DecimalN.Unsigned.of_to.
    do 3 f_equal. apply Z.ltb_lt in Ez. rewrite N2Z.inj_abs_N. lia.
  - cbn [app].
    destruct (numeral_head (N.to_uint (Z.abs_N z)) (numeral_to_uint _))
      as [c [tl [Hp [Hm _]]]].
    pose proof (parse_uint_print_uint (N.to_uint (Z.abs_N z)) rest Hrest) as Hu.
    rewrite Hp in *. cbn [app]. unfold parse_number. rewrite Hm.
    cbn [app] in Hu. rewrite Hu.
    rewrite numeral_to_uint, DecimalN.Unsigned.of_to.
    do 3 f_equal. apply Z.ltb_ge in Ez. rewrite N2Z.inj_abs_N. lia.
Qed.

Lemma number_start_print_Z z :
  exists c tl, print_Z z = c :: tl /\ number_start c = true /\ is_ws c = false.
Proof.
  unfold print_Z. destruct (z <? 0)%Z.
  - do 2 eexists. split; [reflexivity|]. split; reflexivity.
  - destruct (numeral_head (N.to_uint (Z.abs_N z)) (numeral_to_uint _))
      as [c [tl [Hp [_ [d Hd]]]]].
    exists c, tl. split; [exact Hp|]. unfold number_start. rewrite Hd.
    split; [apply orb_true_r|].
    destruct c as [[] [] [] [] [] [] [] []]; try reflexivity; discriminate Hd.
Qed.

Lemma parse_chars_escape c tl :
  parse_chars (escape c ++ tl) = consc c (parse_chars tl).
Proof.
  destruct c as [[] [] [] [] [] [] [] []]; reflexivity.
Qed.

Lemma parse_chars_print_chars s rest :
  parse_chars (print_chars s ++ "034"%char :: rest) = Some (s, rest).
Proof.
  induction s as [|c s IH]; [reflexivity|].
  cbn [print_chars]. rewrite <- app_assoc, parse_chars_escape, IH. reflexivity.
Qed.

Lemma parse_chars_quote s rest :
  exists tl, (quote s ++ rest)%list = "034"%char :: tl
             /\ parse_chars tl = Some (s, rest).
Proof.
  unfold quote. exists ((print_chars s ++ ["034"%char]) ++ rest)%list.
  split; [reflexivity|].
  rewrite <- app_assoc. apply parse_chars_print_chars.
Qed.

(** Induction on a value and, with it, on the values it holds. *)
Section Induction.
Variable P : json -> Prop.
Hypothesis HNull : P JNull.
Hypothesis HBool : forall b, P (JBool b).
Hypothesis HNum : forall z, P (JNum z).
Hypothesis HStr : forall s, P (JStr s).
Hypothesis HArr : forall l, Forall P l -> P (JArr l).
Hypothesis HObj : forall l, Forall (fun kv => P (snd kv)) l -> P (JObj l).

Fixpoint json_induction (j : json) : P j :=
  match j with
  | JNull => HNull
  | JBool b => HBool b
  | JNum z => HNum z
  | JStr s => HStr s
  | JArr l =>
      HArr l ((fix all (l : list json) : Forall P l :=
               match l with
               | [] => Forall_nil P
               | x :: l' => Forall_cons x (json_induction x) (all l')
               end) l)
  | JObj l =>
      HObj l ((fix all (l : list (string * json))
               : Forall (fun kv => P (snd kv)) l :=
               match l with
               | [] => Forall_nil _
               | kv :: l' =>
                   Forall_cons (P := fun kv => P (snd kv)) kv
                     (json_induction (snd kv)) (all l')
               end) l)
  end.

End Induction.

(** The fuel that parsing the text of a value takes. *)
Fixpoint json_size (j : json) : nat :=
  match j with
  | JArr l => S (list_sum (map (fun x => S (json_size x)) l))
  | JObj l => S (list_sum (map (fun kv => S (json_size (snd kv))) l))
  | _ => 1
  end.

Definition head_ok (c : ascii) : Prop :=
  is_ws c = false /\ (c =? "]")%char = false.

Lemma number_head z :
  exists c tl, print_Z z = c :: tl /\ number_start c = true /\ head_ok c.
Proof.
  unfold print_Z. destruct (z <? 0)%Z.
  - do 2 eexists. split; [reflexivity|]. repeat split; reflexivity.
  - destruct (numeral_head (N.to_uint (Z.abs_N z)) (numeral_to_uint _))
      as [c [tl [Hp [_ [d Hd]]]]].
    exists c, tl. split; [exact Hp|]. unfold number_start. rewrite Hd.
    split; [apply orb_true_r|]. unfold head_ok.
    destruct c as [[] [] [] [] [] [] [] []];
      try discriminate Hd; split; reflexivity.
Qed.

Lemma print_head j : exists c tl, print j = c :: tl /\ head_ok c.
Proof.
  destruct j as [|[]|z|s|l|l];
    try (do 2 eexists; split; [reflexivity|]; split; reflexivity).
  destruct (number_head z) as [c [tl [Hp [_ Hc]]]]. now exists c, tl.
Qed.

Definition parses_back (j : json) : Prop :=
  forall fuel rest,
    json_size j <= fuel -> no_digit rest ->
    parse_value fuel (print j ++ rest) = Some (j, rest).

Lemma parse_elems_print l :
  l <> [] -> Forall parses_back l ->
  forall fuel rest,
    list_sum (map (fun x => S (json_size x)) l) <= fuel ->
    parse_elems fuel (sep_by ","%char (map print l) ++ "]"%char :: rest)
    = Some (l, rest).
Proof.
  intros Hne Hall. induction Hall as [|x l Hx Hall IH]; [congruence|].
  intros fuel rest Hfuel. simpl in Hfuel.
  destruct fuel as [|fuel]; [lia|]. cbn [parse_elems].
  destruct l as [|y l].
  - cbn [map sep_by]. rewrite (Hx fuel ("]"%char :: rest)); [reflexivity| |reflexivity].
    lia.
  - cbn [map sep_by]. cbn [map] in IH. rewrite <- app_assoc. cbn [app].
    rewrite (Hx fuel); [|simpl in *; lia|reflexivity].
    cbn [skip_ws]. change (is_ws ","%char) with false. cbn iota.
    change (","%char =? ","%char)%char with true. cbn iota.
    rewrite IH; [reflexivity|discriminate|].
    simpl in *. lia.
Qed.

Lemma sep_by_cons sep x y ls :
  sep_by sep (x :: y :: ls) = (x ++ sep :: sep_by sep (y :: ls))%list.
Proof. reflexivity. Qed.

Definition member_text (kv : string * json) : list ascii :=
  (quote (fst kv) ++ ":"%char :: print (snd kv))%list.

Lemma parse_members_print l :
  l <> [] -> Forall (fun kv => parses_back (snd kv)) l ->
  forall fuel rest,
    list_sum (map (fun kv => S (json_size (snd kv))) l) <= fuel ->
    parse_members fuel (sep_by ","%char (map member_text l) ++ "}"%char :: rest)
    = Some (l, rest).
Proof.
  intros Hne Hall. induction Hall as [|[k v] l Hx Hall IH]; [congruence|].
  intros fuel rest Hfuel. simpl in Hfuel. cbn [snd] in Hx.
  destruct fuel as [|fuel]; [lia|].
  assert (Hstep : forall R,
             no_digit R ->
             exists tl, (member_text (k, v) ++ R)%list = "034"%char :: tl
                        /\ parse_chars tl = Some (k, ":"%char :: print v ++ R)%list
                        /\ parse_value fuel (print v ++ R) = Some (v, R)).
  { intros R HR. unfold member_text. cbn [fst snd].
    destruct (parse_chars_quote k (":"%char :: print v ++ R)) as [tl [Htl Hp]].
    exists tl. rewrite <- app_assoc. cbn [app]. split; [exact Htl|].
    split; [exact Hp|]. apply Hx; [lia | exact HR]. }
  cbn [parse_members]. destruct l as [|y l].
  - cbn [map sep_by].
    destruct (Hstep ("}"%char :: rest) eq_refl) as [tl [Htl [Hp Hv]]].
    rewrite Htl. cbn [skip_ws]. change (is_ws "034"%char) with false. cbn iota.
    change ("034"%char =? "034"%char)%char with true. cbn iota.
    rewrite Hp. cbn [skip_ws]. change (is_ws ":"%char) with false. cbn iota.
    change (":"%char =? ":"%char)%char with true. cbn iota.
    rewrite Hv. reflexivity.
  - cbn [map]. rewrite sep_by_cons. cbn [map] in IH.
    rewrite <- app_assoc. cbn [app].
    destruct (Hstep (","%char :: sep_by ","%char (member_text y :: map member_text l)
                       ++ "}"%char :: rest)%list eq_refl)
      as [tl [Htl [Hp Hv]]].
    rewrite Htl. cbn [skip_ws]. change (is_ws "034"%char) with false. cbn iota.
    change ("034"%char =? "034"%char)%char with true. cbn iota.
    rewrite Hp. cbn [skip_ws]. change (is_ws ":"%char) with false. cbn iota.
    change (":"%char =? ":"%char)%char with true. cbn iota.
    rewrite Hv. cbn [skip_ws]. change (is_ws ","%char) with false. cbn iota.
    change (","%char =? ","%char)%char with true. cbn iota.
    rewrite IH; [reflexivity|discriminate|]. simpl in *. lia.
Qed.

Lemma skip_ws_head c tl : is_ws c = false -> skip_ws (c :: tl) = c :: tl.
Proof. intros H. cbn [skip_ws]. now rewrite H. Qed.

Theorem parse_value_print j : parses_back j.
Proof.
  induction j as [|b|z|s|l IH|l IH] using json_induction;
    intros fuel rest Hfuel Hrest;
    (destruct fuel as [|fuel]; [simpl in Hfuel; lia|]).
  - reflexivity.
  - destruct b; reflexivity.
  - destruct (number_head z) as [c [tl [Hp [Hs [Hw _]]]]].
    cbn [print parse_value]. rewrite Hp. cbn [app].
    rewrite (@skip_ws_head c _ Hw), Hs.
    change (c :: tl ++ rest)%list with ((c :: tl) ++ rest)%list.
    rewrite <- Hp. now apply parse_number_print_Z.
  - cbn [print]. destruct (parse_chars_quote s rest) as [tl [Htl Hp]].
    rewrite Htl. cbn [parse_value skip_ws].
    change (is_ws "034"%char) with false. cbn iota.
    change (number_start "034"%char) with false. cbn iota.
    change ("034"%char =? "n")%char with false.
    change ("034"%char =? "t")%char with false.
    change ("034"%char =? "f")%char with false.
    change ("034"%char =? "034")%char with true. cbn iota.
    rewrite Hp. reflexivity.
  - cbn [print app parse_value skip_ws].
    change (is_ws "["%char) with false. cbn iota.
    change (number_start "["%char) with false. cbn iota.
    change ("["%char =? "n")%char with false.
    change ("["%char =? "t")%char with false.
    change ("["%char =? "f")%char with false.
    change ("["%char =? "034")%char with false.
    change ("["%char =? "[")%char with true. cbn iota.
    destruct l as [|x l]; [reflexivity|].
    assert (Hhead : exists c tl,
               (sep_by ","%char (map print (x :: l)) ++ "]"%char :: rest)%list
               = c :: tl /\ head_ok c).
    { destruct (print_head x) as [c [tl [Hp Hc]]]. cbn [map sep_by].
      destruct (map print l); rewrite Hp; do 2 eexists;
        (split; [reflexivity | exact Hc]). }
    destruct Hhead as [c [tl [Hc [Hw Hb]]]].
    rewrite <- app_assoc. cbn [app].
    rewrite parse_elems_print; [|discriminate|exact IH|simpl in *; lia].
    rewrite Hc, (@skip_ws_head c _ Hw), Hb. reflexivity.
  - cbn [print app parse_value skip_ws].
    change (is_ws "{"%char) with false. cbn iota.
    change (number_start "{"%char) with false. cbn iota.
    change ("{"%char =? "n")%char with false.
    change ("{"%char =? "t")%char with false.
    change ("{"%char =? "f")%char with false.
    change ("{"%char =? "034")%char with false.
    change ("{"%char =? "[")%char with false.
    change ("{"%char =? "{")%char with true. cbn iota.
    destruct l as [|[k v] l]; [reflexivity|].
    assert (Hhead : exists tl,
               (sep_by ","%char (map member_text ((k, v) :: l))
                  ++ "}"%char :: rest)%list
               = "034"%char :: tl).
    { cbn [map sep_by]. destruct (map member_text l); eexists; reflexivity. }
    destruct Hhead as [tl Hc].
    rewrite <- app_assoc. cbn [app].
    change (map (fun kv : string * json =>
                   (quote (fst kv) ++ ":"%char :: print (snd kv))%list))
      with (map member_text).
    rewrite parse_members_print; [|discriminate|exact IH|simpl in *; lia].
    rewrite Hc. reflexivity.
Qed.

Lemma json_size_print j : json_size j <= length (print j).
Proof.
  induction j as [|b|z|s|l IH|l IH] using json_induction.
  - cbn. lia.
  - destruct b; cbn; lia.
  - destruct (number_head z) as [c [tl [Hp _]]]. cbn [print json_size].
    rewrite Hp. cbn. lia.
  - cbn. lia.
  - cbn [json_size print length]. rewrite length_app. cbn [length].
    assert (Hlen : length (sep_by ","%char (map print l)) + 1
                   >= list_sum (map (fun x => S (json_size x)) l)).
    { induction IH as [|x l Hx _ IHl]; [simpl; lia|].
      simpl map. simpl list_sum. destruct l as [|y l].
      - simpl in *. lia.
      - change (sep_by ","%char (print x :: map print (y :: l)))
          with (print x ++ ","%char :: sep_by ","%char (map print (y :: l)))%list.
        rewrite length_app. cbn [length]. lia. }
    lia.
  - cbn [json_size print length]. rewrite length_app. cbn [length].
    assert (Hlen : length (sep_by ","%char
                             (map (fun kv => (quote (fst kv) ++ ":"%char
                                                :: print (snd kv))%list) l)) + 1
                   >= list_sum (map (fun kv => S (json_size (snd kv))) l)).
    { induction IH as [|[k v] l Hx _ IHl]; [simpl; lia|].
      cbn [map list_sum fold_right fst snd] in *.
      assert (Hm : length (quote k ++ ":"%char :: print v)%list
                   >= S (json_size v)).
      { rewrite length_app. cbn [length]. lia. }
      destruct l as [|y l].
      - cbn [map sep_by fold_right]. lia.
      - cbn [map] in *. rewrite sep_by_cons, length_app. cbn [length].
        cbn [list_sum fold_right] in *. lia. }
    lia.
Qed.

Lemma length_string_of_list_ascii l :
  String.length (string_of_list_ascii l) = length l.
Proof. induction l as [|c l IH]; cbn; [reflexivity | now rewrite IH]. Qed.

Theorem parse_stringify j : parse (stringify j) = Some j.
Proof.
  unfold parse, stringify, chars.
  rewrite list_ascii_of_string_of_list_ascii, length_string_of_list_ascii.
  pose proof (parse_value_print j (S (length (print j))) []) as H.
  rewrite app_nil_r in H. rewrite H; [reflexivity| |exact I].
  pose proof (json_size_print j). lia.
Qed.

End JsonTextFacts.

Module ReferenceFacts.

Lemma decode_utf8_of c tl :
  Reference.decode (Reference.utf8_of c ++ tl) = String c (Reference.decode tl).
Proof. destruct c as [[] [] [] [] [] [] [] []]; reflexivity. Qed.

Lemma decode_encode s : Reference.decode (Reference.encode s) = s.
Proof.
  induction s as [|c s IH]; [reflexivity|].
  cbn [Reference.encode]. now rewrite decode_utf8_of, IH.
Qed.

Lemma insert_perm (A : Type) (cmp : A -> A -> option Z) x l :
  Permutation (Reference.insert cmp x l) (x :: l).
Proof.
  induction l as [|y l IH]; cbn [Reference.insert]; [reflexivity|].
  destruct (cmp x y) as [z|]; [|reflexivity].
  destruct (z <=? 0)%Z; [reflexivity|].
  rewrite IH. apply perm_swap.
Qed.

Lemma sort_perm (A : Type) (cmp : A -> A -> option Z) l :
  Permutation (Reference.sort cmp l) l.
Proof.
  induction l as [|x l IH]; [reflexivity|].
  unfold Reference.sort in *. cbn [fold_right].
  rewrite insert_perm. now constructor.
Qed.

End ReferenceFacts.

Set Implicit Arguments.

#[export] Instance reference_browser : JsRuntime := {|
  JSON_stringify := JsonText.stringify;
  JSON_parse := JsonText.parse;
  JSON_parse_stringify := JsonTextFacts.parse_stringify;
  TextEncoder_encode := Reference.encode;
  TextDecoder_decode := Reference.decode;
  TextDecoder_encode := ReferenceFacts.decode_encode;
  Array_sort := @Reference.sort;
  Array_sort_perm := ReferenceFacts.sort_perm;
  Date_getTime := Reference.getTime;
  Date_toISOString := Reference.toISOString;
  Math_random_id := Reference.random_id
|}.

(* ===================================================================== *)
(** * A store with two tenants, run on the reference browser *)
(* ===================================================================== *)

Module Demo.

Definition settings : string :=
  JsonText.stringify
    (JObj [("allowUserRegistration", JBool true); ("maxAdmins", JNum 5);
           ("maxUsers", JNum 100); ("maxQuizzes", JNum 50)]).

Definition options : string :=
  JsonText.stringify (JArr [JStr "S3"; JStr "EC2"; JStr "IAM"]).

Definition answer : string := JsonText.stringify (JStr "S3").

Definition digest : string := LocalDatabaseService.hashPassword "wel123".

(** Acme signed up and waits for approval; Globex is approved and in use. *)
Definition acme : TenantRecord.t :=
  TenantRecord.mk "tenant-acme" "Acme" "Tenant for Ann" None TenantPending false
    "system" "2025-01-01T08:00:00.000Z" "2025-01-01T08:00:00.000Z" None None
    None settings.

Definition globex : TenantRecord.t :=
  TenantRecord.mk "tenant-globex" "Globex" "Tenant for Bob" None TenantApproved
    true "system" "2024-12-01T08:00:00.000Z" "2024-12-02T08:00:00.000Z"
    (Some "root") (Some "2024-12-02T08:00:00.000Z") None settings.

Definition root : UserRecord.t :=
  UserRecord.mk "root" "Product Administrator" "product.admin@aws-quiz.demo"
    digest ProductAdmin None Active "2024-11-01T08:00:00.000Z".

Definition ann : UserRecord.t :=
  UserRecord.mk "user-ann" "Ann" "ann@acme.example" digest Admin
    (Some "tenant-acme") Pending "2025-01-01T08:00:00.000Z".

Definition bob : UserRecord.t :=
  UserRecord.mk "user-bob" "Bob" "bob@globex.example" digest Admin
    (Some "tenant-globex") Active "2024-12-01T08:00:00.000Z".

Definition eve : UserRecord.t :=
  UserRecord.mk "user-eve" "Eve" "eve@globex.example" digest Member
    (Some "tenant-globex") Pending "2024-12-03T08:00:00.000Z".

Definition basics : QuizSetRecord.t :=
  QuizSetRecord.mk "quiz-basics" "Basics" "Cloud basics" true
    (Some "tenant-globex") "user-bob" "2024-12-04T08:00:00.000Z"
    "2024-12-05T08:00:00.000Z".

Definition draft : QuizSetRecord.t :=
  QuizSetRecord.mk "quiz-draft" "Draft" "Not yet published" false
    (Some "tenant-acme") "user-ann" "2025-01-01T09:00:00.000Z"
    "2025-01-01T09:00:00.000Z".

Definition question (id quiz : string) (index : Z) : QuizQuestionRecord.t :=
  QuizQuestionRecord.mk id quiz "https://example.org/s3.png" "A bucket"
    "Which service stores objects?" Radio options answer index.

Definition attempt (id : string) (percentage : Z) : UserAttemptRecord.t :=
  UserAttemptRecord.mk id "user-eve" (Some "tenant-globex") "quiz-basics"
    (percentage / 20) 5 percentage 120 330 "2024-12-06T08:00:00.000Z" "custom".

Definition schema : DatabaseSchema :=
  mkSchema
    [("tenant-acme", acme); ("tenant-globex", globex)]
    [("root", root); ("user-ann", ann); ("user-bob", bob); ("user-eve", eve)]
    [("quiz-basics", basics); ("quiz-draft", draft)]
    [("q1", question "q1" "quiz-basics" 0); ("q2", question "q2" "quiz-draft" 0);
     ("q3", question "q3" "quiz-basics" 1)]
    [("a1", attempt "a1" 60); ("a2", attempt "a2" 80)]
    [] []
    [("main", MetadataRecord.mk "2.2.0" "2025-01-01T09:00:00.000Z")].

Definition world : World := mkWorld schema 0 0.

(** The same store once Acme's only user is gone. *)
Definition emptied : World :=
  mkWorld (with_users [("root", root); ("user-bob", bob); ("user-eve", eve)] schema)
    0 0.

End Demo.

(** C1, at the demo store: Globex has users and cannot be deleted; Acme
    without its user is deleted with its quiz set. *)
Lemma deleteTenant_blocked_or_cascades_witness :
  DataServiceAdapter.deleteTenant "tenant-globex" Demo.world
  = (Throw TenantHasUsers, Demo.world)
  /\ exists w',
      DataServiceAdapter.deleteTenant "tenant-acme" Demo.emptied = (Return true, w')
      /\ tbl_get "tenant-acme" (tenants (db w')) = None
      /\ users (db w') = users (db Demo.emptied).
Proof.
  split.
  - apply (proj1 (deleteTenant_blocked_or_cascades "tenant-globex" Demo.world)).
    exists Demo.bob. split; [right; right; left; reflexivity | reflexivity].
  - destruct (proj2 (deleteTenant_blocked_or_cascades "tenant-acme" Demo.emptied))
      as [w' [Hrun [_ [_ [_ [Hgone [_ Husers]]]]]]].
    + intros u [<-|[<-|[<-|[]]]]; discriminate.
    + vm_compute. reflexivity.
    + discriminate.
    + exists w'. auto.
Defined.

(** C2 as stated fails: Globex is approved, and [rejectTenant] leaves it
    rejected. *)
Lemma rejectTenant_changes_an_approved_tenant :
  option_map TenantRecord.status
    (tbl_get "tenant-globex" (tenants (db Demo.world)))
  = Some TenantApproved
  /\ fst (DataServiceAdapter.rejectTenant "tenant-globex" "root" "too late"
            Demo.world)
     = Return true
  /\ option_map TenantRecord.status
       (tbl_get "tenant-globex"
          (tenants
             (db (snd (DataServiceAdapter.rejectTenant "tenant-globex" "root"
                         "too late" Demo.world)))))
     = Some TenantRejected.
Proof. vm_compute. repeat split; reflexivity. Qed.

(** C2 (amended), at the demo store, on the approved tenant. *)
Lemma approve_reject_whatever_status_witness :
  TenantRecord.status Demo.globex = TenantApproved
  /\ (exists w' t',
      DataServiceAdapter.approveTenant "tenant-globex" "root" Demo.world
      = (Return true, w')
      /\ tbl_get "tenant-globex" (tenants (db w')) = Some t'
      /\ TenantRecord.status t' = TenantApproved)
  /\ (exists w' t',
      DataServiceAdapter.rejectTenant "tenant-globex" "root" "too late" Demo.world
      = (Return true, w')
      /\ tbl_get "tenant-globex" (tenants (db w')) = Some t'
      /\ TenantRecord.status t' = TenantRejected).
Proof.
  split; [reflexivity|].
  apply (@approve_reject_whatever_status reference_browser "tenant-globex" "root"
           "too late" Demo.world Demo.globex
           (JObj [("allowUserRegistration", JBool true); ("maxAdmins", JNum 5);
                  ("maxUsers", JNum 100); ("maxQuizzes", JNum 50)])).
  - vm_compute. reflexivity.
  - reflexivity.
  - vm_compute. reflexivity.
Defined.





(** C5 as stated fails: a product-admin created with the empty string as
    [tenantId] is returned, and its [tenantId] is not absent. *)
Lemma createUser_product_admin_with_empty_tenantId :
  exists user w',
    DataServiceAdapter.createUser "Zed" "zed@aws-quiz.demo" "wel123" ProductAdmin
      (Some "") Demo.world
    = (Return user, w')
    /\ User.role user = ProductAdmin
    /\ User.tenantId user = Some ""
    /\ option_map UserRecord.tenant_id (tbl_get (User.id user) (users (db w')))
       = Some (Some "").
Proof. do 2 eexists. vm_compute. repeat split; reflexivity. Qed.

(** C5 (amended), at the demo store: an admin for Globex with a free email
    is created, and a product-admin for Globex is refused. *)
Lemma createUser_tenant_rule_witness :
  (exists user w',
      DataServiceAdapter.createUser "Zed" "zed@globex.example" "wel123" Admin
        (Some "tenant-globex") Demo.world
      = (Return user, w')
      /\ User.role user = Admin /\ User.tenantId user = Some "tenant-globex")
  /\ DataServiceAdapter.createUser "Zed" "zed@globex.example" "wel123"
       ProductAdmin (Some "tenant-globex") Demo.world
     = (Throw (JsError "Product admin cannot belong to a tenant"), Demo.world).
Proof.
  split.
  - apply (proj2 (proj2 (proj2
             (createUser_tenant_rule "Zed" "zed@globex.example" "wel123" Admin
                (Some "tenant-globex") Demo.world)))).
    + right. split; [now left|]. exists "tenant-globex". split; [reflexivity|].
      discriminate.
    + intros u [<-|[<-|[<-|[<-|[]]]]]; discriminate.
  - apply (proj1 (createUser_tenant_rule "Zed" "zed@globex.example" "wel123"
                    ProductAdmin (Some "tenant-globex") Demo.world)).
    + reflexivity.
    + exists "tenant-globex". split; [reflexivity | discriminate].
Defined.

(** An attempt as the quiz screen reports it. *)
Definition demo_result (quizType : string) (quizSetId : option string)
  : NewTestResult.t :=
  NewTestResult.mk "user-eve" (Some "tenant-globex") "Eve" "eve@globex.example"
    4 4 100 30 420 "2025-01-02T08:00:00.000Z" quizType [] [] quizSetId.

(** C9 as stated fails: the caller supplies the empty string as
    [quizSetId] and the attempt is stored under "default". *)
Lemma saveTestResult_empty_quizSetId :
  NewTestResult.quizSetId (demo_result "custom" (Some "")) = Some ""
  /\ option_map UserAttemptRecord.quiz_set_id
       (tbl_get (Math_random_id 0)
          (user_attempts
             (db (snd (DataServiceAdapter.saveTestResult
                         (demo_result "custom" (Some "")) Demo.world)))))
     = Some "default".
Proof. vm_compute. split; reflexivity. Qed.

(** C9 (amended), at the demo store: a "default" attempt without a quiz set
    goes to the published quiz set, a supplied quiz set is kept. *)
Lemma saveTestResult_quiz_set_id_witness :
  (exists saved w' a,
      DataServiceAdapter.saveTestResult (demo_result "default" None) Demo.world
      = (Return saved, w')
      /\ tbl_get (Math_random_id 0) (user_attempts (db w')) = Some a
      /\ UserAttemptRecord.quiz_set_id a = "quiz-basics")
  /\ (exists saved w' a,
      DataServiceAdapter.saveTestResult
        (demo_result "custom" (Some "quiz-draft")) Demo.world
      = (Return saved, w')
      /\ tbl_get (Math_random_id 0) (user_attempts (db w')) = Some a
      /\ UserAttemptRecord.quiz_set_id a = "quiz-draft").
Proof.
  split.
  - destruct (saveTestResult_quiz_set_id (demo_result "default" None) Demo.world)
      as [saved [w' [a [Hrun [_ [Hget [_ [Hfirst _]]]]]]]].
    exists saved, w', a. split; [exact Hrun|]. split; [exact Hget|].
    apply (Hfirst (or_introl eq_refl) eq_refl Demo.basics []). reflexivity.
  - destruct (saveTestResult_quiz_set_id
                (demo_result "custom" (Some "quiz-draft")) Demo.world)
      as [saved [w' [a [Hrun [_ [Hget [Hsupplied _]]]]]]].
    exists saved, w', a. split; [exact Hrun|]. split; [exact Hget|].
    apply Hsupplied; [reflexivity | discriminate].
Defined.


(** The demo store is well formed, and stays so when Acme is approved. *)
Lemma demo_well_formed : well_formed Demo.schema.
Proof. repeat split; vm_compute; reflexivity. Qed.

Lemma demo_approved_well_formed :
  well_formed
    (db (snd (DataServiceAdapter.approveTenant "tenant-acme" "root" Demo.world))).
Proof. apply keeps_approveTenant. exact demo_well_formed. Qed.

(** The scenario of the approval workflow at the demo store. *)
Example demo_login_before_and_after_approval :
  fst (DataServiceAdapter.loginUser "ann@acme.example" "wel123" Demo.world)
  = Return None
  /\ fst (DataServiceAdapter.loginUser "ann@acme.example" "wel123"
            (snd (DataServiceAdapter.approveTenant "tenant-acme" "root" Demo.world)))
     = Return (Some (User.mk "user-ann" "Ann" "ann@acme.example" Admin
                       (Some "tenant-acme") Active "2025-01-01T08:00:00.000Z")).
Proof. vm_compute. split; reflexivity. Qed.

(** Publishing and unpublishing at the demo store: the draft appears among
    the published quizzes of Acme, then no longer. *)
Example demo_publish_unpublish :
  let published w :=
    match fst (DataServiceAdapter.getPublishedQuizzes (Some "tenant-acme") w) with
    | Return l => map QuizSet.id l
    | Throw _ => []
    end in
  let w1 := snd (DataServiceAdapter.publishQuiz "quiz-draft" Demo.world) in
  let w2 := snd (DataServiceAdapter.unpublishQuiz "quiz-draft" w1) in
  published Demo.world = [] /\ published w1 = ["quiz-draft"] /\ published w2 = [].
Proof. vm_compute. repeat split; reflexivity. Qed.

(* ===================================================================== *)
(** * Accounts: creation, password reset, sessions *)
(* ===================================================================== *)

Section Accounts.
Context {rt : JsRuntime}.


(** A row written under an email that no row had is the row [find] meets. *)
Lemma find_set_new email k r (t : DatabaseTable UserRecord.t) :
  UserRecord.email r = email ->
  find (fun u => UserRecord.email u =? email) (Object_values t) = None ->
  find (fun u => UserRecord.email u =? email) (Object_values (tbl_set k r t))
  = Some r.
Proof.
  intros Hr. induction t as [|[k0 u0] t IH]; cbn.
  - intros _. now rewrite Hr, String.eqb_refl.
  - destruct (UserRecord.email u0 =? email) eqn:E0; [discriminate|].
    intros Hnone. destruct (k0 =? k); cbn.
    + now rewrite Hr, String.eqb_refl.
    + rewrite E0. now apply IH.
Qed.


Lemma verifyPassword_same password :
  LocalDatabaseService.verifyPassword password
    (LocalDatabaseService.hashPassword password) = true.
Proof. apply String.eqb_refl. Qed.

(** X1.  [createUser] of the store refuses an email that a row already has and
    changes nothing then; with a free email it returns an active user with
    the generated id, and a login with the same email and password then
    returns that very user. *)
Theorem createUser_then_loginUser
    (name email password : string) (role : Role) (tenantId : option string)
    (w : World) :
  match LocalDatabaseService.find_by_email email (db w) with
  | Some _ =>
      LocalDatabaseService.createUser name email password role tenantId w
      = (Throw (JsError "User with this email already exists"), w)
  | None =>
      exists user w1 w2,
        LocalDatabaseService.createUser name email password role tenantId w
        = (Return user, w1)
        /\ user = User.mk (Math_random_id (entropy w)) name email role tenantId
                    Active (Date_toISOString (clock w))
        /\ LocalDatabaseService.loginUser email password w1
           = (Return (Some user), w2)
        /\ DataServiceAdapter.loginUser email password w1
           = (Return (Some user), w2)
  end.
Proof.
  destruct (LocalDatabaseService.find_by_email email (db w)) as [u|] eqn:Hf.
  - unfold LocalDatabaseService.createUser. run. now rewrite Hf.
  - unfold LocalDatabaseService.createUser. run. rewrite Hf. run.
    match goal with
    | |- exists user w1 w2, (Return ?u, ?w1') = _ /\ _ =>
        exists u, w1'
    end.
    pose proof (store_loginUser_spec email password
      (mkWorld
         (LocalDatabaseService.stamped (Date_toISOString (S (clock w)))
            (with_users
               (tbl_set (Math_random_id (entropy w))
                  (UserRecord.mk (Math_random_id (entropy w)) name email
                     (LocalDatabaseService.hashPassword password) role tenantId
                     Active (Date_toISOString (clock w)))
                  (users (db w))) (db w)))
         (S (S (clock w))) (S (entropy w)))) as Hs.
    unfold LocalDatabaseService.find_by_email in Hs, Hf. cbn [db users] in Hs.
    cbn [LocalDatabaseService.stamped with_metadata with_users users] in Hs.
    rewrite find_set_new in Hs; [ | reflexivity | exact Hf].
    cbn [UserRecord.password_hash] in Hs.
    rewrite verifyPassword_same in Hs.
    destruct Hs as [w2 [Hs _]]. exists w2.
    split; [reflexivity|]. split; [reflexivity|].
    split; [exact Hs|].
    unfold DataServiceAdapter.loginUser, bind. rewrite Hs. reflexivity.
Qed.




(** X4.  A login that fails on the email or on the password returns [null] and
    leaves the world as it was: the session of whoever is logged in stays,
    and [getCurrentUser] answers as before. *)
Theorem failed_login_changes_nothing (email password : string) (w : World) :
  (LocalDatabaseService.find_by_email email (db w) = None
   \/ exists u,
       LocalDatabaseService.find_by_email email (db w) = Some u
       /\ LocalDatabaseService.verifyPassword password (UserRecord.password_hash u)
          = false) ->
  DataServiceAdapter.loginUser email password w = (Return None, w)
  /\ DataServiceAdapter.getCurrentUser
       (snd (DataServiceAdapter.loginUser email password w))
     = DataServiceAdapter.getCurrentUser w.
Proof.
  intros H.
  assert (Hrun : DataServiceAdapter.loginUser email password w = (Return None, w)).
  { unfold DataServiceAdapter.loginUser, bind.
    pose proof (store_loginUser_spec email password w) as Hs.
    destruct H as [Hf|[u [Hf Hv]]]; rewrite Hf in Hs; [|rewrite Hv in Hs];
      now rewrite Hs. }
  split; [exact Hrun | now rewrite Hrun].
Qed.

End Accounts.

Section DigestFacts.

(** X5.  What [verifyPassword] compares: a password passes against the digest of
    another exactly when their 32-bit hashes agree up to sign, so the
    digest of a password always admits that password. *)
Theorem verifyPassword_iff (p q : string) :
  LocalDatabaseService.verifyPassword p (LocalDatabaseService.hashPassword q) = true
  <-> Z.abs (LocalDatabaseService.hash_loop (p ++ "awsquiz2024") 0)
      = Z.abs (LocalDatabaseService.hash_loop (q ++ "awsquiz2024") 0).
Proof.
  unfold LocalDatabaseService.verifyPassword. rewrite String.eqb_eq. split.
  - apply hashPassword_eq.
  - intros H. unfold LocalDatabaseService.hashPassword. now rewrite H.
Qed.

End DigestFacts.

(* ===================================================================== *)
(** * Tenants: registration, update, the approval queue *)
(* ===================================================================== *)

Section Tenants.
Context {rt : JsRuntime} {ids : JsIdentifiers}.










(** The tenant [createTenant] builds. *)
Definition new_tenant (name description createdBy : string)
    (status : TenantStatus) (w : World) : Tenant.t :=
  Tenant.mk
    ("tenant-" ++ Date_now (clock w) ++ "-" ++ Math_random_digits (entropy w))
    name description None status (DataServiceAdapter.is_approved status)
    createdBy (Date_toISOString (S (clock w)))
    (Date_toISOString (S (S (clock w)))) None None None
    DataServiceAdapter.default_settings.

(** The row [createTenant] of the store writes for a tenant. *)
Definition record_of_tenant (tenant : Tenant.t) : TenantRecord.t :=
  TenantRecord.mk (Tenant.id tenant) (Tenant.name tenant)
    (Tenant.description tenant) (Tenant.domain tenant) (Tenant.status tenant)
    (Tenant.isActive tenant) (Tenant.createdBy tenant) (Tenant.createdAt tenant)
    (Tenant.updatedAt tenant) (Tenant.approvedBy tenant)
    (Tenant.approvedAt tenant) (Tenant.rejectionReason tenant)
    (JSON_stringify (Tenant.settings tenant)).

(** The world after [createTenant] has written the tenant. *)
Definition after_createTenant (name description createdBy : string)
    (status : TenantStatus) (w : World) : World :=
  mkWorld
    (LocalDatabaseService.stamped (Date_toISOString (S (S (S (clock w)))))
       (with_tenants
          (tbl_set (Tenant.id (new_tenant name description createdBy status w))
             (record_of_tenant
                (new_tenant name description createdBy status w))
             (tenants (db w))) (db w)))
    (S (S (S (S (clock w))))) (S (entropy w)).

Lemma createTenant_local name description createdBy status w :
  DataServiceAdapter.createTenant false name description createdBy status w
  = (Return (Local (new_tenant name description createdBy status w)),
     after_createTenant name description createdBy status w).
Proof. reflexivity. Qed.

(** X8.  [createTenant] of the adapter, without MySQL: the tenant it returns is
    active exactly when it is created approved, it has the default
    settings, and [getTenant] on its id then returns the very same tenant;
    the other tables are not touched.  With MySQL in use the local store is
    not written at all. *)
Theorem createTenant_then_getTenant
    (name description createdBy : string) (status : TenantStatus) (w : World) :
  (exists w1,
      DataServiceAdapter.createTenant false name description createdBy status w
      = (Return (Local (new_tenant name description createdBy status w)), w1)
      /\ (Tenant.isActive (new_tenant name description createdBy status w) = true
          <-> status = TenantApproved)
      /\ DataServiceAdapter.getTenant
           (Tenant.id (new_tenant name description createdBy status w)) w1
         = (Return (Some (new_tenant name description createdBy status w)), w1)
      /\ users (db w1) = users (db w)
      /\ quiz_sets (db w1) = quiz_sets (db w)
      /\ user_attempts (db w1) = user_attempts (db w))
  /\ (exists w1,
      DataServiceAdapter.createTenant true name description createdBy status w
      = (Return Promise, w1)
      /\ db w1 = db w).
Proof.
  split.
  - exists (after_createTenant name description createdBy status w).
    split; [apply createTenant_local|]. split.
    { cbn. destruct status; cbn; split; congruence. }
    split; [|repeat split].
    unfold DataServiceAdapter.getTenant.
    rewrite (@getTenant_present _ _ _
               (record_of_tenant
                  (new_tenant name description createdBy status w))
               DataServiceAdapter.default_settings).
    + reflexivity.
    + cbn [after_createTenant db tenants LocalDatabaseService.stamped
           with_metadata with_tenants]. apply tbl_get_set_same.
    + cbn. apply JSON_parse_stringify.
  - unfold DataServiceAdapter.createTenant, DataServiceAdapter.template_id. run.
    eexists. split; reflexivity.
Qed.

(** [some] does not depend on the order of the array. *)
Lemma existsb_Permutation (A : Type) (f : A -> bool) (l l' : list A) :
  Permutation l l' -> existsb f l = existsb f l'.
Proof.
  induction 1; cbn.
  - reflexivity.
  - now rewrite IHPermutation.
  - destruct (f x), (f y); reflexivity.
  - congruence.
Qed.

Lemma existsb_mapped (A B : Type) (g : A -> B) (f : B -> bool) (l : list A) :
  existsb f (map g l) = existsb (fun x => f (g x)) l.
Proof. induction l as [|x l IH]; cbn; [reflexivity | now rewrite IH]. Qed.

Lemma existsb_find_none (A : Type) (f : A -> bool) (l : list A) :
  existsb f l = false <-> find f l = None.
Proof.
  induction l as [|x l IH]; cbn; [tauto|].
  destruct (f x); cbn; [split; discriminate | exact IH].
Qed.

(** The check of [createTenantAndAdmin] on the users it lists is the check
    of the store on its rows. *)
Lemma some_user_has_email email w :
  existsb (fun u => User.email u =? email)
    (map LocalDatabaseService.user_of_record
       (Array_sort (LocalDatabaseService.newest_first UserRecord.created_at)
          (Object_values (users (db w)))))
  = match LocalDatabaseService.find_by_email email (db w) with
    | Some _ => true
    | None => false
    end.
Proof.
  rewrite existsb_mapped.
  rewrite (existsb_Permutation _ (Array_sort_perm _ _)).
  unfold LocalDatabaseService.find_by_email. cbn [User.email
    LocalDatabaseService.user_of_record].
  destruct (find _ _) eqn:E.
  - destruct (existsb _ _) eqn:E'; [reflexivity|].
    apply existsb_find_none in E'.
    cbn [User.email LocalDatabaseService.user_of_record] in E'. congruence.
  - now apply existsb_find_none.
Qed.

(** The pending admin [createTenantAndAdmin] builds for a tenant id. *)
Definition new_admin (adminName adminEmail : string) (tenantId : option string)
    (w : World) : User.t :=
  User.mk
    ("user-" ++ Date_now (S (S (S (S (clock w))))) ++ "-"
       ++ Math_random_digits (S (entropy w)))
    adminName adminEmail Admin tenantId Pending
    (Date_toISOString (S (S (S (S (S (clock w))))))).

(** The row [createUserWithStatus] writes for a user. *)
Definition record_of_user (user : User.t) (password : string) : UserRecord.t :=
  UserRecord.mk (User.id user) (User.name user) (User.email user)
    (LocalDatabaseService.hashPassword password) (User.role user)
    (User.tenantId user) (User.status user) (User.createdAt user).

(** A run of [createTenantAndAdmin] without MySQL on an email that is
    free. *)
Lemma createTenantAndAdmin_local adminName adminEmail adminPassword tenantName w :
  LocalDatabaseService.find_by_email adminEmail (db w) = None ->
  let tenant :=
    new_tenant tenantName ("Tenant for " ++ adminName) "system" TenantPending w in
  let user := new_admin adminName adminEmail (Some (Tenant.id tenant)) w in
  exists w1,
    DataServiceAdapter.createTenantAndAdmin false adminName adminEmail
      adminPassword tenantName w
    = (Return (Local tenant, user), w1)
    /\ tenants (db w1)
       = tbl_set (Tenant.id tenant) (record_of_tenant tenant) (tenants (db w))
    /\ users (db w1)
       = tbl_set (User.id user) (record_of_user user adminPassword)
           (users (db w))
    /\ quiz_sets (db w1) = quiz_sets (db w)
    /\ quiz_questions (db w1) = quiz_questions (db w)
    /\ user_attempts (db w1) = user_attempts (db w).
Proof.
  intros Hfree tenant user.
  unfold DataServiceAdapter.createTenantAndAdmin.
  unfold bind at 1. unfold DataServiceAdapter.getUsers,
    LocalDatabaseService.getUsers. unfold bind at 1, get_db at 1, ret at 1.
  cbn [fst snd]. rewrite some_user_has_email, Hfree.
  unfold bind at 1. rewrite createTenant_local.
  unfold bind at 1, DataServiceAdapter.template_id at 1.
  unfold bind at 1, LocalDatabaseService.new_Date_toISOString at 1.
  cbn [db clock entropy after_createTenant DataServiceAdapter.id_of].
  fold tenant. fold user.
  unfold LocalDatabaseService.createUserWithStatus. run.
  unfold LocalDatabaseService.find_by_email in *.
  cbn [users LocalDatabaseService.stamped with_metadata with_tenants User.email
       user new_admin].
  rewrite Hfree. run.
  eexists. split; [reflexivity|]. repeat split.
Qed.

(** X9.  Registration until approval.  [createTenantAndAdmin] refuses an email
    that a user already has and changes nothing then.  With a free email
    (and without MySQL) it creates a pending, inactive tenant and a pending
    admin of that tenant; the admin cannot log in with the password chosen
    until the tenant is approved, and can from then on. *)
Theorem registration_until_approval
    (adminName adminEmail adminPassword tenantName approvedBy : string)
    (w : World) :
  table_ok UserRecord.id (users (db w)) = true ->
  (forall u, LocalDatabaseService.find_by_email adminEmail (db w) = Some u ->
   DataServiceAdapter.createTenantAndAdmin false adminName adminEmail
     adminPassword tenantName w
   = (Throw (JsError "A user with this email already exists"), w))
  /\ (LocalDatabaseService.find_by_email adminEmail (db w) = None ->
      exists tenant user w1 w2 w3 w4,
        DataServiceAdapter.createTenantAndAdmin false adminName adminEmail
          adminPassword tenantName w
        = (Return (Local tenant, user), w1)
        /\ Tenant.status tenant = TenantPending
        /\ Tenant.isActive tenant = false
        /\ User.role user = Admin
        /\ User.status user = Pending
        /\ User.tenantId user = Some (Tenant.id tenant)
        /\ DataServiceAdapter.loginUser adminEmail adminPassword w1
           = (Return None, w2)
        /\ DataServiceAdapter.approveTenant (Tenant.id tenant) approvedBy w2
           = (Return true, w3)
        /\ DataServiceAdapter.loginUser adminEmail adminPassword w3
           = (Return (Some (User.mk (User.id user) adminName adminEmail Admin
                              (Some (Tenant.id tenant)) Active
                              (User.createdAt user))), w4)).
Proof.
  intros Hok. split.
  - intros u Hu. unfold DataServiceAdapter.createTenantAndAdmin.
    unfold bind at 1. unfold DataServiceAdapter.getUsers,
      LocalDatabaseService.getUsers. unfold bind at 1, get_db at 1, ret at 1.
    cbn [fst snd]. now rewrite some_user_has_email, Hu.
  - intros Hfree.
    destruct (@createTenantAndAdmin_local adminName adminEmail adminPassword
                tenantName w Hfree) as [w1 [Hrun [Hten [Hus _]]]].
    set (tenant := new_tenant tenantName ("Tenant for " ++ adminName) "system"
                     TenantPending w) in *.
    set (user := new_admin adminName adminEmail (Some (Tenant.id tenant)) w) in *.
    set (row := record_of_user user adminPassword) in *.
    assert (Hok1 : table_ok UserRecord.id (users (db w1)) = true)
      by (rewrite Hus; apply table_ok_set; [exact Hok | reflexivity]).
    assert (Hf1 : LocalDatabaseService.find_by_email adminEmail (db w1) = Some row).
    { unfold LocalDatabaseService.find_by_email in *. rewrite Hus.
      apply find_set_new; [reflexivity | exact Hfree]. }
    pose proof (store_loginUser_spec adminEmail adminPassword w1) as Hs.
    rewrite Hf1 in Hs. cbn [row record_of_user UserRecord.password_hash] in Hs.
    rewrite verifyPassword_same in Hs.
    destruct Hs as [w2 [Hlogin [_ Hus2]]].
    assert (Hten2 : tenants (db w2) = tenants (db w1)).
    { revert Hlogin. unfold LocalDatabaseService.loginUser. run. rewrite Hf1.
      cbn [row record_of_user UserRecord.password_hash].
      rewrite verifyPassword_same. run. now intros [= <-]. }
    assert (Ht2 : tbl_get (Tenant.id tenant) (tenants (db w2))
                  = Some (record_of_tenant tenant))
      by (rewrite Hten2, Hten; apply tbl_get_set_same).
    assert (Hok2 : table_ok UserRecord.id (users (db w2)) = true)
      by (rewrite Hus2; exact Hok1).
    assert (Hf2 : LocalDatabaseService.find_by_email adminEmail (db w2) = Some row).
    { unfold LocalDatabaseService.find_by_email in *. now rewrite Hus2. }
    destruct (@login_before_and_after_approval rt (Tenant.id tenant) approvedBy
                adminEmail adminPassword w2 (record_of_tenant tenant)
                DataServiceAdapter.default_settings row Hok2 Ht2)
      as [_ [w3 [Happrove Hafter]]].
    { cbn. apply JSON_parse_stringify. }
    { exact Hf2. }
    { apply verifyPassword_same. }
    { reflexivity. }
    { reflexivity. }
    exists tenant, user, w1, w2, w3.
    destruct (DataServiceAdapter.loginUser adminEmail adminPassword w3)
      as [o w4] eqn:E4. cbn [fst] in Hafter. subst o.
    exists w4. split; [exact Hrun|].
    do 5 (split; [reflexivity|]).
    split.
    { unfold DataServiceAdapter.loginUser, bind. rewrite Hlogin. reflexivity. }
    split; [exact Happrove | reflexivity].
Qed.

(** X10.  A rejection does not touch the users: the pending admin of a rejected
    tenant stays pending and still cannot log in.  The tenant row carries
    the reason and who rejected it. *)
Theorem rejectTenant_leaves_users_pending
    (tenantId rejectedBy reason email password : string) (w : World)
    (t : TenantRecord.t) (j : json) (u : UserRecord.t) :
  tbl_get tenantId (tenants (db w)) = Some t ->
  JSON_parse (TenantRecord.settings_json t) = Some j ->
  LocalDatabaseService.find_by_email email (db w) = Some u ->
  LocalDatabaseService.verifyPassword password (UserRecord.password_hash u) = true ->
  UserRecord.status u = Pending ->
  exists w1 w2 t1,
    DataServiceAdapter.rejectTenant tenantId rejectedBy reason w = (Return true, w1)
    /\ users (db w1) = users (db w)
    /\ tbl_get tenantId (tenants (db w1)) = Some t1
    /\ TenantRecord.status t1 = TenantRejected
    /\ TenantRecord.is_active t1 = false
    /\ TenantRecord.rejection_reason t1 = Some reason
    /\ TenantRecord.approved_by t1 = Some rejectedBy
    /\ DataServiceAdapter.loginUser email password w1 = (Return None, w2).
Proof.
  intros Ht Hj Hf Hv Hp.
  destruct (rejectTenant_present tenantId rejectedBy reason w Ht Hj)
    as [w1 [Hrun [Hten Hus]]].
  pose proof (store_loginUser_spec email password w1) as Hs.
  unfold LocalDatabaseService.find_by_email in Hs, Hf.
  rewrite Hus, Hf, Hv in Hs. destruct Hs as [w2 [Hs _]].
  exists w1, w2. eexists. split; [exact Hrun|]. split; [exact Hus|].
  split; [rewrite Hten; apply tbl_get_set_same|].
  do 4 (split; [reflexivity|]).
  unfold DataServiceAdapter.loginUser, bind. rewrite Hs. cbn. now rewrite Hp.
Qed.

(** ** The approval queue *)

(** A callback that only reads, mapped over an array. *)
Lemma mapM_pure (A B : Type) (f : A -> M B) (g : A -> B) (l : list A) :
  (forall x, In x l -> forall w, f x w = (Return (g x), w)) ->
  forall w, mapM f l w = (Return (map g l), w).
Proof.
  induction l as [|x l IH]; intros Hf w; [reflexivity|].
  cbn [mapM map]. unfold bind at 1. rewrite Hf by now left.
  unfold bind at 1. rewrite IH by (intros y Hy; apply Hf; now right).
  reflexivity.
Qed.








End Tenants.

(* ===================================================================== *)
(** * Quiz sets: publication and what a tenant sees *)
(* ===================================================================== *)

Section Publication.
Context {rt : JsRuntime}.

(** A [QuizSet] shows a row: every field but the questions is the row's. *)
Definition shows (r : QuizSetRecord.t) (quiz : QuizSet.t) : Prop :=
  QuizSet.id quiz = QuizSetRecord.id r
  /\ QuizSet.name quiz = QuizSetRecord.name r
  /\ QuizSet.description quiz = QuizSetRecord.description r
  /\ QuizSet.isPublished quiz = QuizSetRecord.is_published r
  /\ QuizSet.tenantId quiz = QuizSetRecord.tenant_id r
  /\ QuizSet.createdBy quiz = QuizSetRecord.created_by r
  /\ QuizSet.createdAt quiz = QuizSetRecord.created_at r
  /\ QuizSet.updatedAt quiz = QuizSetRecord.updated_at r.

Lemma getQuizSetById_shows id w r :
  questions_parse (db w) = true ->
  tbl_get id (quiz_sets (db w)) = Some r ->
  exists quiz,
    LocalDatabaseService.getQuizSetById id w = (Return (Some quiz), w)
    /\ shows r quiz.
Proof.
  intros Hp Hget. unfold LocalDatabaseService.getQuizSetById.
  unfold bind at 1, get_db at 1. rewrite Hget.
  match goal with
  | |- context [mapM ?f ?l] => destruct (@mapM_reads _ _ f l w) as [ys [Hys _]]
  end.
  - intros q Hin. apply (Permutation_in _ (Array_sort_perm _ _)) in Hin.
    apply filter_In in Hin. destruct Hin as [Hin _].
    unfold questions_parse in Hp. rewrite forallb_forall in Hp.
    apply Hp in Hin. apply andb_true_iff in Hin.
    now apply question_of_record_reads.
  - unfold bind. rewrite Hys. eexists. split; [reflexivity|].
    repeat split.
Qed.

Lemma getQuizSetById_absent id w :
  tbl_get id (quiz_sets (db w)) = None ->
  LocalDatabaseService.getQuizSetById id w = (Return None, w).
Proof.
  intros H. unfold LocalDatabaseService.getQuizSetById.
  unfold bind at 1, get_db at 1. now rewrite H.
Qed.

(** The [map] and [filter(Boolean)] that end [getQuizSets] and
    [getPublishedQuizzes], over rows that sit under their own id. *)
Lemma quiz_sets_read (rows : list QuizSetRecord.t) w :
  questions_parse (db w) = true ->
  (forall r, In r rows ->
     tbl_get (QuizSetRecord.id r) (quiz_sets (db w)) = Some r) ->
  exists found,
    mapM (fun record => LocalDatabaseService.getQuizSetById (QuizSetRecord.id record))
      rows w = (Return found, w)
    /\ Forall2 shows rows (LocalDatabaseService.filter_Boolean found).
Proof.
  intros Hp. induction rows as [|r rows IH]; intros Hrows.
  - exists []. split; [reflexivity | constructor].
  - destruct IH as [found [Hfound HF]]; [intros r' Hr'; apply Hrows; now right|].
    destruct (getQuizSetById_shows (QuizSetRecord.id r) w Hp
                (Hrows r (or_introl eq_refl))) as [quiz [Hq Hs]].
    exists (Some quiz :: found). split; [|now constructor].
    cbn [mapM]. unfold bind. now rewrite Hq, Hfound.
Qed.

Lemma rows_under_their_id (T : Type) (id : T -> string) (t : DatabaseTable T) r :
  table_ok id t = true -> In r (Object_values t) -> tbl_get (id r) t = Some r.
Proof.
  intros Hok Hin. apply In_Object_values in Hin. destruct Hin as [k Hin].
  rewrite (table_ok_id _ _ _ _ Hok Hin).
  apply In_tbl_get; [exact (table_ok_NoDup _ _ Hok) | exact Hin].
Qed.

Lemma getPublishedQuizzes_reads w :
  table_ok QuizSetRecord.id (quiz_sets (db w)) = true ->
  questions_parse (db w) = true ->
  exists l,
    LocalDatabaseService.getPublishedQuizzes w = (Return l, w)
    /\ Forall2 shows
         (Array_sort (LocalDatabaseService.newest_first QuizSetRecord.updated_at)
            (filter QuizSetRecord.is_published (Object_values (quiz_sets (db w)))))
         l.
Proof.
  intros Hok Hp. unfold LocalDatabaseService.getPublishedQuizzes.
  unfold bind at 1, get_db at 1.
  match goal with
  | |- context [mapM _ ?rows] =>
      destruct (@quiz_sets_read rows w Hp) as [found [Hfound HF]]
  end.
  - intros r Hr. apply (Permutation_in _ (Array_sort_perm _ _)) in Hr.
    apply filter_In in Hr. destruct Hr as [Hr _].
    now apply rows_under_their_id.
  - unfold bind. rewrite Hfound. eexists. split; [reflexivity | exact HF].
Qed.

Lemma Forall2_In_left (A B : Type) (R : A -> B -> Prop) (l : list A) (l' : list B) x :
  Forall2 R l l' -> In x l -> exists y, In y l' /\ R x y.
Proof.
  induction 1 as [|a b l l' Hab HF IH]; intros Hin; [destruct Hin|].
  destruct Hin as [->|Hin].
  - exists b. split; [now left | exact Hab].
  - destruct (IH Hin) as [y [Hy Hxy]]. exists y. split; [now right | exact Hxy].
Qed.

Lemma Forall2_In_right (A B : Type) (R : A -> B -> Prop) (l : list A) (l' : list B) y :
  Forall2 R l l' -> In y l' -> exists x, In x l /\ R x y.
Proof.
  induction 1 as [|a b l l' Hab HF IH]; intros Hin; [destruct Hin|].
  destruct Hin as [->|Hin].
  - exists a. split; [now left | exact Hab].
  - destruct (IH Hin) as [x [Hx Hxy]]. exists x. split; [now right | exact Hxy].
Qed.

Lemma published_of_tenant (tenantId : string) (w : World) :
  table_ok QuizSetRecord.id (quiz_sets (db w)) = true ->
  questions_parse (db w) = true ->
  tenantId <> "" ->
  exists l,
    DataServiceAdapter.getPublishedQuizzes (Some tenantId) w = (Return l, w)
    /\ (forall quiz, In quiz l ->
        exists r, In r (Object_values (quiz_sets (db w)))
                  /\ QuizSetRecord.is_published r = true
                  /\ QuizSetRecord.tenant_id r = Some tenantId
                  /\ shows r quiz)
    /\ (forall r, In r (Object_values (quiz_sets (db w))) ->
        QuizSetRecord.is_published r = true ->
        QuizSetRecord.tenant_id r = Some tenantId ->
        exists quiz, In quiz l /\ shows r quiz).
Proof.
  intros Hok Hp Hne.
  destruct (getPublishedQuizzes_reads w Hok Hp) as [all [Hall HF]].
  unfold DataServiceAdapter.getPublishedQuizzes, bind. rewrite Hall.
  assert (Ht : truthy tenantId = true)
    by (unfold truthy; now rewrite negb_true_iff, String.eqb_neq).
  rewrite Ht. eexists. split; [reflexivity|]. split.
  - intros quiz Hin. apply filter_In in Hin. destruct Hin as [Hin Hten].
    destruct (Forall2_In_right _ HF Hin) as [r [Hr Hs]].
    apply (Permutation_in _ (Array_sort_perm _ _)) in Hr.
    apply filter_In in Hr. destruct Hr as [Hr Hpub].
    exists r. repeat split; try assumption; try apply Hs.
    destruct Hs as (_ & _ & _ & _ & Htid & _). rewrite Htid in Hten.
    destruct (QuizSetRecord.tenant_id r) as [s|]; cbn in Hten; [|discriminate].
    apply String.eqb_eq in Hten. now subst.
  - intros r Hr Hpub Hten.
    assert (Hin : In r (Array_sort
                          (LocalDatabaseService.newest_first QuizSetRecord.updated_at)
                          (filter QuizSetRecord.is_published
                             (Object_values (quiz_sets (db w)))))).
    { apply (Permutation_in _ (Permutation_sym (Array_sort_perm _ _))).
      apply filter_In. now split. }
    destruct (Forall2_In_left _ HF Hin) as [quiz [Hq Hs]].
    exists quiz. split; [|exact Hs]. apply filter_In. split; [exact Hq|].
    destruct Hs as (_ & _ & _ & _ & Htid & _). rewrite Htid, Hten. cbn.
    apply String.eqb_refl.
Qed.

(** X12.  What a tenant sees.  On a store that keeps its invariant,
    [getPublishedQuizzes(tenantId)] with a non-empty tenant id returns
    exactly the published quiz sets of that tenant: every quiz returned
    shows a published row of the tenant, and every published row of the
    tenant is shown.  Nothing is changed. *)
Theorem getPublishedQuizzes_of_tenant (tenantId : string) (w : World) :
  table_ok QuizSetRecord.id (quiz_sets (db w)) = true ->
  questions_parse (db w) = true ->
  tenantId <> "" ->
  exists l,
    DataServiceAdapter.getPublishedQuizzes (Some tenantId) w = (Return l, w)
    /\ (forall quiz, In quiz l ->
        exists r, In r (Object_values (quiz_sets (db w)))
                  /\ QuizSetRecord.is_published r = true
                  /\ QuizSetRecord.tenant_id r = Some tenantId
                  /\ shows r quiz)
    /\ (forall r, In r (Object_values (quiz_sets (db w))) ->
        QuizSetRecord.is_published r = true ->
        QuizSetRecord.tenant_id r = Some tenantId ->
        exists quiz, In quiz l /\ shows r quiz).
Proof. apply published_of_tenant. Qed.

(** The row of a quiz set after [publishQuiz] or [unpublishQuiz]. *)
Definition published_as (flag : bool) (now : string) (r : QuizSetRecord.t)
  : QuizSetRecord.t :=
  QuizSetRecord.mk (QuizSetRecord.id r) (QuizSetRecord.name r)
    (QuizSetRecord.description r) flag (QuizSetRecord.tenant_id r)
    (QuizSetRecord.created_by r) (QuizSetRecord.created_at r) now.

(** The world after [updateQuizSet] has rewritten the row under [id]. *)
Definition after_publication (flag : bool) (id : string) (r : QuizSetRecord.t)
    (w : World) : World :=
  mkWorld
    (LocalDatabaseService.stamped (Date_toISOString (S (clock w)))
       (with_quiz_sets
          (tbl_set id (published_as flag (Date_toISOString (clock w)) r)
             (quiz_sets (db w))) (db w)))
    (S (S (clock w))) (entropy w).

Lemma set_published_run flag id w r :
  tbl_get id (quiz_sets (db w)) = Some r ->
  questions_parse (db w) = true ->
  exists quiz,
    LocalDatabaseService.updateQuizSet id (QuizSetUpdates.mk None None (Some flag)) w
    = (Return (Some quiz), after_publication flag id r w).
Proof.
  intros Hget Hp. unfold LocalDatabaseService.updateQuizSet. run. rewrite Hget.
  run.
  match goal with
  | |- exists quiz, LocalDatabaseService.getQuizSetById _ ?w1 = _ =>
      destruct (@getQuizSetById_shows id w1
                  (published_as flag (Date_toISOString (clock w)) r))
        as [quiz [Hq _]]
  end.
  - exact Hp.
  - cbn. apply tbl_get_set_same.
  - exists quiz. exact Hq.
Qed.

Lemma set_published_absent id updates w :
  tbl_get id (quiz_sets (db w)) = None ->
  LocalDatabaseService.updateQuizSet id updates w = (Return None, w).
Proof.
  intros H. unfold LocalDatabaseService.updateQuizSet. run. now rewrite H.
Qed.

Lemma In_values_set (T : Type) (t : DatabaseTable T) k v :
  In v (Object_values (tbl_set k v t)).
Proof.
  apply In_Object_values. exists k. apply tbl_get_In, tbl_get_set_same.
Qed.

(** X13.  Publication.  [publishQuiz] and [unpublishQuiz] return [false] on an id
    that no quiz set has and that is not the name of a member of
    [Object.prototype], and leave the world as it was.  On a store that
    keeps its invariant, publishing a quiz set of a tenant returns [true]
    and puts it among the published quizzes of that tenant; unpublishing it
    returns [true] and takes it out again.  No question is touched. *)
Theorem publishQuiz_shows_quiz_to_its_tenant
    (id tenantId : string) (w : World) :
  (tbl_get id (quiz_sets (db w)) = None ->
   Object_prototype_member id = false ->
   DataServiceAdapter.publishQuiz id w = (Return false, w)
   /\ DataServiceAdapter.unpublishQuiz id w = (Return false, w))
  /\ (forall r,
      table_ok QuizSetRecord.id (quiz_sets (db w)) = true ->
      questions_parse (db w) = true ->
      tbl_get id (quiz_sets (db w)) = Some r ->
      QuizSetRecord.tenant_id r = Some tenantId ->
      tenantId <> "" ->
      exists w1 l1 w2 l2,
        DataServiceAdapter.publishQuiz id w = (Return true, w1)
        /\ DataServiceAdapter.getPublishedQuizzes (Some tenantId) w1
           = (Return l1, w1)
        /\ In id (map QuizSet.id l1)
        /\ DataServiceAdapter.unpublishQuiz id w1 = (Return true, w2)
        /\ DataServiceAdapter.getPublishedQuizzes (Some tenantId) w2
           = (Return l2, w2)
        /\ ~ In id (map QuizSet.id l2)
        /\ quiz_questions (db w2) = quiz_questions (db w)).
Proof.
  split.
  - intros H _. unfold DataServiceAdapter.publishQuiz,
      DataServiceAdapter.unpublishQuiz, LocalDatabaseService.publishQuiz,
      LocalDatabaseService.unpublishQuiz, bind.
    rewrite !set_published_absent by exact H. split; reflexivity.
  - intros r Hok Hp Hget Hten Hne.
    assert (Hid : QuizSetRecord.id r = id)
      by (apply (table_ok_id _ _ _ _ Hok), tbl_get_In, Hget).
    (* publish *)
    destruct (set_published_run true id w Hget Hp) as [q1 Hrun1].
    set (w1 := after_publication true id r w) in *.
    set (r1 := published_as true (Date_toISOString (clock w)) r).
    assert (Hok1 : table_ok QuizSetRecord.id (quiz_sets (db w1)) = true)
      by (cbn; apply table_ok_set; [exact Hok | exact Hid]).
    assert (Hp1 : questions_parse (db w1) = true) by exact Hp.
    assert (Hget1 : tbl_get id (quiz_sets (db w1)) = Some r1)
      by (cbn; apply tbl_get_set_same).
    destruct (@published_of_tenant tenantId w1 Hok1 Hp1 Hne)
      as [l1 [Hl1 [_ Hall1]]].
    destruct (Hall1 r1) as [quiz1 [Hin1 Hs1]];
      [cbn; apply In_values_set | reflexivity | exact Hten |].
    (* unpublish *)
    destruct (set_published_run false id w1 Hget1 Hp1) as [q2 Hrun2].
    set (w2 := after_publication false id r1 w1) in *.
    set (r2 := published_as false (Date_toISOString (clock w1)) r1).
    assert (Hok2 : table_ok QuizSetRecord.id (quiz_sets (db w2)) = true)
      by (cbn; apply table_ok_set; [exact Hok1 | exact Hid]).
    assert (Hp2 : questions_parse (db w2) = true) by exact Hp.
    assert (Hget2 : tbl_get id (quiz_sets (db w2)) = Some r2)
      by (cbn; apply tbl_get_set_same).
    destruct (@published_of_tenant tenantId w2 Hok2 Hp2 Hne)
      as [l2 [Hl2 [Hsound2 _]]].
    exists w1, l1, w2, l2.
    split.
    { unfold DataServiceAdapter.publishQuiz, LocalDatabaseService.publishQuiz,
        bind. now rewrite Hrun1. }
    split; [exact Hl1|]. split.
    { apply in_map_iff. exists quiz1. split; [|exact Hin1].
      destruct Hs1 as [Hs1 _]. rewrite Hs1. exact Hid. }
    split.
    { unfold DataServiceAdapter.unpublishQuiz,
        LocalDatabaseService.unpublishQuiz, bind. now rewrite Hrun2. }
    split; [exact Hl2|]. split; [|reflexivity].
    intros Hin. apply in_map_iff in Hin. destruct Hin as [quiz [Hqid Hin]].
    destruct (Hsound2 quiz Hin) as [r' [Hr' [Hpub [_ Hs]]]].
    pose proof (@rows_under_their_id _ _ _ _ Hok2 Hr') as Hrow.
    destruct Hs as [Hs _]. rewrite <- Hs, Hqid, Hget2 in Hrow.
    injection Hrow as <-. discriminate Hpub.
Qed.

End Publication.

(* ===================================================================== *)
(** * Attempts: saving, counting, deleting, listing *)
(* ===================================================================== *)

Section Attempts.
Context {rt : JsRuntime}.

(** The row [saveTestResult] writes. *)
Definition saved_attempt (result : NewTestResult.t) (w : World)
  : UserAttemptRecord.t :=
  UserAttemptRecord.mk (Math_random_id (entropy w))
    (NewTestResult.userId result) (NewTestResult.tenantId result)
    (LocalDatabaseService.attributed_quiz_set (db w) result)
    (NewTestResult.score result) (NewTestResult.totalQuestions result)
    (NewTestResult.percentage result) (NewTestResult.timeRemaining result)
    (NewTestResult.timeTaken result) (NewTestResult.completedAt result)
    (LocalDatabaseService.or_default (NewTestResult.quizType result)).

(** The world after [saveTestResult]. *)
Definition after_save (result : NewTestResult.t) (w : World) : World :=
  mkWorld
    (LocalDatabaseService.stamped (Date_toISOString (clock w))
       (with_user_attempts
          (tbl_set (Math_random_id (entropy w)) (saved_attempt result w)
             (user_attempts (db w))) (db w)))
    (S (clock w)) (S (entropy w)).

Lemma saveTestResult_run result w :
  exists saved,
    DataServiceAdapter.saveTestResult result w = (Return saved, after_save result w)
    /\ TestResult.id saved = Math_random_id (entropy w).
Proof.
  unfold DataServiceAdapter.saveTestResult, LocalDatabaseService.saveTestResult.
  run. eexists. split; reflexivity.
Qed.

(** The matching attempts, as the three readers filter them. *)
Definition of_user_at (u q : string) (a : UserAttemptRecord.t) : bool :=
  (UserAttemptRecord.user_id a =? u) && (UserAttemptRecord.quiz_set_id a =? q).

Definition at_quiz (q : string) (a : UserAttemptRecord.t) : bool :=
  UserAttemptRecord.quiz_set_id a =? q.

(** X14.  The best score covers the attempt just saved: after [saveTestResult],
    [getUserBestScoreForQuiz] for the user and the quiz set the attempt was
    attributed to is not [null] and is at least the percentage saved. *)
Theorem saveTestResult_then_best_score (result : NewTestResult.t) (w : World) :
  exists saved w1 best,
    DataServiceAdapter.saveTestResult result w = (Return saved, w1)
    /\ DataServiceAdapter.getUserBestScoreForQuiz (NewTestResult.userId result)
         (LocalDatabaseService.attributed_quiz_set (db w) result) w1
       = (Return (Some best), w1)
    /\ (NewTestResult.percentage result <= best)%Z.
Proof.
  destruct (saveTestResult_run result w) as [saved [Hrun _]].
  exists saved, (after_save result w).
  unfold DataServiceAdapter.getUserBestScoreForQuiz,
    LocalDatabaseService.getUserBestScoreForQuiz, bind, get_db.
  set (u := NewTestResult.userId result).
  set (q := LocalDatabaseService.attributed_quiz_set (db w) result).
  fold (of_user_at u q).
  assert (Hin : In (saved_attempt result w)
                  (filter (of_user_at u q)
                     (Object_values (user_attempts (db (after_save result w)))))).
  { apply filter_In. split; [cbn; apply In_values_set|].
    unfold of_user_at. cbn. subst u q. now rewrite !String.eqb_refl. }
  destruct (filter _ _) as [|first others]; [destruct Hin|].
  eexists. split; [exact Hrun|]. split; [reflexivity|].
  destruct Hin as [->|Hin].
  - apply Math_max_ge.
  - apply Math_max_upper.
    change (NewTestResult.percentage result)
      with (UserAttemptRecord.percentage (saved_attempt result w)).
    now apply in_map.
Qed.

(** A new key goes to the end of a table. *)
Lemma tbl_set_new (T : Type) (t : DatabaseTable T) k v :
  tbl_get k t = None -> tbl_set k v t = (t ++ [(k, v)])%list.
Proof.
  induction t as [|[k0 v0] t IH]; cbn; [reflexivity|].
  destruct (k0 =? k); [discriminate|]. intros H. now rewrite IH.
Qed.

Lemma count_after_new (T : Type) (f : T -> bool) (t : DatabaseTable T) k v :
  tbl_get k t = None ->
  length (filter f (Object_values (tbl_set k v t)))
  = ((if f v then 1 else 0) + length (filter f (Object_values t)))%nat.
Proof.
  intros H. rewrite tbl_set_new by exact H. unfold Object_values.
  rewrite map_app, filter_app, length_app. cbn.
  destruct (f v); cbn; lia.
Qed.

(** X15.  One attempt more.  When the generated id is not yet a key of
    [user_attempts], [saveTestResult] raises by one the number of attempts
    at the quiz set the attempt is attributed to, for the user and for the
    quiz set, and leaves the count of every other quiz set as it was. *)
Theorem saveTestResult_counts_one_attempt (result : NewTestResult.t) (w : World) :
  tbl_get (Math_random_id (entropy w)) (user_attempts (db w)) = None ->
  let u := NewTestResult.userId result in
  let q := LocalDatabaseService.attributed_quiz_set (db w) result in
  exists saved w1 n m,
    DataServiceAdapter.saveTestResult result w = (Return saved, w1)
    /\ DataServiceAdapter.getUserQuizSetAttempts u q w = (Return n, w)
    /\ DataServiceAdapter.getUserQuizSetAttempts u q w1 = (Return (S n), w1)
    /\ DataServiceAdapter.getQuizSetAttempts q w = (Return m, w)
    /\ DataServiceAdapter.getQuizSetAttempts q w1 = (Return (S m), w1)
    /\ (forall q', q' <> q ->
        fst (DataServiceAdapter.getQuizSetAttempts q' w1)
        = fst (DataServiceAdapter.getQuizSetAttempts q' w)).
Proof.
  intros Hnew u q.
  destruct (saveTestResult_run result w) as [saved [Hrun _]].
  exists saved, (after_save result w).
  unfold DataServiceAdapter.getUserQuizSetAttempts,
    DataServiceAdapter.getQuizSetAttempts,
    LocalDatabaseService.getUserQuizSetAttempts,
    LocalDatabaseService.getQuizSetAttempts, bind, get_db, ret.
  cbn [fst after_save db user_attempts LocalDatabaseService.stamped
       with_metadata with_user_attempts].
  do 2 eexists. split; [exact Hrun|]. split; [reflexivity|].
  split; [|split; [reflexivity|split]].
  - rewrite count_after_new by exact Hnew. cbn [saved_attempt
      UserAttemptRecord.user_id UserAttemptRecord.quiz_set_id].
    subst u q. now rewrite !String.eqb_refl.
  - rewrite count_after_new by exact Hnew. cbn [saved_attempt
      UserAttemptRecord.quiz_set_id].
    subst q. now rewrite String.eqb_refl.
  - intros q' Hq'. rewrite count_after_new by exact Hnew. cbn [saved_attempt
      UserAttemptRecord.quiz_set_id].
    fold q. apply not_eq_sym in Hq'. apply String.eqb_neq in Hq'.
    now rewrite Hq'.
Qed.

(** X16.  The three readers of the attempts agree: a user has no best score at a
    quiz set exactly when they have no attempt at it, and a user never has
    more attempts at a quiz set than the quiz set has in all.  None of them
    changes the store. *)
Theorem attempt_counts_agree (u q : string) (w : World) :
  exists n m,
    DataServiceAdapter.getUserQuizSetAttempts u q w = (Return n, w)
    /\ DataServiceAdapter.getQuizSetAttempts q w = (Return m, w)
    /\ (n <= m)%nat
    /\ (DataServiceAdapter.getUserBestScoreForQuiz u q w = (Return None, w)
        <-> n = 0%nat).
Proof.
  unfold DataServiceAdapter.getUserQuizSetAttempts,
    DataServiceAdapter.getQuizSetAttempts,
    DataServiceAdapter.getUserBestScoreForQuiz,
    LocalDatabaseService.getUserQuizSetAttempts,
    LocalDatabaseService.getQuizSetAttempts,
    LocalDatabaseService.getUserBestScoreForQuiz, bind, get_db, ret.
  do 2 eexists. split; [reflexivity|]. split; [reflexivity|]. split.
  - induction (Object_values (user_attempts (db w))) as [|a l IH];
      [apply Nat.le_refl|].
    cbn [filter].
    destruct (UserAttemptRecord.quiz_set_id a =? q),
      (UserAttemptRecord.user_id a =? u); cbn [andb length]; lia.
  - destruct (filter _ _) as [|first others]; cbn [length].
    + split; reflexivity.
    + split; intros H; discriminate H.
Qed.

(** X17.  [deleteTestResult] returns [false] on an id that no attempt has and
    leaves the world as it was, unless the id is the name of a member of
    [Object.prototype]: the test of [this.db.user_attempts[id]] then passes
    on the inherited member, and the call returns [true] with every attempt
    in place.  On an attempt that exists it returns [true], the attempt is
    gone, every other attempt is where it was, and a second call (on an id
    that names no member of [Object.prototype]) returns [false]. *)
Theorem deleteTestResult_removes_one (id : string) (w : World) :
  match tbl_get id (user_attempts (db w)) with
  | None =>
      if Object_prototype_member id
      then exists w1,
             LocalDatabaseService.deleteTestResult id w = (Return true, w1)
             /\ user_attempts (db w1) = user_attempts (db w)
             /\ users (db w1) = users (db w)
      else LocalDatabaseService.deleteTestResult id w = (Return false, w)
  | Some _ =>
      exists w1,
        LocalDatabaseService.deleteTestResult id w = (Return true, w1)
        /\ tbl_get id (user_attempts (db w1)) = None
        /\ (forall k, k <> id ->
            tbl_get k (user_attempts (db w1)) = tbl_get k (user_attempts (db w)))
        /\ users (db w1) = users (db w)
        /\ (Object_prototype_member id = false ->
            LocalDatabaseService.deleteTestResult id w1 = (Return false, w1))
  end.
Proof.
  destruct (tbl_get id (user_attempts (db w))) as [a|] eqn:E.
  - unfold LocalDatabaseService.deleteTestResult at 1. run.
    rewrite (tbl_truthy_own _ _ E). run.
    eexists. split; [reflexivity|].
    assert (Hgone : tbl_get id (tbl_delete id (user_attempts (db w))) = None)
      by apply tbl_get_delete_same.
    split; [exact Hgone|]. split.
    + intros k Hk. cbn. apply tbl_get_delete_other. congruence.
    + split; [reflexivity|]. intros Hname.
      unfold LocalDatabaseService.deleteTestResult. run.
      cbn [user_attempts LocalDatabaseService.stamped with_metadata
           with_user_attempts].
      now rewrite (tbl_truthy_absent _ _ Hgone Hname).
  - destruct (Object_prototype_member id) eqn:Hname.
    + unfold LocalDatabaseService.deleteTestResult. run.
      rewrite (tbl_truthy_inherited _ _ E Hname). run.
      eexists. split; [reflexivity|]. cbn. split; [|reflexivity].
      apply tbl_delete_absent. now apply tbl_get_None.
    + unfold LocalDatabaseService.deleteTestResult. run.
      now rewrite (tbl_truthy_absent _ _ E Hname).
Qed.


End Attempts.

(* ===================================================================== *)
(** * Statistics *)
(* ===================================================================== *)

Section StatisticsFacts.
Context {rt : JsRuntime} {number : Type} {arith : JsNumber number}.

(** The four bands of the distribution split any list of attempts. *)
Lemma bands_split (attempts : list UserAttemptRecord.t) :
  (length (filter (fun a => (UserAttemptRecord.percentage a >=? 90)%Z) attempts)
   + length (filter (fun a => (UserAttemptRecord.percentage a >=? 70)%Z
                              && (UserAttemptRecord.percentage a <? 90)%Z) attempts)
   + length (filter (fun a => (UserAttemptRecord.percentage a >=? 50)%Z
                              && (UserAttemptRecord.percentage a <? 70)%Z) attempts)
   + length (filter (fun a => (UserAttemptRecord.percentage a <? 50)%Z) attempts)
   = length attempts)%nat.
Proof.
  induction attempts as [|a l IH]; [reflexivity|]. cbn [filter].
  set (p := UserAttemptRecord.percentage a). rewrite !Z.geb_leb in *.
  destruct (Z.leb_spec 90 p), (Z.leb_spec 70 p), (Z.ltb_spec p 90),
    (Z.leb_spec 50 p), (Z.ltb_spec p 70), (Z.ltb_spec p 50);
    cbn [andb length]; lia.
Qed.

(** [[...new Set(l)]] has no more members than [l] has elements, and has
    one as soon as [l] has one. *)
Lemma Array_from_Set_length (l : list string) :
  (length (LocalDatabaseService.Array_from_Set l) <= length l)%nat
  /\ (l <> [] -> LocalDatabaseService.Array_from_Set l <> []).
Proof.
  unfold LocalDatabaseService.Array_from_Set.
  assert (H : forall members,
             (length members
              <= length (fold_left
                           (fun members x =>
                              if existsb (String.eqb x) members then members
                              else (members ++ [x])%list) l members)
              <= length members + length l)%nat
             /\ (l <> [] ->
                 fold_left
                   (fun members x =>
                      if existsb (String.eqb x) members then members
                      else (members ++ [x])%list) l members <> [])).
  { induction l as [|x l IH]; intros members; cbn [fold_left length].
    - split; [lia | congruence].
    - destruct (existsb (String.eqb x) members) eqn:E.
      + destruct (IH members) as [Hlen _]. split; [lia|].
        intros _ Hnil. rewrite Hnil in Hlen. cbn in Hlen.
        destruct members; [discriminate E | cbn in Hlen; lia].
      + destruct (IH (members ++ [x])%list) as [Hlen _].
        rewrite length_app in Hlen. cbn in Hlen. split; [lia|].
        intros _ Hnil. rewrite Hnil in Hlen. cbn in Hlen. lia. }
  destruct (H []) as [Hlen Hne]. cbn in Hlen. split; [lia | exact Hne].
Qed.

(** The attempts [getTestStatistics] looks at. *)
Definition attempts_in_scope (tenantId : option string) (d : DatabaseSchema)
  : list UserAttemptRecord.t :=
  match tenantId with
  | Some t =>
      if truthy t
      then filter (fun attempt => opt_eqb (UserAttemptRecord.tenant_id attempt) t)
                  (Object_values (user_attempts d))
      else Object_values (user_attempts d)
  | None => Object_values (user_attempts d)
  end.

(** X19.  The statistics of the dashboard.  [getTestStatistics] reads the store
    without changing it.  [totalTests] is the number of attempts in scope
    (those of the tenant for a non-empty tenant id, all of them otherwise);
    the four bands of the distribution add up to [totalTests]; there are
    never more unique users than tests, and none exactly when there is no
    test. *)
Theorem getTestStatistics_adds_up (tenantId : option string) (w : World) :
  exists s,
    DataServiceAdapter.getTestStatistics tenantId w = (Return s, w)
    /\ TestStatistics.totalTests s = length (attempts_in_scope tenantId (db w))
    /\ (ScoreDistribution.excellent (TestStatistics.scoreDistribution s)
        + ScoreDistribution.good (TestStatistics.scoreDistribution s)
        + ScoreDistribution.average (TestStatistics.scoreDistribution s)
        + ScoreDistribution.poor (TestStatistics.scoreDistribution s)
        = TestStatistics.totalTests s)%nat
    /\ (TestStatistics.uniqueUsers s <= TestStatistics.totalTests s)%nat
    /\ (TestStatistics.uniqueUsers s = 0%nat <-> TestStatistics.totalTests s = 0%nat).
Proof.
  unfold DataServiceAdapter.getTestStatistics,
    LocalDatabaseService.getTestStatistics, bind, get_db, ret.
  fold (attempts_in_scope tenantId (db w)).
  set (attempts := attempts_in_scope tenantId (db w)).
  eexists. split; [reflexivity|].
  cbn [TestStatistics.totalTests TestStatistics.uniqueUsers
       TestStatistics.scoreDistribution ScoreDistribution.excellent
       ScoreDistribution.good ScoreDistribution.average ScoreDistribution.poor].
  split; [reflexivity|]. split; [apply bands_split|].
  destruct (Array_from_Set_length (map UserAttemptRecord.user_id attempts))
    as [Hlen Hne].
  rewrite length_map in Hlen. split; [exact Hlen|]. split.
  - intros H0. destruct attempts as [|a l]; [reflexivity|]. exfalso.
    apply Hne; [discriminate|]. now apply length_zero_iff_nil.
  - intros H0. lia.
Qed.

End StatisticsFacts.

(* ===================================================================== *)
(** * Restoring a backup that is not one *)
(* ===================================================================== *)

Section Restore.
Context {rt : JsRuntime}.

(** The value has a truthy property [k]. *)
Definition has (importedDb : json) (k : string) : Prop :=
  exists l v, importedDb = JObj l /\ Blob.member k l = Some v
              /\ json_truthy v = true.

Lemma validate_accepts importedDb w :
  LocalDatabaseService.validate importedDb w = (Return tt, w) ->
  has importedDb "metadata" /\ has importedDb "users" /\ has importedDb "tenants".
Proof.
  unfold LocalDatabaseService.validate, has, bind, lift, throw, ret.
  destruct importedDb as [| | | | |l]; cbn; try discriminate.
  destruct (Blob.member "metadata" l) as [m|] eqn:Hm; cbn; [|discriminate].
  destruct (json_truthy m) eqn:Em; cbn; [|discriminate].
  destruct (Blob.member "users" l) as [u|] eqn:Hu; cbn; [|discriminate].
  destruct (json_truthy u) eqn:Eu; cbn; [|discriminate].
  destruct (Blob.member "tenants" l) as [t|] eqn:Ht; cbn; [|discriminate].
  destruct (json_truthy t) eqn:Et; cbn; [|discriminate].
  intros _. split; [|split]; exists l; [exists m | exists u | exists t];
    (split; [reflexivity | split; assumption]).
Qed.

Lemma validate_leaves_world importedDb w :
  snd (LocalDatabaseService.validate importedDb w) = w.
Proof.
  unfold LocalDatabaseService.validate, bind, lift, throw, ret.
  destruct importedDb as [| | | | |l]; cbn; try reflexivity.
  destruct (Blob.member "metadata" l) as [m|]; cbn; [|reflexivity].
  destruct (json_truthy m); cbn; [|reflexivity].
  destruct (Blob.member "users" l) as [u|]; cbn; [|reflexivity].
  destruct (json_truthy u); cbn; [|reflexivity].
  destruct (Blob.member "tenants" l) as [t|]; cbn; [|reflexivity].
  destruct (json_truthy t); reflexivity.
Qed.

Lemma validate_passes importedDb w :
  has importedDb "metadata" -> has importedDb "users" ->
  has importedDb "tenants" ->
  LocalDatabaseService.validate importedDb w = (Return tt, w).
Proof.
  unfold has. intros (l & m & -> & Hm & Htm) (l' & u & [= <-] & Hu & Htu)
    (l'' & t & [= <-] & Ht & Htt).
  unfold LocalDatabaseService.validate, bind, lift, throw, ret. cbn.
  rewrite Hm. cbn. rewrite Htm. cbn. rewrite Hu. cbn. rewrite Htu. cbn.
  rewrite Ht. cbn. now rewrite Htt.
Qed.

(** [importDatabase] step by step: the parse, the validation, the store. *)
Lemma importDatabase_run data w :
  DataServiceAdapter.importDatabase data w
  = match JSON_parse (TextDecoder_decode data) with
    | None => Some (Return false, w)
    | Some importedDb =>
        match fst (LocalDatabaseService.validate importedDb w) with
        | Return _ =>
            match Blob.schema_of_json importedDb with
            | Some d =>
                Some ((set_db d ;; LocalDatabaseService.saveDatabase ;; ret true) w)
            | None => None
            end
        | Throw _ => Some (Return false, w)
        end
    end.
Proof.
  unfold DataServiceAdapter.importDatabase, LocalDatabaseService.importDatabase.
  unfold bind at 1, LocalDatabaseService.JSON_parse_or_throw.
  destruct (JSON_parse (TextDecoder_decode data)) as [j|]; cbn [ret throw];
    [|reflexivity].
  unfold bind at 1. pose proof (validate_leaves_world j w) as Hw.
  destruct (LocalDatabaseService.validate j w) as [[[]|e] w1];
    cbn in Hw; subst w1; reflexivity.
Qed.

(** X20.  What [importDatabase] refuses and what it accepts.  It returns
    [false], with the world as it was, when the text of the bytes is not
    JSON, and when the value parsed lacks a truthy [metadata], [users] or
    [tenants] ([null] included).  On an object that has the three and is
    the JSON of a schema it returns [true], and the seven entity tables are
    then the imported ones.  It returns [true] on nothing but an object
    with the three, and it never throws. *)
Theorem importDatabase_accepts_only_a_database (data : list ascii) (w : World) :
  (JSON_parse (TextDecoder_decode data) = None ->
   DataServiceAdapter.importDatabase data w = Some (Return false, w))
  /\ (forall importedDb,
      JSON_parse (TextDecoder_decode data) = Some importedDb ->
      ~ (has importedDb "metadata" /\ has importedDb "users"
         /\ has importedDb "tenants") ->
      DataServiceAdapter.importDatabase data w = Some (Return false, w))
  /\ (forall importedDb d,
      JSON_parse (TextDecoder_decode data) = Some importedDb ->
      has importedDb "metadata" -> has importedDb "users" ->
      has importedDb "tenants" ->
      Blob.schema_of_json importedDb = Some d ->
      exists w',
        DataServiceAdapter.importDatabase data w = Some (Return true, w')
        /\ tenants (db w') = tenants d /\ users (db w') = users d
        /\ quiz_sets (db w') = quiz_sets d
        /\ quiz_questions (db w') = quiz_questions d
        /\ user_attempts (db w') = user_attempts d
        /\ attempt_answers (db w') = attempt_answers d
        /\ user_sessions (db w') = user_sessions d)
  /\ (forall w',
      DataServiceAdapter.importDatabase data w = Some (Return true, w') ->
      exists importedDb,
        JSON_parse (TextDecoder_decode data) = Some importedDb
        /\ has importedDb "metadata" /\ has importedDb "users"
        /\ has importedDb "tenants")
  /\ (forall e w',
      DataServiceAdapter.importDatabase data w <> Some (Throw e, w')).
Proof.
  rewrite importDatabase_run.
  destruct (JSON_parse (TextDecoder_decode data)) as [j|].
  - pose proof (validate_leaves_world j w) as Hw.
    pose proof (@validate_accepts j w) as Hacc.
    pose proof (@validate_passes j w) as Hpass.
    destruct (LocalDatabaseService.validate j w) as [[[]|e] w1] eqn:Ev;
      cbn in Hw; subst w1; cbn [fst].
    + destruct (Hacc eq_refl) as (Hm & Hu & Ht).
      split; [discriminate|]. split.
      { intros j' [= <-] Hnot. exfalso. apply Hnot. auto. }
      split.
      { intros j' d [= <-] _ _ _ ->. eexists. split; [reflexivity|].
        cbn. repeat split. }
      split.
      { intros w' _. exists j. auto. }
      intros e w'. destruct (Blob.schema_of_json j); [|discriminate].
      cbn. discriminate.
    + split; [discriminate|]. split.
      { intros j' _ _. reflexivity. }
      split.
      { intros j' d [= <-] Hm Hu Ht _. specialize (Hpass Hm Hu Ht).
        discriminate Hpass. }
      split; [discriminate | discriminate].
  - split; [reflexivity|]. split; [discriminate|]. split; [discriminate|].
    split; discriminate.
Qed.

End Restore.

(* ===================================================================== *)
(** * The first product admin *)
(* ===================================================================== *)

Section FirstProductAdmin.
Context {rt : JsRuntime}.

(** Some user row is a product admin. *)
Definition has_product_admin (d : DatabaseSchema) : bool :=
  existsb (fun u => match UserRecord.role u with
                    | ProductAdmin => true
                    | _ => false
                    end)
          (Object_values (users d)).

Lemma find_product_admin w :
  find DataServiceAdapter.is_product_admin
    (map LocalDatabaseService.user_of_record
       (Array_sort (LocalDatabaseService.newest_first UserRecord.created_at)
          (Object_values (users (db w)))))
  = None
  <-> has_product_admin (db w) = false.
Proof.
  rewrite <- existsb_find_none, existsb_mapped.
  rewrite (existsb_Permutation _ (Array_sort_perm _ _)). reflexivity.
Qed.

Definition the_email : string := "product.admin@aws-quiz.demo".

Lemma initializeDefaultData_unfold w :
  DataServiceAdapter.initializeDefaultData w
  = match find DataServiceAdapter.is_product_admin
            (map LocalDatabaseService.user_of_record
               (Array_sort (LocalDatabaseService.newest_first UserRecord.created_at)
                  (Object_values (users (db w))))) with
    | Some _ => (Return tt, w)
    | None =>
        (Return tt,
         snd (DataServiceAdapter.createUser "Product Administrator" the_email
                "wel123" ProductAdmin None w))
    end.
Proof.
  unfold DataServiceAdapter.initializeDefaultData, try_catch,
    DataServiceAdapter.getUsers, LocalDatabaseService.getUsers.
  unfold bind, get_db, ret.
  cbn [fst snd]. destruct (find _ _); [reflexivity|]. fold the_email.
  now destruct (DataServiceAdapter.createUser _ _ _ _ _ w) as [[u|e] w1].
Qed.

(** X21.  [initializeDefaultData] never throws, and running it twice is running
    it once.  When a product admin exists it changes nothing.  When none
    exists and the address product.admin@aws-quiz.demo is free it creates an
    active product admin without tenant under that address, with the
    password wel123; when the address is taken by another user the error of
    [createUser] is swallowed, nothing changes and there is still no product
    admin. *)
Theorem initializeDefaultData_ensures_a_product_admin (w : World) :
  exists w',
    DataServiceAdapter.initializeDefaultData w = (Return tt, w')
    /\ DataServiceAdapter.initializeDefaultData w' = (Return tt, w')
    /\ (has_product_admin (db w) = true -> w' = w)
    /\ (has_product_admin (db w) = false ->
        match LocalDatabaseService.find_by_email the_email (db w) with
        | Some _ => w' = w
        | None =>
            exists u,
              LocalDatabaseService.find_by_email the_email (db w') = Some u
              /\ UserRecord.role u = ProductAdmin
              /\ UserRecord.tenant_id u = None
              /\ UserRecord.status u = Active
              /\ LocalDatabaseService.verifyPassword "wel123"
                   (UserRecord.password_hash u) = true
        end).
Proof.
  assert (Hstep : forall w0,
    (has_product_admin (db w0) = true ->
     DataServiceAdapter.initializeDefaultData w0 = (Return tt, w0))
    /\ (has_product_admin (db w0) = false ->
        forall u, LocalDatabaseService.find_by_email the_email (db w0) = Some u ->
        DataServiceAdapter.initializeDefaultData w0 = (Return tt, w0))
    /\ (has_product_admin (db w0) = false ->
        LocalDatabaseService.find_by_email the_email (db w0) = None ->
        exists w1 u,
          DataServiceAdapter.initializeDefaultData w0 = (Return tt, w1)
          /\ LocalDatabaseService.find_by_email the_email (db w1) = Some u
          /\ In u (Object_values (users (db w1)))
          /\ UserRecord.role u = ProductAdmin
          /\ UserRecord.tenant_id u = None
          /\ UserRecord.status u = Active
          /\ LocalDatabaseService.verifyPassword "wel123"
               (UserRecord.password_hash u) = true)).
  { intros w0. rewrite !initializeDefaultData_unfold.
    pose proof (find_product_admin w0) as Hfind.
    destruct (find DataServiceAdapter.is_product_admin _) as [admin|] eqn:E.
    - split; [reflexivity|]. split.
      + intros Hno. apply Hfind in Hno. discriminate.
      + intros Hno. apply Hfind in Hno. discriminate.
    - split.
      + intros Hyes. rewrite (proj1 Hfind eq_refl) in Hyes. discriminate.
      + unfold DataServiceAdapter.createUser. cbn [truthy_opt].
        split.
        * intros _ u Hu. unfold LocalDatabaseService.createUser.
          run. now rewrite Hu.
        * intros _ Hfree.
          destruct (store_createUser_fresh "Product Administrator" the_email
                      "wel123" ProductAdmin None w0 Hfree) as [w1 [Hrun Hrow]].
          rewrite Hrun.
          exists w1. eexists. split; [reflexivity|].
          assert (Hin : In (UserRecord.mk (Math_random_id (entropy w0))
                              "Product Administrator" the_email
                              (LocalDatabaseService.hashPassword "wel123")
                              ProductAdmin None Active
                              (Date_toISOString (clock w0)))
                          (Object_values (users (db w1)))).
          { apply In_Object_values. eexists. apply tbl_get_In. exact Hrow. }
          assert (Hf1 : LocalDatabaseService.find_by_email the_email (db w1)
                        = Some (UserRecord.mk (Math_random_id (entropy w0))
                                  "Product Administrator" the_email
                                  (LocalDatabaseService.hashPassword "wel123")
                                  ProductAdmin None Active
                                  (Date_toISOString (clock w0)))).
          { revert Hrun. unfold LocalDatabaseService.createUser. run.
            rewrite Hfree. run. intros [= <-].
            unfold LocalDatabaseService.find_by_email in *.
            cbn [db users LocalDatabaseService.stamped with_metadata with_users].
            apply find_set_new; [reflexivity | exact Hfree]. }
          split; [exact Hf1|]. split; [exact Hin|].
          repeat split. }
  destruct (has_product_admin (db w)) eqn:Hadmin.
  - destruct (Hstep w) as [Hyes _]. exists w.
    split; [now apply Hyes|]. split; [now apply Hyes|].
    split; [reflexivity | discriminate].
  - destruct (LocalDatabaseService.find_by_email the_email (db w)) as [u|] eqn:Hf.
    + destruct (Hstep w) as [_ [Htaken _]]. exists w.
      split; [now apply (Htaken Hadmin u)|].
      split; [now apply (Htaken Hadmin u)|].
      split; [discriminate | reflexivity].
    + destruct (Hstep w) as [_ [_ Hnew]].
      destruct (Hnew Hadmin Hf) as [w1 [u (Hrun & Hf1 & Hin & Hrole & Hrest)]].
      exists w1. split; [exact Hrun|]. split.
      * destruct (Hstep w1) as [Hyes _]. apply Hyes.
        unfold has_product_admin. apply existsb_exists. exists u.
        split; [exact Hin | now rewrite Hrole].
      * split; [discriminate|]. intros _. exists u. split; [exact Hf1|].
        split; [exact Hrole | exact Hrest].
Qed.

End FirstProductAdmin.

(* ===================================================================== *)
(** * The invariant, method by method *)
(* ===================================================================== *)

Section InvariantKept.
Context {rt : JsRuntime} {ids : JsIdentifiers}.

Lemma keeps_template_id stem : keeps (DataServiceAdapter.template_id stem).
Proof. intros w Hw. exact Hw. Qed.

Lemma keeps_adapter_createTenant mysql name description createdBy status :
  keeps (DataServiceAdapter.createTenant mysql name description createdBy status).
Proof.
  unfold DataServiceAdapter.createTenant.
  apply keeps_bind; [apply keeps_template_id | intros id].
  apply keeps_bind; [apply keeps_new_Date | intros createdAt].
  apply keeps_bind; [apply keeps_new_Date | intros updatedAt].
  destruct mysql; [apply keeps_ret|].
  apply keeps_bind; [apply keeps_createTenant | intros created; apply keeps_ret].
Qed.

Lemma keeps_createTenantAndAdmin mysql adminName adminEmail adminPassword tenantName :
  keeps (DataServiceAdapter.createTenantAndAdmin mysql adminName adminEmail
           adminPassword tenantName).
Proof.
  unfold DataServiceAdapter.createTenantAndAdmin.
  apply keeps_bind; [apply keeps_getUsers | intros existingUsers].
  destruct (existsb _ existingUsers); [apply keeps_throw|].
  apply keeps_bind; [apply keeps_adapter_createTenant | intros tenant].
  apply keeps_bind; [apply keeps_template_id | intros id].
  apply keeps_bind; [apply keeps_new_Date | intros createdAt].
  apply keeps_bind; [apply keeps_createUserWithStatus | intros u; apply keeps_ret].
Qed.

Lemma keeps_activateTenant id : keeps (DataServiceAdapter.activateTenant id).
Proof.
  unfold DataServiceAdapter.activateTenant.
  apply keeps_bind; [apply keeps_new_Date | intros now].
  apply keeps_bind; [apply keeps_updateTenant | intros u; apply keeps_ret].
Qed.

Lemma keeps_deactivateTenant id : keeps (DataServiceAdapter.deactivateTenant id).
Proof.
  unfold DataServiceAdapter.deactivateTenant.
  apply keeps_bind; [apply keeps_new_Date | intros now].
  apply keeps_bind; [apply keeps_updateTenant | intros u; apply keeps_ret].
Qed.

Lemma keeps_try_catch (A : Type) (m : M A) (h : Error -> M A) :
  keeps m -> (forall e, keeps (h e)) -> keeps (try_catch m h).
Proof.
  intros Hm Hh w Hw. unfold try_catch. specialize (Hm w Hw).
  destruct (m w) as [[a|e] w1]; cbn [snd] in *; [exact Hm | now apply Hh].
Qed.

Lemma keeps_initializeDefaultData : keeps DataServiceAdapter.initializeDefaultData.
Proof.
  unfold DataServiceAdapter.initializeDefaultData.
  apply keeps_try_catch; [|intros e; apply keeps_ret].
  apply keeps_bind; [apply keeps_getUsers | intros users].
  destruct (find _ users); [apply keeps_ret|].
  apply keeps_bind; [apply keeps_adapter_createUser | intros u; apply keeps_ret].
Qed.

(** X22.  The store keeps its invariant.  From a store in which every entity
    table is a JS object whose rows sit under their own id and every JSON
    text held by a row parses, each method of [LocalDatabaseService] that
    writes leads to such a store again, whatever its arguments and however
    it ends. *)
Theorem store_keeps_the_invariant (w : World) :
  well_formed (db w) ->
  (forall tenant,
      well_formed (db (snd (LocalDatabaseService.createTenant tenant w))))
  /\ (forall id updates,
      well_formed (db (snd (LocalDatabaseService.updateTenant id updates w))))
  /\ (forall id, well_formed (db (snd (LocalDatabaseService.deleteTenant id w))))
  /\ (forall name email password role tenantId,
      well_formed
        (db (snd (LocalDatabaseService.createUser name email password role
                    tenantId w))))
  /\ (forall user password,
      well_formed
        (db (snd (LocalDatabaseService.createUserWithStatus user password w))))
  /\ (forall userId status,
      well_formed (db (snd (LocalDatabaseService.updateUserStatus userId status w))))
  /\ (forall email newPassword,
      well_formed (db (snd (LocalDatabaseService.resetPassword email newPassword w))))
  /\ (forall email password,
      well_formed (db (snd (LocalDatabaseService.loginUser email password w))))
  /\ well_formed (db (snd (LocalDatabaseService.logoutUser w)))
  /\ (forall name description questions createdBy tenantId,
      well_formed
        (db (snd (LocalDatabaseService.createQuizSet name description questions
                    createdBy tenantId w))))
  /\ (forall id updates,
      well_formed (db (snd (LocalDatabaseService.updateQuizSet id updates w))))
  /\ (forall id, well_formed (db (snd (LocalDatabaseService.publishQuiz id w))))
  /\ (forall id, well_formed (db (snd (LocalDatabaseService.unpublishQuiz id w))))
  /\ (forall id, well_formed (db (snd (LocalDatabaseService.deleteQuizSet id w))))
  /\ (forall result,
      well_formed (db (snd (LocalDatabaseService.saveTestResult result w))))
  /\ (forall id, well_formed (db (snd (LocalDatabaseService.deleteTestResult id w)))).
Proof.
  intros Hw.
  repeat match goal with |- _ /\ _ => split end; intros.
  - now apply keeps_createTenant.
  - now apply keeps_updateTenant.
  - now apply keeps_deleteTenant.
  - now apply keeps_createUser.
  - now apply keeps_createUserWithStatus.
  - now apply keeps_updateUserStatus.
  - now apply keeps_resetPassword.
  - now apply keeps_loginUser.
  - now apply keeps_logoutUser.
  - now apply keeps_createQuizSet.
  - now apply keeps_updateQuizSet.
  - now apply keeps_publishQuiz.
  - now apply keeps_unpublishQuiz.
  - now apply keeps_deleteQuizSet.
  - now apply keeps_saveTestResult.
  - now apply keeps_deleteTestResult.
Qed.

(** X23.  The adapter keeps the invariant of the store: registration, approval,
    rejection, activation, the deletion of a tenant with its cascade, the
    creation of users, login and the first product admin all lead from a
    well-formed store to a well-formed store, however they end. *)
Theorem adapter_keeps_the_invariant (w : World) :
  well_formed (db w) ->
  (forall mysql name description createdBy status,
      well_formed
        (db (snd (DataServiceAdapter.createTenant mysql name description
                    createdBy status w))))
  /\ (forall mysql adminName adminEmail adminPassword tenantName,
      well_formed
        (db (snd (DataServiceAdapter.createTenantAndAdmin mysql adminName
                    adminEmail adminPassword tenantName w))))
  /\ (forall id updates,
      well_formed (db (snd (DataServiceAdapter.updateTenant id updates w))))
  /\ (forall tenantId approvedBy,
      well_formed (db (snd (DataServiceAdapter.approveTenant tenantId approvedBy w))))
  /\ (forall tenantId rejectedBy reason,
      well_formed
        (db (snd (DataServiceAdapter.rejectTenant tenantId rejectedBy reason w))))
  /\ (forall id, well_formed (db (snd (DataServiceAdapter.activateTenant id w))))
  /\ (forall id, well_formed (db (snd (DataServiceAdapter.deactivateTenant id w))))
  /\ (forall id, well_formed (db (snd (DataServiceAdapter.deleteTenant id w))))
  /\ (forall name email password role tenantId,
      well_formed
        (db (snd (DataServiceAdapter.createUser name email password role
                    tenantId w))))
  /\ (forall email password,
      well_formed (db (snd (DataServiceAdapter.loginUser email password w))))
  /\ (forall result,
      well_formed (db (snd (DataServiceAdapter.saveTestResult result w))))
  /\ well_formed (db (snd (DataServiceAdapter.initializeDefaultData w))).
Proof.
  intros Hw.
  repeat match goal with |- _ /\ _ => split end; intros.
  - now apply keeps_adapter_createTenant.
  - now apply keeps_createTenantAndAdmin.
  - now apply keeps_adapter_updateTenant.
  - now apply keeps_approveTenant.
  - now apply keeps_rejectTenant.
  - now apply keeps_activateTenant.
  - now apply keeps_deactivateTenant.
  - now apply keeps_adapter_deleteTenant.
  - now apply keeps_adapter_createUser.
  - now apply keeps_adapter_loginUser.
  - now apply keeps_adapter_saveTestResult.
  - now apply keeps_initializeDefaultData.
Qed.

End InvariantKept.

(* ===================================================================== *)
(** * A new quiz set and its questions *)
(* ===================================================================== *)

Section NewQuizSet.
Context {rt : JsRuntime}.

(** The row [createQuizSet] writes for the question at index [i]. *)
Definition question_row (quizSetId : string) (i : Z) (questionId : string)
    (question : QuizQuestion.t) : QuizQuestionRecord.t :=
  QuizQuestionRecord.mk questionId quizSetId
    (QuizQuestion.imageurl question) (QuizQuestion.imagedesc question)
    (QuizQuestion.question question) (QuizQuestion.choice_type question)
    (JSON_stringify (QuizQuestion.options question))
    (JSON_stringify (QuizQuestion.correct_answer question)) i.

(** The rows of the questions from index [i] on, the first one under the
    [n]-th generated id. *)
Fixpoint question_rows (quizSetId : string) (i : Z) (n : nat)
    (questions : list QuizQuestion.t) : list QuizQuestionRecord.t :=
  match questions with
  | [] => []
  | question :: others =>
      question_row quizSetId i (Math_random_id n) question
      :: question_rows quizSetId (i + 1) (S n) others
  end.

(** The table of questions after the loop. *)
Fixpoint inserted (quizSetId : string) (i : Z) (n : nat)
    (questions : list QuizQuestion.t) (t : DatabaseTable QuizQuestionRecord.t)
  : DatabaseTable QuizQuestionRecord.t :=
  match questions with
  | [] => t
  | question :: others =>
      inserted quizSetId (i + 1) (S n) others
        (tbl_set (Math_random_id n)
           (question_row quizSetId i (Math_random_id n) question) t)
  end.

Lemma insert_questions_run quizSetId questions : forall i w,
  LocalDatabaseService.insert_questions quizSetId i questions w
  = (Return tt,
     mkWorld
       (with_quiz_questions
          (inserted quizSetId i (entropy w) questions (quiz_questions (db w)))
          (db w))
       (clock w) (entropy w + length questions)).
Proof.
  induction questions as [|question others IH]; intros i w.
  - cbn. unfold ret. destruct w as [d c e]. destruct d.
    cbn. now rewrite Nat.add_0_r.
  - cbn [LocalDatabaseService.insert_questions]. run. rewrite IH.
    cbn [db clock entropy inserted length].
    replace (S (entropy w) + length others)%nat
      with (entropy w + S (length others))%nat by lia.
    reflexivity.
Qed.

(** The rows of one quiz set. *)
Definition of_quiz_set (quizSetId : string) (q : QuizQuestionRecord.t) : bool :=
  QuizQuestionRecord.quiz_set_id q =? quizSetId.

(** A row of the quiz set written under a key that held no row of it is
    one row more of the quiz set. *)
Lemma set_filter_perm quizSetId k r (t : DatabaseTable QuizQuestionRecord.t) :
  (forall v, tbl_get k t = Some v -> of_quiz_set quizSetId v = false) ->
  of_quiz_set quizSetId r = true ->
  Permutation (filter (of_quiz_set quizSetId) (Object_values (tbl_set k r t)))
              (filter (of_quiz_set quizSetId) (Object_values t) ++ [r]).
Proof.
  intros Hold Hr. induction t as [|[k0 v0] t IH].
  - cbn. rewrite Hr. apply Permutation_refl.
  - cbn [tbl_set tbl_get] in *. destruct (k0 =? k) eqn:E.
    + cbn [Object_values map snd filter]. rewrite Hr.
      rewrite (Hold v0 eq_refl). apply Permutation_cons_append.
    + cbn [Object_values map snd filter].
      destruct (of_quiz_set quizSetId v0).
      * cbn [app]. apply perm_skip. now apply IH.
      * now apply IH.
Qed.

Lemma question_rows_of_quiz_set quizSetId questions : forall i n r,
  In r (question_rows quizSetId i n questions) ->
  of_quiz_set quizSetId r = true.
Proof.
  induction questions as [|question others IH]; intros i n r; [intros []|].
  cbn [question_rows]. intros [<-|Hin].
  - unfold of_quiz_set. cbn. apply String.eqb_refl.
  - exact (IH _ _ _ Hin).
Qed.

(** The loop adds exactly its rows to the rows of the quiz set, when the
    ids it generates differ from one another and from the keys of the rows
    the quiz set had. *)
Lemma inserted_filter quizSetId questions : forall i n t,
  NoDup (map Math_random_id (seq n (length questions))) ->
  (forall k, In k (map Math_random_id (seq n (length questions))) ->
   forall v, tbl_get k t = Some v -> of_quiz_set quizSetId v = false) ->
  Permutation
    (filter (of_quiz_set quizSetId)
       (Object_values (inserted quizSetId i n questions t)))
    (filter (of_quiz_set quizSetId) (Object_values t)
       ++ question_rows quizSetId i n questions).
Proof.
  induction questions as [|question others IH]; intros i n t Hnd Hold.
  - cbn. rewrite app_nil_r. apply Permutation_refl.
  - cbn [inserted question_rows length seq map] in *.
    inversion Hnd as [|? ? Hfresh Hnd']; subst.
    set (k := Math_random_id n) in *.
    set (r := question_row quizSetId i k question).
    eapply Permutation_trans.
    + apply IH; [exact Hnd'|].
      intros k' Hk' v Hv. rewrite tbl_get_set_other in Hv.
      * apply (Hold k'); [now right | exact Hv].
      * intros ->. contradiction.
    + eapply Permutation_trans.
      * apply Permutation_app_tail. apply set_filter_perm.
        -- intros v Hv. apply (Hold k); [now left | exact Hv].
        -- unfold of_quiz_set. cbn. apply String.eqb_refl.
      * rewrite <- app_assoc. apply Permutation_refl.
Qed.

(** The question a row stands for, once its two texts are known to parse. *)
Definition question_view (row : QuizQuestionRecord.t) : QuizQuestion.t :=
  QuizQuestion.mk (QuizQuestionRecord.image_url row)
    (QuizQuestionRecord.image_desc row) (QuizQuestionRecord.question row)
    (QuizQuestionRecord.choice_type row)
    (match JSON_parse (QuizQuestionRecord.options_json row) with
     | Some j => j
     | None => JNull
     end)
    (match JSON_parse (QuizQuestionRecord.correct_answer_json row) with
     | Some j => j
     | None => JNull
     end).

Lemma question_view_rows quizSetId questions : forall i n,
  map question_view (question_rows quizSetId i n questions) = questions.
Proof.
  induction questions as [|question others IH]; intros i n; [reflexivity|].
  cbn [question_rows map]. rewrite IH. f_equal.
  unfold question_view, question_row. cbn.
  rewrite !JSON_parse_stringify. now destruct question.
Qed.

Lemma question_of_record_written quizSetId i questionId question w :
  LocalDatabaseService.question_of_record
    (question_row quizSetId i questionId question) w
  = (Return (question_view (question_row quizSetId i questionId question)), w).
Proof.
  unfold LocalDatabaseService.question_of_record, question_view, bind,
    LocalDatabaseService.JSON_parse_or_throw. cbn.
  now rewrite !JSON_parse_stringify.
Qed.

Lemma In_question_rows quizSetId questions : forall i n r,
  In r (question_rows quizSetId i n questions) ->
  exists i' id' question, r = question_row quizSetId i' id' question.
Proof.
  induction questions as [|question others IH]; intros i n r; [intros []|].
  cbn [question_rows]. intros [<-|Hin].
  - now exists i, (Math_random_id n), question.
  - exact (IH _ _ _ Hin).
Qed.

(** X24.  A new quiz set.  [createQuizSet] returns a quiz set that is not
    published, under the generated id, with the name, description, creator
    and tenant given.  When no question row was attributed to that id before
    and the ids generated for the questions differ from one another, the
    questions it returns are the questions given (as the runtime's sort
    orders them), and [getQuizSetById] then returns the same quiz set. *)
Theorem createQuizSet_returns_the_questions
    (name description : string) (questions : list QuizQuestion.t)
    (createdBy : string) (tenantId : option string) (w : World) :
  (forall q, In q (Object_values (quiz_questions (db w))) ->
             QuizQuestionRecord.quiz_set_id q <> Math_random_id (entropy w)) ->
  NoDup (map Math_random_id (seq (S (entropy w)) (length questions))) ->
  exists quiz w',
    LocalDatabaseService.createQuizSet name description questions createdBy
      tenantId w
    = (Return (Some quiz), w')
    /\ QuizSet.id quiz = Math_random_id (entropy w)
    /\ QuizSet.name quiz = name
    /\ QuizSet.description quiz = description
    /\ QuizSet.isPublished quiz = false
    /\ QuizSet.tenantId quiz = tenantId
    /\ QuizSet.createdBy quiz = createdBy
    /\ QuizSet.createdAt quiz = Date_toISOString (clock w)
    /\ QuizSet.updatedAt quiz = Date_toISOString (clock w)
    /\ Permutation (QuizSet.questions quiz) questions
    /\ LocalDatabaseService.getQuizSetById (QuizSet.id quiz) w'
       = (Return (Some quiz), w').
Proof.
  intros Hnone Hnd.
  set (quizSetId := Math_random_id (entropy w)).
  unfold LocalDatabaseService.createQuizSet.
  unfold bind at 1, LocalDatabaseService.generateId at 1.
  unfold bind at 1, LocalDatabaseService.new_Date_toISOString at 1.
  unfold bind at 1, modify_db at 1.
  unfold bind at 1. rewrite insert_questions_run.
  unfold bind at 1, LocalDatabaseService.saveDatabase at 1.
  unfold bind at 1, LocalDatabaseService.new_Date_toISOString at 1.
  unfold modify_db at 1.
  cbn [db clock entropy quiz_questions with_quiz_sets with_quiz_questions
       quiz_sets]. fold quizSetId.
  set (t' := inserted quizSetId 0 (S (entropy w)) questions
               (quiz_questions (db w))).
  match goal with
  | |- exists quiz w', LocalDatabaseService.getQuizSetById _ ?x = _ /\ _ =>
      set (w1 := x)
  end.
  assert (Hperm : Permutation
            (filter (of_quiz_set quizSetId) (Object_values t'))
            (question_rows quizSetId 0 (S (entropy w)) questions)).
  { assert (Hold : forall v, In v (Object_values (quiz_questions (db w))) ->
                   of_quiz_set quizSetId v = false).
    { intros v Hv. unfold of_quiz_set. apply String.eqb_neq. now apply Hnone. }
    assert (Hempty : filter (of_quiz_set quizSetId)
                       (Object_values (quiz_questions (db w))) = []).
    { apply filter_nil_when. exact Hold. }
    subst t'. rewrite <- (app_nil_l (question_rows _ _ _ _)), <- Hempty.
    apply inserted_filter; [exact Hnd|].
    intros k _ v Hv. apply Hold. apply In_Object_values. exists k.
    now apply tbl_get_In. }
  assert (Hrun : LocalDatabaseService.getQuizSetById quizSetId w1
    = (Return
         (Some (QuizSet.mk quizSetId name description
                  (map question_view
                     (Array_sort
                        (fun a b => Some (QuizQuestionRecord.order_index a
                                          - QuizQuestionRecord.order_index b)%Z)
                        (filter (of_quiz_set quizSetId) (Object_values t'))))
                  false tenantId createdBy (Date_toISOString (clock w))
                  (Date_toISOString (clock w)))), w1)).
  { unfold LocalDatabaseService.getQuizSetById.
    unfold bind at 1, get_db at 1.
    assert (Hqs : tbl_get quizSetId (quiz_sets (db w1))
                  = Some (QuizSetRecord.mk quizSetId name description false
                            tenantId createdBy (Date_toISOString (clock w))
                            (Date_toISOString (clock w))))
      by (subst w1; cbn; apply tbl_get_set_same).
    assert (Hqq : quiz_questions (db w1) = t') by reflexivity.
    rewrite Hqs, Hqq. fold (of_quiz_set quizSetId).
    unfold bind at 1. rewrite mapM_pure with (g := question_view).
    - reflexivity.
    - intros r Hr w0.
      apply (Permutation_in _ (Array_sort_perm _ _)) in Hr.
      apply (Permutation_in _ Hperm) in Hr.
      destruct (In_question_rows _ _ _ _ _ Hr) as [i' [id' [question ->]]].
      apply question_of_record_written. }
  rewrite Hrun. do 2 eexists. split; [reflexivity|].
  cbn [QuizSet.id QuizSet.name QuizSet.description QuizSet.isPublished
       QuizSet.tenantId QuizSet.createdBy QuizSet.createdAt QuizSet.updatedAt
       QuizSet.questions].
  do 8 (split; [reflexivity|]). split; [|exact Hrun].
  rewrite <- (question_view_rows quizSetId questions 0 (S (entropy w))).
  apply Permutation_map.
  eapply Permutation_trans; [apply Array_sort_perm | exact Hperm].
Qed.

End NewQuizSet.

(* ===================================================================== *)
(** * Uploaded questions and the judgement of answers *)
(* ===================================================================== *)

Section Questions.

(** A value that [includes] can find: not an object and not an array. *)
Definition primitive (v : json) : Prop :=
  match v with
  | JArr _ | JObj _ => False
  | _ => True
  end.

Lemma same_value_zero_true x y :
  same_value_zero x y = true <-> x = y /\ primitive y.
Proof.
  destruct x, y; cbn; try (split; [discriminate | intros [H _]; discriminate H]);
    try (split; [discriminate | intros [_ []]]).
  - split; auto.
  - rewrite Bool.eqb_true_iff. split; [intros ->; auto | intros [[= ->] _]; auto].
  - rewrite Z.eqb_eq. split; [intros ->; auto | intros [[= ->] _]; auto].
  - rewrite String.eqb_eq. split; [intros ->; auto | intros [[= ->] _]; auto].
Qed.

Lemma includes_true a x : includes a x = true <-> In x a /\ primitive x.
Proof.
  unfold includes. rewrite existsb_exists. split.
  - intros [y [Hin Hy]]. apply same_value_zero_true in Hy.
    destruct Hy as [-> Hp]. auto.
  - intros [Hin Hp]. exists x. split; [exact Hin|].
    apply same_value_zero_true. auto.
Qed.

(** A question that [validateQuestionFormat] lets through: an object with
    three non-empty texts, one of the two choice types, at least two
    options, and a correct answer that is among the options: one non-empty
    text for 'radio', an array of options for 'multiplechoice'. *)
Definition well_formed_question (q : json) : Prop :=
  exists l imageurl imagedesc question choice options correct,
    q = JObj l
    /\ Blob.member "imageurl" l = Some (JStr imageurl) /\ imageurl <> ""
    /\ Blob.member "imagedesc" l = Some (JStr imagedesc) /\ imagedesc <> ""
    /\ Blob.member "question" l = Some (JStr question) /\ question <> ""
    /\ Blob.member "choice_type" l = Some (JStr choice)
    /\ Blob.member "options" l = Some (JArr options)
    /\ (2 <= length options)%nat
    /\ Blob.member "correct_answer" l = Some correct
    /\ ((choice = "multiplechoice"
         /\ exists answers,
             correct = JArr answers
             /\ forall a, In a answers -> In a options /\ primitive a)
        \/ (choice = "radio"
            /\ exists answer,
                correct = JStr answer /\ answer <> ""
                /\ In (JStr answer) options)).

(** A property that is a non-empty text. *)
Lemma text_property (x : option json) :
  Blob.falsy x || QuizManager.not_a_string x = false
  <-> exists s, x = Some (JStr s) /\ s <> "".
Proof.
  destruct x as [v|]; [destruct v as [| | |s| |]|]; cbn;
    rewrite ?orb_true_r, ?orb_false_r;
    try (split; [discriminate | intros [s' [H _]]; discriminate H]).
  unfold truthy. rewrite negb_involutive.
  rewrite String.eqb_neq. split.
  - intros H. now exists s.
  - now intros [s' [[= <-] H]].
Qed.

(** A property that is one of the two choice types. *)
Lemma choice_property (x : option json) :
  Blob.falsy x || QuizManager.not_a_choice_type x = false
  <-> exists c, x = Some (JStr c) /\ (c = "multiplechoice" \/ c = "radio").
Proof.
  destruct x as [v|]; [|split; [discriminate | intros [c [H _]]; discriminate H]].
  unfold QuizManager.not_a_choice_type, Blob.falsy.
  rewrite orb_false_iff, !negb_false_iff, includes_true. split.
  - intros [_ [[<-|[<-|[]]] _]]; eexists; split; eauto.
  - intros [c [[= ->] [->| ->]]]; (split; [reflexivity|]); split; cbn; auto.
Qed.

(** A property that is an array of at least two. *)
Lemma options_property (x : option json) :
  QuizManager.fewer_than_two x = false
  <-> exists options, x = Some (JArr options) /\ (2 <= length options)%nat.
Proof.
  destruct x as [v|]; [destruct v as [| | | |options|]|]; cbn [QuizManager.fewer_than_two];
    try (split; [discriminate | intros [o [H _]]; discriminate H]).
  rewrite Nat.ltb_ge. split.
  - intros H. now exists options.
  - now intros [o [[= <-] H]].
Qed.

Lemma truthy_property (x : option json) :
  Blob.falsy x = false <-> exists v, x = Some v /\ json_truthy v = true.
Proof.
  destruct x as [v|]; cbn [Blob.falsy].
  - rewrite negb_false_iff. split.
    + intros H. now exists v.
    + now intros [v' [[= <-] H]].
  - split; [discriminate | intros [v [H _]]; discriminate H].
Qed.

Lemma validate_question_complete q :
  well_formed_question q -> QuizManager.validate_question q = Return true.
Proof.
  intros (l & imageurl & imagedesc & question & choice & options & correct
          & -> & H1 & N1 & H2 & N2 & H3 & N3 & H4 & H5 & Hlen & H6 & Hanswer).
  unfold QuizManager.validate_question.
  cbn [Blob.property QuizManager.field].
  rewrite (proj2 (text_property (Blob.member "imageurl" l)))
    by (exists imageurl; auto).
  rewrite (proj2 (text_property (Blob.member "imagedesc" l)))
    by (exists imagedesc; auto).
  rewrite (proj2 (text_property (Blob.member "question" l)))
    by (exists question; auto).
  rewrite (proj2 (choice_property (Blob.member "choice_type" l)))
    by (exists choice; split; [exact H4|];
        destruct Hanswer as [[-> _]|[-> _]]; auto).
  rewrite (proj2 (options_property (Blob.member "options" l)))
    by (exists options; auto).
  unfold QuizManager.among_options. cbn [QuizManager.field].
  rewrite H4, H5, H6. cbn [QuizManager.is_multiplechoice].
  destruct Hanswer as [[-> [answers [-> Hall]]]|[-> [answer [-> [Hne Hin]]]]].
  - cbn [Blob.falsy json_truthy negb].
    change ("multiplechoice" =? "multiplechoice") with true. cbv iota.
    f_equal. apply forallb_forall. intros x Hx. apply includes_true.
    now apply Hall.
  - cbn [Blob.falsy json_truthy]. unfold truthy.
    apply String.eqb_neq in Hne. rewrite Hne. cbn [negb].
    change ("radio" =? "multiplechoice") with false. cbv iota.
    f_equal. apply includes_true. split; [exact Hin | exact I].
Qed.

Lemma validate_question_sound q :
  QuizManager.validate_question q = Return true -> well_formed_question q.
Proof.
  unfold QuizManager.validate_question.
  destruct q as [|b|z|s|arr|l]; cbn [Blob.property QuizManager.field Blob.falsy orb];
    try discriminate.
  destruct (Blob.falsy (Blob.member "imageurl" l)
            || QuizManager.not_a_string (Blob.member "imageurl" l)) eqn:E1;
    [discriminate|].
  destruct (Blob.falsy (Blob.member "imagedesc" l)
            || QuizManager.not_a_string (Blob.member "imagedesc" l)) eqn:E2;
    [discriminate|].
  destruct (Blob.falsy (Blob.member "question" l)
            || QuizManager.not_a_string (Blob.member "question" l)) eqn:E3;
    [discriminate|].
  destruct (Blob.falsy (Blob.member "choice_type" l)
            || QuizManager.not_a_choice_type (Blob.member "choice_type" l)) eqn:E4;
    [discriminate|].
  destruct (QuizManager.fewer_than_two (Blob.member "options" l)) eqn:E5;
    [discriminate|].
  destruct (Blob.falsy (Blob.member "correct_answer" l)) eqn:E6; [discriminate|].
  apply text_property in E1, E2, E3. apply choice_property in E4.
  apply options_property in E5. apply truthy_property in E6.
  destruct E1 as [imageurl [H1 N1]]. destruct E2 as [imagedesc [H2 N2]].
  destruct E3 as [question [H3 N3]]. destruct E4 as [choice [H4 Hchoice]].
  destruct E5 as [options [H5 Hlen]]. destruct E6 as [correct [H6 Ht]].
  unfold QuizManager.among_options. cbn [QuizManager.field].
  rewrite H4, H5, H6. cbn [QuizManager.is_multiplechoice].
  intros Hrun.
  exists l, imageurl, imagedesc, question, choice, options, correct.
  do 11 (split; [assumption || reflexivity|]).
  destruct Hchoice as [->| ->].
  - left. split; [reflexivity|].
    change ("multiplechoice" =? "multiplechoice") with true in Hrun.
    cbv iota in Hrun.
    destruct correct as [| | | |answers|]; try discriminate Hrun.
    exists answers. split; [reflexivity|].
    injection Hrun as Hall. rewrite forallb_forall in Hall.
    intros x Hx. apply includes_true. now apply Hall.
  - right. split; [reflexivity|].
    change ("radio" =? "multiplechoice") with false in Hrun. cbv iota in Hrun.
    destruct correct as [| | |answer| |]; try discriminate Hrun.
    exists answer. split; [reflexivity|].
    injection Hrun as Hin. apply includes_true in Hin. destruct Hin as [Hin _].
    split; [|exact Hin]. cbn in Ht. unfold truthy in Ht.
    apply negb_true_iff in Ht. now apply String.eqb_neq.
Qed.

Lemma validate_question_true q :
  QuizManager.validate_question q = Return true <-> well_formed_question q.
Proof.
  split; [apply validate_question_sound | apply validate_question_complete].
Qed.

Lemma validate_question_throws q e :
  QuizManager.validate_question q = Throw e -> q = JNull /\ e = TypeError.
Proof.
  unfold QuizManager.validate_question.
  destruct q as [| | | | |l]; cbn [Blob.property QuizManager.field].
  - now intros [= <-].
  - cbn. discriminate.
  - cbn. discriminate.
  - cbn. discriminate.
  - cbn. discriminate.
  - repeat match goal with
      | |- context [if ?b then _ else _] => destruct b
      | |- context [match ?x with _ => _ end] => destruct x
      end; discriminate.
Qed.

Lemma validate_from_true l :
  QuizManager.validate_from l = Return true <-> Forall well_formed_question l.
Proof.
  induction l as [|q l IH]; cbn [QuizManager.validate_from].
  - split; [constructor | reflexivity].
  - pose proof (validate_question_true q) as Hq.
    destruct (QuizManager.validate_question q) as [[|]|e].
    + rewrite IH. split.
      * intros H. constructor; [now apply Hq | exact H].
      * intros H. now inversion H.
    + split; [discriminate|]. intros H. inversion H as [|? ? Hwf _]; subst.
      apply Hq in Hwf. discriminate.
    + split; [discriminate|]. intros H. inversion H as [|? ? Hwf _]; subst.
      apply Hq in Hwf. discriminate.
Qed.

Lemma validate_from_throws l e :
  QuizManager.validate_from l = Throw e -> In JNull l /\ e = TypeError.
Proof.
  induction l as [|q l IH]; cbn [QuizManager.validate_from]; [discriminate|].
  destruct (QuizManager.validate_question q) as [[|]|e'] eqn:E.
  - intros H. destruct (IH H) as [Hin He]. split; [now right | exact He].
  - discriminate.
  - intros [= <-]. apply validate_question_throws in E. destruct E as [-> ->].
    split; [now left | reflexivity].
Qed.

End Questions.

Section UploadedFile.
Context {rt : JsRuntime}.

(** X25.  The check of an uploaded file.  [validateQuestionFormat] returns
    [true] exactly on an array whose elements are all well-formed questions
    (an empty array included), and throws only a [TypeError], on an array
    that holds [null].  So the questions [handleFileUpload] hands on are
    those of a text that parses to such an array. *)
Theorem validateQuestionFormat_accepts_well_formed_questions (questions : json) :
  (QuizManager.validateQuestionFormat questions = Return true
   <-> exists l, questions = JArr l /\ Forall well_formed_question l)
  /\ (forall e, QuizManager.validateQuestionFormat questions = Throw e ->
      e = TypeError /\ exists l, questions = JArr l /\ In JNull l)
  /\ (forall jsonContent,
      QuizManager.onload jsonContent = Some questions
      <-> JSON_parse jsonContent = Some questions
          /\ exists l, questions = JArr l /\ Forall well_formed_question l).
Proof.
  assert (Htrue : QuizManager.validateQuestionFormat questions = Return true
                  <-> exists l, questions = JArr l /\ Forall well_formed_question l).
  { unfold QuizManager.validateQuestionFormat.
    destruct questions as [| | | |l|];
      try (split; [discriminate | intros [l' [H _]]; discriminate H]).
    rewrite validate_from_true. split.
    - intros H. now exists l.
    - now intros [l' [[= <-] H]]. }
  split; [exact Htrue|]. split.
  - intros e. unfold QuizManager.validateQuestionFormat.
    destruct questions as [| | | |l|]; try discriminate.
    intros H. apply validate_from_throws in H. destruct H as [Hin ->].
    split; [reflexivity|]. now exists l.
  - intros jsonContent. unfold QuizManager.onload.
    destruct (JSON_parse jsonContent) as [parsed|].
    + destruct (QuizManager.validateQuestionFormat parsed) as [[|]|e] eqn:E.
      * split.
        -- intros [= <-]. split; [reflexivity|]. now apply Htrue.
        -- now intros [[= <-] _].
      * split; [discriminate|]. intros [[= <-] H]. apply Htrue in H.
        congruence.
      * split; [discriminate|]. intros [[= <-] H]. apply Htrue in H.
        congruence.
    + split; [discriminate | intros [H _]; discriminate H].
Qed.

End UploadedFile.

(* ===================================================================== *)
(** * The judgement of an answer *)
(* ===================================================================== *)

Section Judgement.

Lemma includes_text (cs : list string) (answer : string) :
  includes (map JStr cs) (JStr answer) = true <-> In answer cs.
Proof.
  rewrite includes_true, in_map_iff. split.
  - intros [[c [[= ->] Hin]] _]. exact Hin.
  - intros Hin. split; [now exists answer | exact I].
Qed.

(** X26.  A single-choice question is answered correctly by exactly one
    selection: the one answer that is the text [correct_answer]. *)
Theorem isAnswerCorrect_radio
    (question : QuizQuestion.t) (selectedAnswers : list string) :
  QuizQuestion.choice_type question = Radio ->
  (TestInterface.isAnswerCorrect question selectedAnswers = true
   <-> exists answer,
       selectedAnswers = [answer]
       /\ QuizQuestion.correct_answer question = JStr answer).
Proof.
  intros Hradio. unfold TestInterface.isAnswerCorrect. rewrite Hradio.
  destruct selectedAnswers as [|selected [|another rest]].
  - split; [discriminate | intros [a [H _]]; discriminate H].
  - destruct (QuizQuestion.correct_answer question) as [| | |c| |];
      try (split; [discriminate | intros [a [_ H]]; discriminate H]).
    rewrite String.eqb_eq. split.
    + intros ->. now exists c.
    + now intros [a [[= ->] [= ->]]].
  - split; [discriminate | intros [a [H _]]; discriminate H].
Qed.

(** X27.  A multiple-choice question whose correct answers are the texts [cs].
    A selection without repetition (what the toggle of the screen builds)
    is judged correct exactly when it holds the same answers as [cs], in
    any order, and [cs] itself has no repetition: a question whose correct
    answers repeat one can never be answered correctly. *)
Theorem isAnswerCorrect_multiplechoice
    (question : QuizQuestion.t) (cs selectedAnswers : list string) :
  QuizQuestion.choice_type question = MultipleChoice ->
  TestInterface.correctAnswers question = map JStr cs ->
  NoDup selectedAnswers ->
  (TestInterface.isAnswerCorrect question selectedAnswers = true
   <-> NoDup cs /\ Permutation selectedAnswers cs).
Proof.
  intros Hmulti Hcs Hnd. unfold TestInterface.isAnswerCorrect.
  rewrite Hmulti, Hcs, length_map, andb_true_iff, Nat.eqb_eq, forallb_forall.
  split.
  - intros [Hlen Hall].
    assert (Hincl : incl selectedAnswers cs)
      by (intros a Ha; apply includes_text; now apply Hall).
    split.
    + apply (NoDup_incl_NoDup Hnd); [lia | exact Hincl].
    + apply NoDup_Permutation_bis; [exact Hnd | lia | exact Hincl].
  - intros [_ Hperm]. split; [now apply Permutation_length|].
    intros a Ha. apply includes_text. now apply (Permutation_in _ Hperm).
Qed.

(** X28.  The toggle of a multiple-choice answer keeps the selection free of
    repetition: it takes the answer out when it is selected and puts it in
    when it is not, and touches no other answer. *)
Theorem handleMultipleAnswerToggle_keeps_a_set
    (answer : string) (prev : list string) :
  NoDup prev ->
  NoDup (TestInterface.handleMultipleAnswerToggle answer prev)
  /\ (In answer (TestInterface.handleMultipleAnswerToggle answer prev)
      <-> ~ In answer prev)
  /\ (forall other, other <> answer ->
      (In other (TestInterface.handleMultipleAnswerToggle answer prev)
       <-> In other prev)).
Proof.
  intros Hnd. unfold TestInterface.handleMultipleAnswerToggle.
  destruct (existsb (String.eqb answer) prev) eqn:E.
  - assert (Hin : In answer prev).
    { apply existsb_exists in E. destruct E as [x [Hx Heq]].
      apply String.eqb_eq in Heq. now subst. }
    split; [now apply NoDup_filter|]. split.
    + rewrite filter_In, negb_true_iff, String.eqb_neq. split.
      * intros [_ H]. now contradiction H.
      * intros H. now contradiction H.
    + intros other Hne. rewrite filter_In, negb_true_iff, String.eqb_neq.
      tauto.
  - assert (Hout : ~ In answer prev).
    { intros Hin. rewrite (proj2 (existsb_exists (String.eqb answer) prev)) in E;
        [discriminate|].
      exists answer. split; [exact Hin | apply String.eqb_refl]. }
    split; [|split].
    + apply NoDup_app; [exact Hnd | repeat constructor; intros [] |].
      intros x Hx [<-|[]]. now apply Hout.
    + rewrite in_app_iff. cbn. tauto.
    + intros other Hne. rewrite in_app_iff. cbn. split; [|tauto].
      intros [H|[H|[]]]; [exact H | now contradiction Hne].
Qed.

End Judgement.

(* ===================================================================== *)
(** * Editing a quiz set *)
(* ===================================================================== *)

Section EditQuizSet.
Context {rt : JsRuntime}.

(** A callback that reads nothing of the world and leaves it as it is. *)
Definition pure_call (A : Type) (m : M A) : Prop :=
  exists o, forall w, m w = (o, w).

Lemma question_of_record_pure q :
  pure_call (LocalDatabaseService.question_of_record q).
Proof.
  unfold pure_call, LocalDatabaseService.question_of_record,
    LocalDatabaseService.JSON_parse_or_throw, bind, ret, throw.
  destruct (JSON_parse (QuizQuestionRecord.options_json q));
    [|eexists; intros w; reflexivity].
  destruct (JSON_parse (QuizQuestionRecord.correct_answer_json q));
    eexists; intros w; reflexivity.
Qed.

Lemma mapM_pure_call (A B : Type) (f : A -> M B) (l : list A) :
  (forall x, pure_call (f x)) -> pure_call (mapM f l).
Proof.
  intros Hf. induction l as [|x l IH].
  - exists (Return []). reflexivity.
  - destruct (Hf x) as [[y|e] Hx], IH as [[ys|e'] Hl].
    + exists (Return (y :: ys)). intros w. cbn [mapM]. unfold bind, ret.
      now rewrite Hx, Hl.
    + exists (Throw e'). intros w. cbn [mapM]. unfold bind, ret.
      now rewrite Hx, Hl.
    + exists (Throw e). intros w. cbn [mapM]. unfold bind. now rewrite Hx.
    + exists (Throw e). intros w. cbn [mapM]. unfold bind. now rewrite Hx.
Qed.

(** The row of a quiz set as [updateQuizSet] rewrites it at time [now]. *)
Definition edited (updates : QuizSetUpdates.t) (now : string)
    (r : QuizSetRecord.t) : QuizSetRecord.t :=
  QuizSetRecord.mk (QuizSetRecord.id r)
    (LocalDatabaseService.assign (QuizSetUpdates.name updates)
       (QuizSetRecord.name r))
    (LocalDatabaseService.assign (QuizSetUpdates.description updates)
       (QuizSetRecord.description r))
    (LocalDatabaseService.assign (QuizSetUpdates.isPublished updates)
       (QuizSetRecord.is_published r))
    (QuizSetRecord.tenant_id r) (QuizSetRecord.created_by r)
    (QuizSetRecord.created_at r) now.

(** The quiz set [before] as an edit shows it afterwards. *)
Definition edited_view (updates : QuizSetUpdates.t) (now : string)
    (before : QuizSet.t) : QuizSet.t :=
  QuizSet.mk (QuizSet.id before)
    (LocalDatabaseService.assign (QuizSetUpdates.name updates)
       (QuizSet.name before))
    (LocalDatabaseService.assign (QuizSetUpdates.description updates)
       (QuizSet.description before))
    (QuizSet.questions before)
    (LocalDatabaseService.assign (QuizSetUpdates.isPublished updates)
       (QuizSet.isPublished before))
    (QuizSet.tenantId before) (QuizSet.createdBy before)
    (QuizSet.createdAt before) now.

(** X29.  [updateQuizSet] returns [null] on an id that no quiz set has and that
    is not the name of a member of [Object.prototype], and leaves the world
    as it was.  On a quiz set that exists it writes the name, the
    description and the publication flag that the update holds and the time
    of the call, and nothing else: no question, no other quiz set, and not
    the tenant, the creator or the date of creation of the row.  It returns
    what [getQuizSetById] returned before with these fields replaced, the
    questions being the same; and where [getQuizSetById] threw (a question
    whose JSON does not parse) it throws the same error, after the row has
    been written. *)
Theorem updateQuizSet_edits_the_row
    (id : string) (updates : QuizSetUpdates.t) (w : World) :
  match tbl_get id (quiz_sets (db w)) with
  | None =>
      Object_prototype_member id = false ->
      DataServiceAdapter.updateQuizSet id updates w = (Return None, w)
  | Some r =>
      let now := Date_toISOString (clock w) in
      let w' := snd (DataServiceAdapter.updateQuizSet id updates w) in
      tbl_get id (quiz_sets (db w')) = Some (edited updates now r)
      /\ (forall k, k <> id ->
          tbl_get k (quiz_sets (db w')) = tbl_get k (quiz_sets (db w)))
      /\ quiz_questions (db w') = quiz_questions (db w)
      /\ match fst (LocalDatabaseService.getQuizSetById id w) with
         | Return (Some before) =>
             fst (DataServiceAdapter.updateQuizSet id updates w)
             = Return (Some (edited_view updates now before))
         | Return None => False
         | Throw e =>
             fst (DataServiceAdapter.updateQuizSet id updates w) = Throw e
         end
  end.
Proof.
  unfold DataServiceAdapter.updateQuizSet, LocalDatabaseService.updateQuizSet.
  run. destruct (tbl_get id (quiz_sets (db w))) as [r|] eqn:Hget;
    [|intros _; reflexivity].
  run. fold (edited updates (Date_toISOString (clock w)) r).
  unfold LocalDatabaseService.getQuizSetById. run.
  cbn [quiz_sets quiz_questions LocalDatabaseService.stamped with_metadata
       with_quiz_sets].
  rewrite tbl_get_set_same, Hget.
  match goal with
  | |- context [mapM ?f ?l] =>
      destruct (@mapM_pure_call _ _ f l question_of_record_pure) as [o Ho]
  end.
  rewrite !Ho. cbv zeta.
  destruct o as [questions|e]; cbn [fst snd db quiz_sets quiz_questions
    LocalDatabaseService.stamped with_metadata with_quiz_sets].
  - split; [apply tbl_get_set_same|]. split; [|split; reflexivity].
    intros k Hk. apply tbl_get_set_other. congruence.
  - split; [apply tbl_get_set_same|]. split; [|split; reflexivity].
    intros k Hk. apply tbl_get_set_other. congruence.
Qed.

End EditQuizSet.

(* ===================================================================== *)
(** * The adapter on the reference browser *)
(* ===================================================================== *)

(** The ids of the adapter on the reference browser: the clock in
    milliseconds since 1970 in decimal, and nine digits in base 36. *)
#[export] Instance reference_identifiers : JsIdentifiers := {|
  Date_now := fun n =>
    string_of_list_ascii (JsonText.print_Z (1735689600000 + Z.of_nat n));
  Math_random_digits := fun n =>
    LocalDatabaseService.toString36 9
      (2821109907456 + (Z.of_nat n * 2654435761 + 40503) mod 98738846760960) ""
|}.

(** The settings every row of the demo store holds. *)
Definition demo_settings : json :=
  JObj [("allowUserRegistration", JBool true); ("maxAdmins", JNum 5);
        ("maxUsers", JNum 100); ("maxQuizzes", JNum 50)].


(** X4, an instance.  Bob with a wrong password at the demo store. *)
Lemma failed_login_changes_nothing_witness :
  DataServiceAdapter.loginUser "bob@globex.example" "letmein" Demo.world
  = (Return None, Demo.world).
Proof.
  apply (@failed_login_changes_nothing reference_browser "bob@globex.example"
           "letmein" Demo.world).
  right. exists Demo.bob. split; vm_compute; reflexivity.
Defined.

(** X9, an instance.  Cat registers Initech at the demo store. *)
Lemma registration_until_approval_witness :
  exists tenant user w1 w2 w3 w4,
    DataServiceAdapter.createTenantAndAdmin false "Cat" "cat@initech.example"
      "s3cret" "Initech" Demo.world
    = (Return (Local tenant, user), w1)
    /\ Tenant.status tenant = TenantPending
    /\ User.status user = Pending
    /\ DataServiceAdapter.loginUser "cat@initech.example" "s3cret" w1
       = (Return None, w2)
    /\ DataServiceAdapter.approveTenant (Tenant.id tenant) "root" w2
       = (Return true, w3)
    /\ DataServiceAdapter.loginUser "cat@initech.example" "s3cret" w3
       = (Return (Some (User.mk (User.id user) "Cat" "cat@initech.example" Admin
                          (Some (Tenant.id tenant)) Active
                          (User.createdAt user))), w4).
Proof.
  destruct (@registration_until_approval reference_browser reference_identifiers
              "Cat" "cat@initech.example" "s3cret" "Initech" "root" Demo.world)
    as [_ Hfree].
  - vm_compute. reflexivity.
  - destruct Hfree
      as [tenant [user [w1 [w2 [w3 [w4
           [Hrun [Hst [_ [_ [Hus [_ [Hl1 [Hap Hl2]]]]]]]]]]]]]].
    + vm_compute. reflexivity.
    + exists tenant, user, w1, w2, w3, w4. repeat split; assumption.
Defined.

(** X10, an instance.  Acme is rejected at the demo store: Ann stays pending. *)
Lemma rejectTenant_leaves_users_pending_witness :
  exists w1 w2 t1,
    DataServiceAdapter.rejectTenant "tenant-acme" "root" "no such company"
      Demo.world
    = (Return true, w1)
    /\ users (db w1) = users (db Demo.world)
    /\ tbl_get "tenant-acme" (tenants (db w1)) = Some t1
    /\ TenantRecord.status t1 = TenantRejected
    /\ DataServiceAdapter.loginUser "ann@acme.example" "wel123" w1
       = (Return None, w2).
Proof.
  destruct (@rejectTenant_leaves_users_pending reference_browser "tenant-acme"
              "root" "no such company" "ann@acme.example" "wel123" Demo.world
              Demo.acme demo_settings Demo.ann)
    as [w1 [w2 [t1 [Hrun [Hu [Ht [Hs [_ [_ [_ Hl]]]]]]]]]].
  - vm_compute. reflexivity.
  - vm_compute. reflexivity.
  - vm_compute. reflexivity.
  - vm_compute. reflexivity.
  - reflexivity.
  - exists w1, w2, t1. repeat split; assumption.
Defined.

(** X12, an instance.  The published quizzes of Globex at the demo store. *)
Lemma getPublishedQuizzes_of_tenant_witness :
  exists l,
    DataServiceAdapter.getPublishedQuizzes (Some "tenant-globex") Demo.world
    = (Return l, Demo.world)
    /\ exists quiz, In quiz l /\ shows Demo.basics quiz.
Proof.
  destruct (@getPublishedQuizzes_of_tenant reference_browser "tenant-globex"
              Demo.world)
    as [l [Hrun [_ Hall]]].
  - vm_compute. reflexivity.
  - vm_compute. reflexivity.
  - discriminate.
  - exists l. split; [exact Hrun|].
    apply Hall; [left; reflexivity | reflexivity | reflexivity].
Defined.

(** X15, an instance.  Eve takes the basics quiz once more at the demo store. *)
Lemma saveTestResult_counts_one_attempt_witness :
  exists saved w1 n m,
    DataServiceAdapter.saveTestResult
      (demo_result "custom" (Some "quiz-basics")) Demo.world
    = (Return saved, w1)
    /\ DataServiceAdapter.getUserQuizSetAttempts "user-eve" "quiz-basics" w1
       = (Return (S n), w1)
    /\ DataServiceAdapter.getQuizSetAttempts "quiz-basics" w1
       = (Return (S m), w1).
Proof.
  destruct (@saveTestResult_counts_one_attempt reference_browser
              (demo_result "custom" (Some "quiz-basics")) Demo.world)
    as [saved [w1 [n [m [Hrun [_ [Hu [_ [Hq _]]]]]]]]].
  - vm_compute. reflexivity.
  - exists saved, w1, n, m. repeat split; assumption.
Defined.


(** X22, an instance.  The demo store after a login of Bob is well formed. *)
Lemma store_keeps_the_invariant_witness :
  well_formed
    (db (snd (LocalDatabaseService.loginUser "bob@globex.example" "wel123"
                Demo.world))).
Proof.
  destruct (@store_keeps_the_invariant reference_browser Demo.world)
    as [_ [_ [_ [_ [_ [_ [_ [Hlogin _]]]]]]]].
  - repeat split; vm_compute; reflexivity.
  - exact (Hlogin "bob@globex.example" "wel123").
Defined.

(** X23, an instance.  The demo store after a registration is well formed. *)
Lemma adapter_keeps_the_invariant_witness :
  well_formed
    (db (snd (DataServiceAdapter.createTenantAndAdmin false "Cat"
                "cat@initech.example" "s3cret" "Initech" Demo.world))).
Proof.
  destruct (@adapter_keeps_the_invariant reference_browser reference_identifiers
              Demo.world)
    as [_ [Hregistration _]].
  - repeat split; vm_compute; reflexivity.
  - exact (Hregistration false "Cat" "cat@initech.example" "s3cret" "Initech").
Defined.

(** Two questions for a new quiz set. *)
Definition demo_questions : list QuizQuestion.t :=
  [QuizQuestion.mk "https://example.org/s3.png" "A bucket"
     "Which service stores objects?" Radio
     (JArr [JStr "S3"; JStr "EC2"; JStr "IAM"]) (JStr "S3");
   QuizQuestion.mk "https://example.org/vm.png" "A rack"
     "Which services compute?" MultipleChoice
     (JArr [JStr "S3"; JStr "EC2"; JStr "Lambda"])
     (JArr [JStr "EC2"; JStr "Lambda"])].

(** X24, an instance.  Bob creates a quiz set of two questions at the demo store. *)
Lemma createQuizSet_returns_the_questions_witness :
  exists quiz w',
    LocalDatabaseService.createQuizSet "Compute" "Two questions" demo_questions
      "user-bob" (Some "tenant-globex") Demo.world
    = (Return (Some quiz), w')
    /\ QuizSet.isPublished quiz = false
    /\ Permutation (QuizSet.questions quiz) demo_questions
    /\ LocalDatabaseService.getQuizSetById (QuizSet.id quiz) w'
       = (Return (Some quiz), w').
Proof.
  destruct (@createQuizSet_returns_the_questions reference_browser "Compute"
              "Two questions" demo_questions "user-bob" (Some "tenant-globex")
              Demo.world)
    as [quiz [w' [Hrun [_ [_ [_ [Hpub [_ [_ [_ [_ [Hperm Hget]]]]]]]]]]]].
  - intros q [<-|[<-|[<-|[]]]]; vm_compute; discriminate.
  - apply nodupb_NoDup. vm_compute. reflexivity.
  - exists quiz, w'. repeat split; assumption.
Defined.

(** X26, an instance.  The first of the two questions is answered with S3. *)
Lemma isAnswerCorrect_radio_witness :
  TestInterface.isAnswerCorrect
    (QuizQuestion.mk "https://example.org/s3.png" "A bucket"
       "Which service stores objects?" Radio
       (JArr [JStr "S3"; JStr "EC2"; JStr "IAM"]) (JStr "S3"))
    ["S3"]
  = true.
Proof.
  apply isAnswerCorrect_radio; [reflexivity|].
  exists "S3". split; reflexivity.
Defined.

(** X27, an instance.  The second is answered with its two answers in the other order. *)
Lemma isAnswerCorrect_multiplechoice_witness :
  TestInterface.isAnswerCorrect
    (QuizQuestion.mk "https://example.org/vm.png" "A rack"
       "Which services compute?" MultipleChoice
       (JArr [JStr "S3"; JStr "EC2"; JStr "Lambda"])
       (JArr [JStr "EC2"; JStr "Lambda"]))
    ["Lambda"; "EC2"]
  = true.
Proof.
  apply (@isAnswerCorrect_multiplechoice _ ["EC2"; "Lambda"]).
  - reflexivity.
  - reflexivity.
  - apply nodupb_NoDup. reflexivity.
  - split; [apply nodupb_NoDup; reflexivity | apply perm_swap].
Defined.

(** X28, an instance.  EC2 is toggled on a selection that holds it. *)
Lemma handleMultipleAnswerToggle_keeps_a_set_witness :
  NoDup (TestInterface.handleMultipleAnswerToggle "EC2" ["Lambda"; "EC2"])
  /\ ~ In "EC2" (TestInterface.handleMultipleAnswerToggle "EC2" ["Lambda"; "EC2"]).
Proof.
  destruct (@handleMultipleAnswerToggle_keeps_a_set "EC2" ["Lambda"; "EC2"])
    as [Hnd [Hflip _]].
  - apply nodupb_NoDup. reflexivity.
  - split; [exact Hnd|]. intros Hin. apply (proj1 Hflip Hin).
    right. left. reflexivity.
Defined.



(** X13, an instance.  The draft of Acme is published at the demo store and taken back. *)
Lemma publishQuiz_shows_quiz_to_its_tenant_witness :
  exists w1 l1 w2 l2,
    DataServiceAdapter.publishQuiz "quiz-draft" Demo.world = (Return true, w1)
    /\ DataServiceAdapter.getPublishedQuizzes (Some "tenant-acme") w1
       = (Return l1, w1)
    /\ In "quiz-draft" (map QuizSet.id l1)
    /\ DataServiceAdapter.unpublishQuiz "quiz-draft" w1 = (Return true, w2)
    /\ DataServiceAdapter.getPublishedQuizzes (Some "tenant-acme") w2
       = (Return l2, w2)
    /\ ~ In "quiz-draft" (map QuizSet.id l2).
Proof.
  destruct (proj2 (@publishQuiz_shows_quiz_to_its_tenant reference_browser
                     "quiz-draft" "tenant-acme" Demo.world) Demo.draft)
    as [w1 [l1 [w2 [l2 [H1 [H2 [H3 [H4 [H5 [H6 _]]]]]]]]]].
  - vm_compute. reflexivity.
  - vm_compute. reflexivity.
  - vm_compute. reflexivity.
  - reflexivity.
  - discriminate.
  - exists w1, l1, w2, l2. repeat split; assumption.
Defined.

